(** * bsclient: a client of the BetaSeries REST API

    A shallow embedding of the Go package [bsclient] (session and token
    retrieval, the show endpoints, the episode endpoints) together with the
    parts of the Go standard library that the package drives: [strconv.Itoa],
    [strings.ToLower], [net/url]'s query values and [encoding/json]'s decoding
    of the envelopes. *)

From Stdlib Require Import ZArith NArith Ascii String List Lia DecimalString.
From stdpp Require Import base option list gmap strings sorting.

Local Open Scope Z_scope.

(** ** Bytes and strings

    A Go string is a sequence of bytes; [string] (a list of [ascii]) is used
    for it, one [ascii] per byte. *)

Module Bytes.

Definition code (c : ascii) : N := N_of_ascii c.

Definition between (lo hi : N) (c : ascii) : bool :=
  ((lo <=? code c) && (code c <=? hi))%N.

Definition is_upper (c : ascii) : bool := between 65 90 c.
Definition is_lower (c : ascii) : bool := between 97 122 c.
Definition is_digit (c : ascii) : bool := between 48 57 c.

(** [utf8.RuneSelf] is 0x80: bytes below it are single-byte runes. *)
Definition is_ascii (c : ascii) : bool := (code c <? 128)%N.

Definition lower (c : ascii) : ascii :=
  if is_upper c then ascii_of_N (code c + 32) else c.

Definition upperhex (n : N) : ascii :=
  if (n <? 10)%N then ascii_of_N (48 + n) else ascii_of_N (55 + n).

(** The value of a hexadecimal digit ([unhex] of net/url, [getu4] of
    encoding/json). *)
Definition unhex (c : ascii) : option N :=
  if is_digit c then Some (code c - 48)%N
  else if between 97 102 c then Some (code c - 87)%N
  else if between 65 70 c then Some (code c - 55)%N
  else None.

Fixpoint all (p : ascii -> bool) (s : string) : bool :=
  match s with
  | EmptyString => true
  | String c s' => p c && all p s'
  end.

Fixpoint exist (p : ascii -> bool) (s : string) : bool :=
  match s with
  | EmptyString => false
  | String c s' => p c || exist p s'
  end.

Fixpoint map (f : ascii -> ascii) (s : string) : string :=
  match s with
  | EmptyString => EmptyString
  | String c s' => String (f c) (map f s')
  end.

(** [strings.Cut s sep] for a one-byte separator: the text before the first
    [sep], the text after it, and whether [sep] occurs. *)
Fixpoint cut (sep : ascii) (s : string) : string * string * bool :=
  match s with
  | EmptyString => (EmptyString, EmptyString, false)
  | String c s' =>
      if Ascii.eqb c sep then (EmptyString, s', true)
      else let '(a, b, found) := cut sep s' in (String c a, b, found)
  end.

(** [strings.Split s sep] for a one-byte separator. *)
Fixpoint split (sep : ascii) (s : string) : list string :=
  match s with
  | EmptyString => [EmptyString]
  | String c s' =>
      if Ascii.eqb c sep then EmptyString :: split sep s'
      else match split sep s' with
           | [] => [String c EmptyString]
           | w :: ws => String c w :: ws
           end
  end.

Fixpoint join (sep : string) (l : list string) : string :=
  match l with
  | [] => EmptyString
  | [x] => x
  | x :: l' => x +:+ sep +:+ join sep l'
  end.

End Bytes.

(** ** UTF-8 ([unicode/utf8])

    A rune is a [Z]. *)

Module utf8.

Definition RuneError : Z := 0xFFFD.
Definition RuneSelf : Z := 0x80.
Definition MaxRune : Z := 0x10FFFF.

Definition surrogateMin : Z := 0xD800.
Definition surrogateMax : Z := 0xDFFF.

Definition t2 : Z := 0xC0.
Definition t3 : Z := 0xE0.
Definition t4 : Z := 0xF0.
Definition tx : Z := 0x80.

Definition maskx : Z := 0x3F.
Definition mask2 : Z := 0x1F.
Definition mask3 : Z := 0x0F.
Definition mask4 : Z := 0x07.

Definition rune1Max : Z := 0x7F.
Definition rune2Max : Z := 0x7FF.
Definition rune3Max : Z := 0xFFFF.

(** The value of a byte, and the conversion [byte(x)], which keeps the low
    eight bits. *)
Definition value (c : ascii) : Z := Z.of_N (Bytes.code c).
Definition byte (x : Z) : ascii := ascii_of_N (Z.to_N (Z.land x 0xFF)).

(** The tables [first] and [acceptRanges]: for the first byte of a sequence
    of several bytes, the size of the sequence and the bounds of its second
    byte; [None] for an ASCII byte and for a byte that opens no sequence. *)
Definition first (b : Z) : option (nat * Z * Z) :=
  if (0xC2 <=? b) && (b <=? 0xDF) then Some (2%nat, 0x80, 0xBF)
  else if b =? 0xE0 then Some (3%nat, 0xA0, 0xBF)
  else if (0xE1 <=? b) && (b <=? 0xEC) then Some (3%nat, 0x80, 0xBF)
  else if b =? 0xED then Some (3%nat, 0x80, 0x9F)
  else if (0xEE <=? b) && (b <=? 0xEF) then Some (3%nat, 0x80, 0xBF)
  else if b =? 0xF0 then Some (4%nat, 0x90, 0xBF)
  else if (0xF1 <=? b) && (b <=? 0xF3) then Some (4%nat, 0x80, 0xBF)
  else if b =? 0xF4 then Some (4%nat, 0x80, 0x8F)
  else None.

(** A continuation byte is between [locb] and [hicb]. *)
Definition continues (b : Z) : bool := (0x80 <=? b) && (b <=? 0xBF).

(** The runes that [for _, c := range s] goes through: each step is
    [DecodeRuneInString] on what is left of the string; a byte that opens no
    valid sequence is the rune [RuneError], of width 1. *)
Fixpoint runes (s : string) : list Z :=
  match s with
  | EmptyString => []
  | String c0 s1 =>
      let b0 := value c0 in
      match first b0 with
      | None => (if b0 <? RuneSelf then b0 else RuneError) :: runes s1
      | Some (size, lo, hi) =>
          match s1 with
          | EmptyString => RuneError :: runes s1
          | String c1 s2 =>
              let b1 := value c1 in
              if (b1 <? lo) || (hi <? b1) then RuneError :: runes s1
              else if (size <=? 2)%nat then
                Z.lor (Z.shiftl (Z.land b0 mask2) 6) (Z.land b1 maskx) :: runes s2
              else
                match s2 with
                | EmptyString => RuneError :: runes s1
                | String c2 s3 =>
                    let b2 := value c2 in
                    if negb (continues b2) then RuneError :: runes s1
                    else if (size <=? 3)%nat then
                      Z.lor (Z.lor (Z.shiftl (Z.land b0 mask3) 12)
                               (Z.shiftl (Z.land b1 maskx) 6))
                        (Z.land b2 maskx) :: runes s3
                    else
                      match s3 with
                      | EmptyString => RuneError :: runes s1
                      | String c3 s4 =>
                          let b3 := value c3 in
                          if negb (continues b3) then RuneError :: runes s1
                          else
                            Z.lor (Z.lor (Z.lor (Z.shiftl (Z.land b0 mask4) 18)
                                            (Z.shiftl (Z.land b1 maskx) 12))
                                     (Z.shiftl (Z.land b2 maskx) 6))
                              (Z.land b3 maskx) :: runes s4
                      end
                end
          end
      end
  end.

(** The three bytes of a rune up to [rune3Max]. *)
Definition encode3 (r : Z) : string :=
  String (byte (Z.lor t3 (Z.shiftr r 12)))
    (String (byte (Z.lor tx (Z.land (Z.shiftr r 6) maskx)))
       (String (byte (Z.lor tx (Z.land r maskx))) EmptyString)).

(** [EncodeRune]: the bytes of a rune; a negative rune, a rune above
    [MaxRune] and a surrogate are written as [RuneError]. *)
Definition EncodeRune (r : Z) : string :=
  if (0 <=? r) && (r <=? rune1Max) then String (byte r) EmptyString
  else if (0 <=? r) && (r <=? rune2Max) then
    String (byte (Z.lor t2 (Z.shiftr r 6)))
      (String (byte (Z.lor tx (Z.land r maskx))) EmptyString)
  else if (r <? 0) || (MaxRune <? r) || ((surrogateMin <=? r) && (r <=? surrogateMax))
  then encode3 RuneError
  else if r <=? rune3Max then encode3 r
  else
    String (byte (Z.lor t4 (Z.shiftr r 18)))
      (String (byte (Z.lor tx (Z.land (Z.shiftr r 12) maskx)))
         (String (byte (Z.lor tx (Z.land (Z.shiftr r 6) maskx)))
            (String (byte (Z.lor tx (Z.land r maskx))) EmptyString))).

End utf8.

(** ** The case of runes ([unicode]) *)

Module unicode.

Definition MaxASCII : Z := 0x7F.

(** The entry of a range of [CaseRanges] for the lower case: the number to
    add to a rune of the range, or [UpperLower] for a range in which capital
    and small letters alternate, starting with a capital. *)
Inductive delta := Delta (d : Z) | UpperLower.

(** [CaseRanges], for the lower case: the ranges in which the lower case of
    a rune is another rune, in increasing order (the ranges of the library
    in which no rune changes are left out).  The lower cases are those of
    Unicode 15.0.0, which Go has from its version 1.21. *)
Definition CaseRanges : list (Z * Z * delta) :=
  [ (0x0041, 0x005A, Delta 32); (0x00C0, 0x00D6, Delta 32); (0x00D8, 0x00DE, Delta 32);
    (0x0100, 0x012F, UpperLower); (0x0130, 0x0130, Delta (-199));
    (0x0132, 0x0137, UpperLower); (0x0139, 0x0148, UpperLower);
    (0x014A, 0x0177, UpperLower); (0x0178, 0x0178, Delta (-121));
    (0x0179, 0x017E, UpperLower); (0x0181, 0x0181, Delta 210);
    (0x0182, 0x0185, UpperLower); (0x0186, 0x0186, Delta 206); (0x0187, 0x0187, Delta 1);
    (0x0189, 0x018A, Delta 205); (0x018B, 0x018B, Delta 1); (0x018E, 0x018E, Delta 79);
    (0x018F, 0x018F, Delta 202); (0x0190, 0x0190, Delta 203); (0x0191, 0x0191, Delta 1);
    (0x0193, 0x0193, Delta 205); (0x0194, 0x0194, Delta 207); (0x0196, 0x0196, Delta 211);
    (0x0197, 0x0197, Delta 209); (0x0198, 0x0198, Delta 1); (0x019C, 0x019C, Delta 211);
    (0x019D, 0x019D, Delta 213); (0x019F, 0x019F, Delta 214); (0x01A0, 0x01A5, UpperLower);
    (0x01A6, 0x01A6, Delta 218); (0x01A7, 0x01A7, Delta 1); (0x01A9, 0x01A9, Delta 218);
    (0x01AC, 0x01AC, Delta 1); (0x01AE, 0x01AE, Delta 218); (0x01AF, 0x01AF, Delta 1);
    (0x01B1, 0x01B2, Delta 217); (0x01B3, 0x01B6, UpperLower); (0x01B7, 0x01B7, Delta 219);
    (0x01B8, 0x01B8, Delta 1); (0x01BC, 0x01BC, Delta 1); (0x01C4, 0x01C4, Delta 2);
    (0x01C5, 0x01C5, Delta 1); (0x01C7, 0x01C7, Delta 2); (0x01C8, 0x01C8, Delta 1);
    (0x01CA, 0x01CA, Delta 2); (0x01CB, 0x01DC, UpperLower); (0x01DE, 0x01EF, UpperLower);
    (0x01F1, 0x01F1, Delta 2); (0x01F2, 0x01F5, UpperLower); (0x01F6, 0x01F6, Delta (-97));
    (0x01F7, 0x01F7, Delta (-56)); (0x01F8, 0x021F, UpperLower);
    (0x0220, 0x0220, Delta (-130)); (0x0222, 0x0233, UpperLower);
    (0x023A, 0x023A, Delta 10795); (0x023B, 0x023B, Delta 1);
    (0x023D, 0x023D, Delta (-163)); (0x023E, 0x023E, Delta 10792);
    (0x0241, 0x0241, Delta 1); (0x0243, 0x0243, Delta (-195)); (0x0244, 0x0244, Delta 69);
    (0x0245, 0x0245, Delta 71); (0x0246, 0x024F, UpperLower); (0x0370, 0x0373, UpperLower);
    (0x0376, 0x0376, Delta 1); (0x037F, 0x037F, Delta 116); (0x0386, 0x0386, Delta 38);
    (0x0388, 0x038A, Delta 37); (0x038C, 0x038C, Delta 64); (0x038E, 0x038F, Delta 63);
    (0x0391, 0x03A1, Delta 32); (0x03A3, 0x03AB, Delta 32); (0x03CF, 0x03CF, Delta 8);
    (0x03D8, 0x03EF, UpperLower); (0x03F4, 0x03F4, Delta (-60)); (0x03F7, 0x03F7, Delta 1);
    (0x03F9, 0x03F9, Delta (-7)); (0x03FA, 0x03FA, Delta 1);
    (0x03FD, 0x03FF, Delta (-130)); (0x0400, 0x040F, Delta 80); (0x0410, 0x042F, Delta 32);
    (0x0460, 0x0481, UpperLower); (0x048A, 0x04BF, UpperLower); (0x04C0, 0x04C0, Delta 15);
    (0x04C1, 0x04CE, UpperLower); (0x04D0, 0x052F, UpperLower); (0x0531, 0x0556, Delta 48);
    (0x10A0, 0x10C5, Delta 7264); (0x10C7, 0x10C7, Delta 7264);
    (0x10CD, 0x10CD, Delta 7264); (0x13A0, 0x13EF, Delta 38864); (0x13F0, 0x13F5, Delta 8);
    (0x1C90, 0x1CBA, Delta (-3008)); (0x1CBD, 0x1CBF, Delta (-3008));
    (0x1E00, 0x1E95, UpperLower); (0x1E9E, 0x1E9E, Delta (-7615));
    (0x1EA0, 0x1EFF, UpperLower); (0x1F08, 0x1F0F, Delta (-8));
    (0x1F18, 0x1F1D, Delta (-8)); (0x1F28, 0x1F2F, Delta (-8));
    (0x1F38, 0x1F3F, Delta (-8)); (0x1F48, 0x1F4D, Delta (-8));
    (0x1F59, 0x1F59, Delta (-8)); (0x1F5B, 0x1F5B, Delta (-8));
    (0x1F5D, 0x1F5D, Delta (-8)); (0x1F5F, 0x1F5F, Delta (-8));
    (0x1F68, 0x1F6F, Delta (-8)); (0x1F88, 0x1F8F, Delta (-8));
    (0x1F98, 0x1F9F, Delta (-8)); (0x1FA8, 0x1FAF, Delta (-8));
    (0x1FB8, 0x1FB9, Delta (-8)); (0x1FBA, 0x1FBB, Delta (-74));
    (0x1FBC, 0x1FBC, Delta (-9)); (0x1FC8, 0x1FCB, Delta (-86));
    (0x1FCC, 0x1FCC, Delta (-9)); (0x1FD8, 0x1FD9, Delta (-8));
    (0x1FDA, 0x1FDB, Delta (-100)); (0x1FE8, 0x1FE9, Delta (-8));
    (0x1FEA, 0x1FEB, Delta (-112)); (0x1FEC, 0x1FEC, Delta (-7));
    (0x1FF8, 0x1FF9, Delta (-128)); (0x1FFA, 0x1FFB, Delta (-126));
    (0x1FFC, 0x1FFC, Delta (-9)); (0x2126, 0x2126, Delta (-7517));
    (0x212A, 0x212A, Delta (-8383)); (0x212B, 0x212B, Delta (-8262));
    (0x2132, 0x2132, Delta 28); (0x2160, 0x216F, Delta 16); (0x2183, 0x2183, Delta 1);
    (0x24B6, 0x24CF, Delta 26); (0x2C00, 0x2C2F, Delta 48); (0x2C60, 0x2C60, Delta 1);
    (0x2C62, 0x2C62, Delta (-10743)); (0x2C63, 0x2C63, Delta (-3814));
    (0x2C64, 0x2C64, Delta (-10727)); (0x2C67, 0x2C6C, UpperLower);
    (0x2C6D, 0x2C6D, Delta (-10780)); (0x2C6E, 0x2C6E, Delta (-10749));
    (0x2C6F, 0x2C6F, Delta (-10783)); (0x2C70, 0x2C70, Delta (-10782));
    (0x2C72, 0x2C72, Delta 1); (0x2C75, 0x2C75, Delta 1); (0x2C7E, 0x2C7F, Delta (-10815));
    (0x2C80, 0x2CE3, UpperLower); (0x2CEB, 0x2CEE, UpperLower); (0x2CF2, 0x2CF2, Delta 1);
    (0xA640, 0xA66D, UpperLower); (0xA680, 0xA69B, UpperLower);
    (0xA722, 0xA72F, UpperLower); (0xA732, 0xA76F, UpperLower);
    (0xA779, 0xA77C, UpperLower); (0xA77D, 0xA77D, Delta (-35332));
    (0xA77E, 0xA787, UpperLower); (0xA78B, 0xA78B, Delta 1);
    (0xA78D, 0xA78D, Delta (-42280)); (0xA790, 0xA793, UpperLower);
    (0xA796, 0xA7A9, UpperLower); (0xA7AA, 0xA7AA, Delta (-42308));
    (0xA7AB, 0xA7AB, Delta (-42319)); (0xA7AC, 0xA7AC, Delta (-42315));
    (0xA7AD, 0xA7AD, Delta (-42305)); (0xA7AE, 0xA7AE, Delta (-42308));
    (0xA7B0, 0xA7B0, Delta (-42258)); (0xA7B1, 0xA7B1, Delta (-42282));
    (0xA7B2, 0xA7B2, Delta (-42261)); (0xA7B3, 0xA7B3, Delta 928);
    (0xA7B4, 0xA7C3, UpperLower); (0xA7C4, 0xA7C4, Delta (-48));
    (0xA7C5, 0xA7C5, Delta (-42307)); (0xA7C6, 0xA7C6, Delta (-35384));
    (0xA7C7, 0xA7CA, UpperLower); (0xA7D0, 0xA7D0, Delta 1); (0xA7D6, 0xA7D9, UpperLower);
    (0xA7F5, 0xA7F5, Delta 1); (0xFF21, 0xFF3A, Delta 32); (0x10400, 0x10427, Delta 40);
    (0x104B0, 0x104D3, Delta 40); (0x10570, 0x1057A, Delta 39);
    (0x1057C, 0x1058A, Delta 39); (0x1058C, 0x10592, Delta 39);
    (0x10594, 0x10595, Delta 39); (0x10C80, 0x10CB2, Delta 64);
    (0x118A0, 0x118BF, Delta 32); (0x16E40, 0x16E5F, Delta 32);
    (0x1E900, 0x1E921, Delta 34) ].

(** [to LowerCase r caseRange]: the range of the rune is looked up (the
    ranges are disjoint and sorted, the search of the library is binary); in
    an [UpperLower] range the rune at an even offset is a capital and the
    next one is its small letter. *)
Fixpoint to_lower (r : Z) (caseRange : list (Z * Z * delta)) : Z :=
  match caseRange with
  | [] => r
  | (lo, hi, d) :: rest =>
      if (lo <=? r) && (r <=? hi) then
        match d with
        | UpperLower => lo + Z.lor (Z.land (r - lo) (Z.lnot 1)) 1
        | Delta d => r + d
        end
      else to_lower r rest
  end.

(** [unicode.ToLower]. *)
Definition ToLower (r : Z) : Z :=
  if r <=? MaxASCII then
    if (65 <=? r) && (r <=? 90) then r + 32 else r
  else to_lower r CaseRanges.

End unicode.

(** [strings.Map]: the runes of the string are mapped one after the other
    and the results written out; a negative result is dropped.  (When no
    rune changes the library returns the string itself, which is what
    writing the runes out again gives, except for the bytes that open no
    valid sequence: these are written as [RuneError].) *)
Definition strings_Map (mapping : Z -> Z) (s : string) : string :=
  fold_right (fun c out =>
                let r := mapping c in
                if 0 <=? r then utf8.EncodeRune r +:+ out else out)
    EmptyString (utf8.runes s).

(** The lower case of the runes of a range of [CaseRanges] is above the
    ASCII capitals. *)
Definition above_capitals (range : Z * Z * unicode.delta) : bool :=
  match range with
  | (lo, _, unicode.Delta d) => 90 <? lo + d
  | (lo, _, unicode.UpperLower) => 90 <? lo
  end.

(** [strconv.Itoa]: the decimal representation of an [int]. *)
Definition Itoa (i : Z) : string := NilZero.string_of_int (Z.to_int i).

(** [strconv.FormatBool]. *)
Definition FormatBool (b : bool) : string := if b then "true" else "false".

(** ** net/url *)

(** [shouldEscape c encodeQueryComponent]: everything but the unreserved
    characters of RFC 3986 is escaped in a query component. *)
Definition shouldEscape (c : ascii) : bool :=
  if Bytes.is_lower c || Bytes.is_upper c || Bytes.is_digit c then false
  else match c with
       | "-"%char | "_"%char | "."%char | "~"%char => false
       | _ => true
       end.

(** What [url.QueryEscape] writes for one byte: [+] for a space, [%XX] for
    an escaped byte, the byte itself otherwise. *)
Definition escape_byte (c : ascii) : string :=
  if Ascii.eqb c " " then "+"
  else if shouldEscape c then
    String "%" (String (Bytes.upperhex (Bytes.code c / 16)%N)
               (String (Bytes.upperhex (Bytes.code c mod 16)%N) EmptyString))
  else String c EmptyString.

(** [url.QueryEscape]. *)
Fixpoint QueryEscape (s : string) : string :=
  match s with
  | EmptyString => EmptyString
  | String c s' => escape_byte c +:+ QueryEscape s'
  end.

(** [url.QueryUnescape]: [None] stands for the [EscapeError]. *)
Fixpoint QueryUnescape (s : string) : option string :=
  match s with
  | EmptyString => Some EmptyString
  | String "%" (String h (String l s')) =>
      match Bytes.unhex h, Bytes.unhex l, QueryUnescape s' with
      | Some a, Some b, Some r => Some (String (ascii_of_N (16 * a + b)) r)
      | _, _, _ => None
      end
  | String "%" _ => None
  | String c s' =>
      match QueryUnescape s' with
      | Some r => Some (String (if Ascii.eqb c "+" then " "%char else c) r)
      | None => None
      end
  end.

(** [url.Values] is [map[string][]string]. *)
Abbreviation Values := (gmap string (list string)).

(** [Values.Set]: the key's values are replaced by the single value. *)
Definition Values_Set (key value : string) (v : Values) : Values :=
  <[key := [value]]> v.

(** [Values.Add], used by [ParseQuery]: the value is appended. *)
Definition Values_Add (key value : string) (v : Values) : Values :=
  <[key := default [] (v !! key) ++ [value]]> v.

Definition sorted_keys (v : Values) : list string :=
  merge_sort String.le (fst <$> map_to_list v).

(** The text [Values.Encode] writes for a key and one of its values. *)
Definition pair_text (k x : string) : string :=
  QueryEscape k +:+ "=" +:+ QueryEscape x.

(** [Values.Encode]: [key=value] pairs joined by [&], sorted by key. *)
Definition Values_Encode (v : Values) : string :=
  Bytes.join "&" (k ← sorted_keys v; pair_text k <$> default [] (v !! k)).

(** One pair of [url.ParseQuery], as [URL.Query] uses it: a pair with a
    semicolon or a malformed escape is dropped. *)
Definition parse_pair (pair : string) (v : Values) : Values :=
  if Bytes.exist (Ascii.eqb ";") pair then v
  else
    let '(k, x, _) := Bytes.cut "=" pair in
    match QueryUnescape k, QueryUnescape x with
    | Some k', Some x' => Values_Add k' x' v
    | _, _ => v
    end.

Definition parse_step (v : Values) (pair : string) : Values :=
  if String.eqb pair EmptyString then v else parse_pair pair v.

Definition ParseQuery (query : string) : Values :=
  fold_left parse_step (Bytes.split "&" query) ∅.

(** The bytes that separate the pairs of a query, and a key from its value. *)
Definition separator (c : ascii) : bool :=
  Ascii.eqb c "&" || Ascii.eqb c "=" || Ascii.eqb c ";".

(** The values [xs] added to the key [k], in their order. *)
Definition add_all (k : string) (xs : list string) (v : Values) : Values :=
  fold_left (fun v x => Values_Add k x v) xs v.

(** No key has an empty list of values: what [Values.Set] keeps true. *)
Definition no_empty_key (v : Values) : Prop :=
  forall k, v !! k <> Some [].

(** [url.URL].  The scheme, the authority and the path are kept together in
    [Location]: the client copies them from [url.Parse] to [URL.String]
    without looking at them. *)
Record URL := mkURL {
  Location : string;
  ForceQuery : bool;
  RawQuery : string;
  Fragment : string
}.

(** A byte below 0x20 or the byte 0x7f ([stringContainsCTLByte]). *)
Definition is_ctl (c : ascii) : bool :=
  (Bytes.code c <? 32)%N || (Bytes.code c =? 127)%N.

Definition ends_with_single_question (s : string) : option string :=
  let '(a, b, found) := Bytes.cut "?" s in
  if found && String.eqb b EmptyString then Some a else None.

(** Every [%] is followed by two hexadecimal digits. *)
Fixpoint valid_escapes (s : string) : bool :=
  match s with
  | EmptyString => true
  | String "%" (String h (String l s')) =>
      match Bytes.unhex h, Bytes.unhex l with
      | Some _, Some _ => valid_escapes s'
      | _, _ => false
      end
  | String "%" _ => false
  | String _ s' => valid_escapes s'
  end.

(** [url.Parse]: the fragment is cut at the first [#], a control byte is an
    error, the query is cut at the first [?] (a lone trailing [?] sets
    [ForceQuery]).  [None] stands for the [*url.Error]; the errors that
    [url.Parse] reports for a malformed scheme, host or path escape are not
    modelled. *)
Definition url_Parse (rawURL : string) : option URL :=
  let '(u, frag, _) := Bytes.cut "#" rawURL in
  if Bytes.exist is_ctl u then None
  else if negb (valid_escapes frag) then None
  else match ends_with_single_question u with
       | Some loc => Some (mkURL loc true EmptyString frag)
       | None =>
           let '(loc, q, _) := Bytes.cut "?" u in
           Some (mkURL loc false q frag)
       end.

(** The bytes that cannot stand in the text of a URL before its fragment. *)
Definition breaks_url (c : ascii) : bool := is_ctl c || Ascii.eqb c "#".

(** A location has no byte that ends it in the text of a URL. *)
Definition plain_location (loc : string) : Prop :=
  Bytes.exist (fun c => breaks_url c || Ascii.eqb c "?") loc = false.

(** [URL.Query]. *)
Definition Query (u : URL) : Values := ParseQuery (RawQuery u).

(** [URL.String]. *)
Definition URL_String (u : URL) : string :=
  Location u
  +:+ (if ForceQuery u || negb (String.eqb (RawQuery u) EmptyString)
       then "?" +:+ RawQuery u else EmptyString)
  +:+ (if String.eqb (Fragment u) EmptyString then EmptyString
       else "#" +:+ Fragment u).

Definition with_RawQuery (u : URL) (q : string) : URL :=
  mkURL (Location u) (ForceQuery u) q (Fragment u).


(** ** encoding/json: values and their text *)

#[local] Unset Elimination Schemes.
Inductive json :=
| JNull
| JBool (b : bool)
| JNumber (literal : string)
| JString (s : string)
| JArray (elements : list json)
| JObject (members : list (string * json)).
#[local] Set Elimination Schemes.

(** The result of reading a prefix of the input.  The messages of
    [Malformed] name the failure; they are not the texts of Go's
    [*json.SyntaxError].  [Exhausted] is the end of the fuel of the reader,
    which no input reaches ([value_never_exhausted] below). *)
Inductive parsed (A : Type) :=
| Parsed (a : A) (rest : string)
| Malformed (msg : string)
| Exhausted.
Arguments Parsed {A} a rest.
Arguments Malformed {A} msg.
Arguments Exhausted {A}.

Definition parsed_map {A B} (f : A -> B) (p : parsed A) : parsed B :=
  match p with
  | Parsed a rest => Parsed (f a) rest
  | Malformed msg => Malformed msg
  | Exhausted => Exhausted
  end.

Module Json.

Definition quote : ascii := "034"%char.
Definition backslash : ascii := "092"%char.

Definition is_space (c : ascii) : bool :=
  Ascii.eqb c " " || Ascii.eqb c "009" || Ascii.eqb c "010" || Ascii.eqb c "013".

Fixpoint skip_space (s : string) : string :=
  match s with
  | String c s' => if is_space c then skip_space s' else s
  | EmptyString => s
  end.

(** The longest prefix of digits, and what follows it. *)
Fixpoint digits (s : string) : string * string :=
  match s with
  | String c s' =>
      if Bytes.is_digit c
      then let '(d, r) := digits s' in (String c d, r)
      else (EmptyString, s)
  | EmptyString => (EmptyString, s)
  end.

Definition utf8 (r : N) : string :=
  let b (n : N) := ascii_of_N n in
  let cont (n : N) := b (128 + n mod 64)%N in
  if (r <? 128)%N then String (b r) EmptyString
  else if (r <? 2048)%N then
    String (b (192 + r / 64)%N) (String (cont r) EmptyString)
  else if (r <? 65536)%N then
    String (b (224 + r / 4096)%N)
      (String (cont (r / 64)%N) (String (cont r) EmptyString))
  else
    String (b (240 + r / 262144)%N)
      (String (cont (r / 4096)%N)
         (String (cont (r / 64)%N) (String (cont r) EmptyString))).

Definition hex4 (a b c d : ascii) : option N :=
  match Bytes.unhex a, Bytes.unhex b, Bytes.unhex c, Bytes.unhex d with
  | Some x, Some y, Some z, Some w => Some (((x * 16 + y) * 16 + z) * 16 + w)%N
  | _, _, _, _ => None
  end.

Definition is_surrogate (r : N) : bool := ((55296 <=? r) && (r <? 57344))%N.

(** [utf16.DecodeRune]: the rune of a surrogate pair. *)
Definition decode_pair (r1 r2 : N) : option N :=
  if ((55296 <=? r1) && (r1 <? 56320) && (56320 <=? r2) && (r2 <? 57344))%N
  then Some ((r1 - 55296) * 1024 + (r2 - 56320) + 65536)%N
  else None.

Definition simple_escape (c : ascii) : option ascii :=
  if Ascii.eqb c quote then Some quote
  else if Ascii.eqb c backslash then Some backslash
  else if Ascii.eqb c "/" then Some "/"%char
  else if Ascii.eqb c "b" then Some "008"%char
  else if Ascii.eqb c "f" then Some "012"%char
  else if Ascii.eqb c "n" then Some "010"%char
  else if Ascii.eqb c "r" then Some "013"%char
  else if Ascii.eqb c "t" then Some "009"%char
  else None.

Definition replacement : N := 65533.

(** The text of a string literal after its opening quote, up to and
    including the closing quote, unquoted.  A lone surrogate escape is
    replaced by U+FFFD.  Bytes from 0x80 are copied as they are: the
    replacement of invalid UTF-8 by U+FFFD is not modelled. *)
Fixpoint string_body (s : string) : parsed string :=
  match s with
  | EmptyString => Malformed "unexpected end of JSON input"
  | String c s' =>
      if Ascii.eqb c quote then Parsed EmptyString s'
      else if Ascii.eqb c backslash then
        match s' with
        | EmptyString => Malformed "unexpected end of JSON input"
        | String e s2 =>
            if Ascii.eqb e "u" then
              match s2 with
              | String h1 (String h2 (String h3 (String h4 s3))) =>
                  match hex4 h1 h2 h3 h4 with
                  | None => Malformed "invalid character in \u hexadecimal character escape"
                  | Some r1 =>
                      if is_surrogate r1 then
                        match s3 with
                        | String b (String u (String k1 (String k2
                            (String k3 (String k4 s4))))) =>
                            match
                              (if Ascii.eqb b backslash && Ascii.eqb u "u"
                               then hex4 k1 k2 k3 k4 else None)
                            with
                            | Some r2 =>
                                match decode_pair r1 r2 with
                                | Some r =>
                                    parsed_map (String.append (utf8 r)) (string_body s4)
                                | None =>
                                    parsed_map (String.append (utf8 replacement))
                                      (string_body s3)
                                end
                            | None =>
                                parsed_map (String.append (utf8 replacement))
                                  (string_body s3)
                            end
                        | _ =>
                            parsed_map (String.append (utf8 replacement)) (string_body s3)
                        end
                      else parsed_map (String.append (utf8 r1)) (string_body s3)
                  end
              | _ => Malformed "invalid character in \u hexadecimal character escape"
              end
            else
              match simple_escape e with
              | Some b => parsed_map (String b) (string_body s2)
              | None => Malformed "invalid character in string escape code"
              end
        end
      else if (Bytes.code c <? 32)%N then Malformed "invalid character in string literal"
      else parsed_map (String c) (string_body s')
  end.

(** The rest of the input after the byte [c], when the input starts with it. *)
Definition after (c : ascii) (s : string) : option string :=
  match s with
  | String a r => if Ascii.eqb a c then Some r else None
  | EmptyString => None
  end.

(** A number literal: an optional minus sign, [0] or a digit run that does
    not start with [0], an optional fraction, an optional exponent. *)
Definition number_exponent (s : string) : parsed string :=
  match s with
  | String e s1 =>
      if Ascii.eqb e "e" || Ascii.eqb e "E" then
        let '(sign, s2) :=
          match s1 with
          | String g s2 =>
              if Ascii.eqb g "+" || Ascii.eqb g "-"
              then (String g EmptyString, s2) else (EmptyString, s1)
          | EmptyString => (EmptyString, s1)
          end in
        match digits s2 with
        | (EmptyString, _) => Malformed "invalid character in exponent of numeric literal"
        | (d, r) => Parsed (String e (sign +:+ d)) r
        end
      else Parsed EmptyString s
  | EmptyString => Parsed EmptyString s
  end.

Definition number_fraction (s : string) : parsed string :=
  match after "." s with
  | Some s1 =>
      match digits s1 with
      | (EmptyString, _) => Malformed "invalid character after decimal point in numeric literal"
      | (d, r) => Parsed (String "." d) r
      end
  | None => Parsed EmptyString s
  end.

Definition number_integer (s : string) : parsed string :=
  match after "0" s with
  | Some s1 => Parsed "0" s1
  | None =>
      match digits s with
      | (EmptyString, _) => Malformed "invalid character in numeric literal"
      | (d, r) => Parsed d r
      end
  end.

Definition number (s : string) : parsed string :=
  let '(sign, s0) :=
    match after "-" s with
    | Some s0 => ("-", s0)
    | None => (EmptyString, s)
    end in
  match number_integer s0 with
  | Parsed i s1 =>
      match number_fraction s1 with
      | Parsed f s2 =>
          match number_exponent s2 with
          | Parsed e s3 => Parsed (sign +:+ i +:+ f +:+ e) s3
          | Malformed m => Malformed m
          | Exhausted => Exhausted
          end
      | Malformed m => Malformed m
      | Exhausted => Exhausted
      end
  | Malformed m => Malformed m
  | Exhausted => Exhausted
  end.

Fixpoint strip_prefix (p s : string) : option string :=
  match p, s with
  | EmptyString, _ => Some s
  | String a p', String b s' => if Ascii.eqb a b then strip_prefix p' s' else None
  | String _ _, EmptyString => None
  end.

Definition literal (word : string) (v : json) (s : string) : parsed json :=
  match strip_prefix word s with
  | Some rest => Parsed v rest
  | None => Malformed ("invalid character in literal " +:+ word)
  end.

(** [maxNestingDepth] of encoding/json's scanner. *)
Definition maxNestingDepth : N := 10000.

(** The value at the head of the input.  [fuel] bounds the chain of calls;
    every call in the chain has read at least one more byte than the one
    before it. [depth] counts the arrays and objects that are open. *)
Fixpoint value (fuel : nat) (depth : N) (s : string) : parsed json :=
  match fuel with
  | O => Exhausted
  | S fuel' =>
      match skip_space s with
      | EmptyString => Malformed "unexpected end of JSON input"
      | String c s' =>
          if Ascii.eqb c quote then parsed_map JString (string_body s')
          else if Ascii.eqb c "{" then
            if (maxNestingDepth <=? depth)%N then Malformed "exceeded max depth"
            else match after "}" (skip_space s') with
                 | Some r => Parsed (JObject []) r
                 | None => parsed_map JObject (members fuel' (depth + 1)%N (skip_space s'))
                 end
          else if Ascii.eqb c "[" then
            if (maxNestingDepth <=? depth)%N then Malformed "exceeded max depth"
            else match after "]" (skip_space s') with
                 | Some r => Parsed (JArray []) r
                 | None => parsed_map JArray (elements fuel' (depth + 1)%N (skip_space s'))
                 end
          else if Ascii.eqb c "-" || Bytes.is_digit c then
            parsed_map JNumber (number (String c s'))
          else if Ascii.eqb c "t" then literal "true" (JBool true) (String c s')
          else if Ascii.eqb c "f" then literal "false" (JBool false) (String c s')
          else if Ascii.eqb c "n" then literal "null" JNull (String c s')
          else Malformed "invalid character looking for beginning of value"
      end
  end
with elements (fuel : nat) (depth : N) (s : string) : parsed (list json) :=
  match fuel with
  | O => Exhausted
  | S fuel' =>
      match value fuel' depth s with
      | Parsed v r =>
          match skip_space r with
          | EmptyString => Malformed "unexpected end of JSON input"
          | String c r' =>
              if Ascii.eqb c "," then parsed_map (cons v) (elements fuel' depth r')
              else if Ascii.eqb c "]" then Parsed [v] r'
              else Malformed "invalid character after array element"
          end
      | Malformed m => Malformed m
      | Exhausted => Exhausted
      end
  end
with members (fuel : nat) (depth : N) (s : string) : parsed (list (string * json)) :=
  match fuel with
  | O => Exhausted
  | S fuel' =>
      match skip_space s with
      | EmptyString => Malformed "unexpected end of JSON input"
      | String c s0 =>
          if negb (Ascii.eqb c quote)
          then Malformed "invalid character looking for beginning of object key string"
          else
            match string_body s0 with
            | Parsed k r0 =>
                match skip_space r0 with
                | EmptyString => Malformed "unexpected end of JSON input"
                | String c1 r1 =>
                    if negb (Ascii.eqb c1 ":") then Malformed "invalid character after object key"
                    else
                      match value fuel' depth r1 with
                      | Parsed v r2 =>
                          match skip_space r2 with
                          | EmptyString => Malformed "unexpected end of JSON input"
                          | String c2 r3 =>
                              if Ascii.eqb c2 ","
                              then parsed_map (cons (k, v)) (members fuel' depth r3)
                              else if Ascii.eqb c2 "}" then Parsed [(k, v)] r3
                              else Malformed "invalid character after object key:value pair"
                          end
                      | Malformed m => Malformed m
                      | Exhausted => Exhausted
                      end
                end
            | Malformed m => Malformed m
            | Exhausted => Exhausted
            end
      end
  end.

(** What [json.NewDecoder(r).Decode] reads from a body: the first value of
    the stream; what follows it is left unread. *)
Definition parse (body : string) : string + json :=
  match value (2 * String.length body + 2) 0 body with
  | Parsed v _ => inr v
  | Malformed m => inl m
  | Exhausted => inl "input exhausted"
  end.

(** JSON texts are written below with ['] standing for the double quote. *)
Definition text (s : string) : string :=
  Bytes.map (fun c => if Ascii.eqb c "'" then quote else c) s.

End Json.

(** What is left after a successful read is shorter than [n] bytes. *)
Definition shorter {A} (n : nat) (p : parsed A) : Prop :=
  forall a r, p = Parsed a r -> (String.length r < n)%nat.

(** The read did not stop for want of fuel. *)
Definition alive {A} (p : parsed A) : Prop := p <> Exhausted.

(** What is left after a successful read is at most [n] bytes. *)
Definition no_longer {A} (n : nat) (p : parsed A) : Prop :=
  forall a r, p = Parsed a r -> (String.length r <= n)%nat.

(** ** encoding/json: decoding into Go values

    [inl msg] stands for the error [Decode] returns (an
    [*json.UnmarshalTypeError]), [inr] for the decoded value. *)

#[export] Instance sum_ret {E} : MRet (sum E) := fun _ a => inr a.
#[export] Instance sum_bind {E} : MBind (sum E) := fun _ _ f m =>
  match m with
  | inl e => inl e
  | inr a => f a
  end.

Module Unmarshal.

Definition object := list (string * json).

(** A key names a field when it equals the field's JSON name up to the
    case of ASCII letters (the two non-ASCII letters that Go's folding also
    identifies with [k] and [s] are not modelled). *)
Definition names (field key : string) : bool :=
  String.eqb (Bytes.map Bytes.lower key) (Bytes.map Bytes.lower field).

Definition values_of (field : string) (o : object) : list json :=
  snd <$> filter (fun m => Is_true (names field (fst m))) o.

Fixpoint into {A} (f : A -> json -> string + A) (cur : A) (vs : list json)
  : string + A :=
  match vs with
  | [] => inr cur
  | v :: vs' => cur' ← f cur v; into f cur' vs'
  end.

(** The field named [name], decoded from every member of the object that
    names it, in the order of the text. *)
Definition field {A} (f : A -> json -> string + A) (name : string) (cur : A)
    (o : object) : string + A :=
  into f cur (values_of name o).

Definition min_int : Z := - 2 ^ 63.
Definition max_int : Z := 2 ^ 63 - 1.

Fixpoint decimal (acc : Z) (s : string) : option Z :=
  match s with
  | EmptyString => Some acc
  | String c s' =>
      if Bytes.is_digit c
      then decimal (10 * acc + Z.of_N (Bytes.code c - 48)) s'
      else None
  end.

(** [strconv.ParseInt literal 10 64] on the literal of a JSON number. *)
Definition parse_int (literal : string) : option Z :=
  let '(neg, d) :=
    match literal with
    | String "-" d => (true, d)
    | _ => (false, literal)
    end in
  match d with
  | EmptyString => None
  | _ =>
      match decimal 0 d with
      | Some n =>
          let z := if neg : bool then - n else n in
          if (min_int <=? z) && (z <=? max_int) then Some z else None
      | None => None
      end
  end.

Definition int (cur : Z) (v : json) : string + Z :=
  match v with
  | JNull => inr cur
  | JNumber l =>
      match parse_int l with
      | Some z => inr z
      | None => inl ("cannot unmarshal number " +:+ l +:+ " into Go value of type int")
      end
  | _ => inl "cannot unmarshal into Go value of type int"
  end.

Definition str (cur : string) (v : json) : string + string :=
  match v with
  | JNull => inr cur
  | JString s => inr s
  | _ => inl "cannot unmarshal into Go value of type string"
  end.

Definition boolean (cur : bool) (v : json) : string + bool :=
  match v with
  | JNull => inr cur
  | JBool b => inr b
  | _ => inl "cannot unmarshal into Go value of type bool"
  end.

(** A [float32] or [float64] field keeps the literal of its number. *)
Definition float (cur : string) (v : json) : string + string :=
  match v with
  | JNull => inr cur
  | JNumber l => inr l
  | _ => inl "cannot unmarshal into Go value of type float"
  end.

Definition struct {A} (f : A -> object -> string + A) (cur : A) (v : json)
  : string + A :=
  match v with
  | JNull => inr cur
  | JObject o => f cur o
  | _ => inl "cannot unmarshal into Go value of struct type"
  end.

(** A pointer: [null] sets it to nil, another value is decoded into what
    it points to (a new zero value when it is nil). *)
Definition ptr {A} (f : A -> json -> string + A) (zero : A) (cur : option A)
    (v : json) : string + option A :=
  match v with
  | JNull => inr None
  | _ => a ← f (default zero cur) v; inr (Some a)
  end.

Fixpoint each {A} (f : json -> string + A) (vs : list json) : string + list A :=
  match vs with
  | [] => inr []
  | v :: vs' => a ← f v; l ← each f vs'; inr (a :: l)
  end.

(** A slice: [null] sets it to nil; an array replaces its elements. *)
Definition slice {A} (f : A -> json -> string + A) (zero : A) (cur : list A)
    (v : json) : string + list A :=
  match v with
  | JNull => inr []
  | JArray vs => each (f zero) vs
  | _ => inl "cannot unmarshal into Go value of slice type"
  end.

(** [[]interface{}]: the elements are kept as they are. *)
Definition any_slice (cur : list json) (v : json) : string + list json :=
  match v with
  | JNull => inr []
  | JArray vs => inr vs
  | _ => inl "cannot unmarshal into Go value of type []interface {}"
  end.

End Unmarshal.

(** ** The records of the API *)

(** Modelled from the spec: the [Episode] struct is declared in a file that
    is not among the sources.  The spec (section 3) says of the domain
    records that their "fields are as decoded"; the members of the decoded
    object are kept as they are. *)
Module Episode.
Record t := mk { fields : Unmarshal.object }.
Definition zero : t := mk [].
Definition unmarshal (cur : t) (o : Unmarshal.object) : string + t :=
  inr (mk (fields cur ++ o)).
End Episode.

Module seasonDetails.
Record t := mk { Number : Z; Episodes : Z }.
Definition zero : t := mk 0 0.
Definition unmarshal (cur : t) (o : Unmarshal.object) : string + t :=
  number ← Unmarshal.field Unmarshal.int "number" (Number cur) o;
  episodes ← Unmarshal.field Unmarshal.int "episodes" (Episodes cur) o;
  inr (mk number episodes).
End seasonDetails.

Module Show.

Module Notes.
Record t := mk { Total : Z; Mean : string; User : Z }.
Definition zero : t := mk 0 "0" 0.
Definition unmarshal (cur : t) (o : Unmarshal.object) : string + t :=
  total ← Unmarshal.field Unmarshal.int "total" (Total cur) o;
  mean ← Unmarshal.field Unmarshal.float "mean" (Mean cur) o;
  user ← Unmarshal.field Unmarshal.int "user" (User cur) o;
  inr (mk total mean user).
End Notes.

Module Images.
Record t := mk { Show : string; Banner : string; Box : string; Poster : string }.
Definition zero : t := mk EmptyString EmptyString EmptyString EmptyString.
Definition unmarshal (cur : t) (o : Unmarshal.object) : string + t :=
  show ← Unmarshal.field Unmarshal.str "show" (Show cur) o;
  banner ← Unmarshal.field Unmarshal.str "banner" (Banner cur) o;
  box ← Unmarshal.field Unmarshal.str "box" (Box cur) o;
  poster ← Unmarshal.field Unmarshal.str "poster" (Poster cur) o;
  inr (mk show banner box poster).
End Images.

Module User.
Record t := mk {
  Archived : bool;
  Favorited : bool;
  Remaining : Z;
  Status : string;
  Last : string;
  Tags : string
}.
Definition zero : t := mk false false 0 "0" EmptyString EmptyString.
Definition unmarshal (cur : t) (o : Unmarshal.object) : string + t :=
  archived ← Unmarshal.field Unmarshal.boolean "archived" (Archived cur) o;
  favorited ← Unmarshal.field Unmarshal.boolean "favorited" (Favorited cur) o;
  remaining ← Unmarshal.field Unmarshal.int "remaining" (Remaining cur) o;
  status ← Unmarshal.field Unmarshal.float "status" (Status cur) o;
  last ← Unmarshal.field Unmarshal.str "last" (Last cur) o;
  tags ← Unmarshal.field Unmarshal.str "tags" (Tags cur) o;
  inr (mk archived favorited remaining status last tags).
End User.

Record t := mk {
  ID : Z;
  ThetvdbID : Z;
  ImdbID : string;
  Title : string;
  Description : string;
  Seasons : string;
  SeasonsDetails : list seasonDetails.t;
  Episodes : string;
  Followers : string;
  Comments : string;
  Similars : string;
  Characters : string;
  Creation : string;
  Genres : list string;
  Length : string;
  Network : string;
  Rating : string;
  Status : string;
  Language : string;
  Notes : Notes.t;
  InAccount : bool;
  Images : Images.t;
  Aliases : list string;
  User : User.t;
  ResourceURL : string;
  Remaining : Z;
  Unseen : list Episode.t
}.

Definition zero : t :=
  mk 0 0 EmptyString EmptyString EmptyString EmptyString [] EmptyString EmptyString
     EmptyString EmptyString EmptyString EmptyString [] EmptyString EmptyString
     EmptyString EmptyString EmptyString Notes.zero false
     Images.zero [] User.zero EmptyString 0 [].

Import Unmarshal.

Definition unmarshal (cur : t) (o : object) : string + t :=
  id ← field int "id" (ID cur) o;
  thetvdb_id ← field int "thetvdb_id" (ThetvdbID cur) o;
  imdb_id ← field str "imdb_id" (ImdbID cur) o;
  title ← field str "title" (Title cur) o;
  description ← field str "description" (Description cur) o;
  seasons ← field str "seasons" (Seasons cur) o;
  seasons_details ←
    field (slice (struct seasonDetails.unmarshal) seasonDetails.zero)
      "seasons_details" (SeasonsDetails cur) o;
  episodes ← field str "episodes" (Episodes cur) o;
  followers ← field str "followers" (Followers cur) o;
  comments ← field str "comments" (Comments cur) o;
  similars ← field str "similars" (Similars cur) o;
  characters ← field str "characters" (Characters cur) o;
  creation ← field str "creation" (Creation cur) o;
  genres ← field (slice str EmptyString) "genres" (Genres cur) o;
  length ← field str "length" (Length cur) o;
  network ← field str "network" (Network cur) o;
  rating ← field str "rating" (Rating cur) o;
  status ← field str "status" (Status cur) o;
  language ← field str "language" (Language cur) o;
  notes ← field (struct Notes.unmarshal) "notes" (Notes cur) o;
  in_account ← field boolean "in_account" (InAccount cur) o;
  images ← field (struct Images.unmarshal) "images" (Images cur) o;
  aliases ← field (slice str EmptyString) "aliases" (Aliases cur) o;
  user ← field (struct User.unmarshal) "user" (User cur) o;
  resource_url ← field str "resource_url" (ResourceURL cur) o;
  remaining ← field int "remaining" (Remaining cur) o;
  unseen ←
    field (slice (struct Episode.unmarshal) Episode.zero) "unseen" (Unseen cur) o;
  inr (mk id thetvdb_id imdb_id title description seasons seasons_details
          episodes followers comments similars characters creation genres
          length network rating status language notes in_account images
          aliases user resource_url remaining unseen).

End Show.

Module shows.
Record t := mk { Shows : list Show.t; Errors : list json }.
Definition zero : t := mk [] [].
Import Unmarshal.
Definition unmarshal (cur : t) (o : object) : string + t :=
  l ← field (slice (struct Show.unmarshal) Show.zero) "shows" (Shows cur) o;
  errors ← field any_slice "errors" (Errors cur) o;
  inr (mk l errors).
End shows.

Module showItem.
Record t := mk { Show : option Show.t; Errors : list json }.
Definition zero : t := mk None [].
Import Unmarshal.
Definition unmarshal (cur : t) (o : object) : string + t :=
  show ← field (ptr (struct Show.unmarshal) Show.zero) "show" (Show cur) o;
  errors ← field any_slice "errors" (Errors cur) o;
  inr (mk show errors).
End showItem.

Module Similar.
Record t := mk {
  ID : Z;
  Login : string;
  LoginID : Z;
  Notes : string;
  ShowTitle : string;
  ShowID : Z;
  ThetvdbID : Z;
  Show : Show.t
}.
Definition zero : t := mk 0 EmptyString 0 EmptyString EmptyString 0 0 Show.zero.
Import Unmarshal.
Definition unmarshal (cur : t) (o : object) : string + t :=
  id ← field int "id" (ID cur) o;
  login ← field str "login" (Login cur) o;
  login_id ← field int "login_id" (LoginID cur) o;
  notes ← field str "notes" (Notes cur) o;
  show_title ← field str "show_title" (ShowTitle cur) o;
  show_id ← field int "show_id" (ShowID cur) o;
  thetvdb_id ← field int "thetvdb_id" (ThetvdbID cur) o;
  show ← field (struct Show.unmarshal) "show" (Show cur) o;
  inr (mk id login login_id notes show_title show_id thetvdb_id show).
End Similar.

Module similars.
Record t := mk { Similars : list Similar.t; Errors : list json }.
Definition zero : t := mk [] [].
Import Unmarshal.
Definition unmarshal (cur : t) (o : object) : string + t :=
  l ← field (slice (struct Similar.unmarshal) Similar.zero) "similars" (Similars cur) o;
  errors ← field any_slice "errors" (Errors cur) o;
  inr (mk l errors).
End similars.

Module Character.
Record t := mk {
  ID : Z;
  ShowID : Z;
  Name : string;
  Role : string;
  Actor : string;
  Picture : string;
  Description : string
}.
Definition zero : t := mk 0 0 EmptyString EmptyString EmptyString EmptyString EmptyString.
Import Unmarshal.
Definition unmarshal (cur : t) (o : object) : string + t :=
  id ← field int "id" (ID cur) o;
  show_id ← field int "show_id" (ShowID cur) o;
  name ← field str "name" (Name cur) o;
  role ← field str "role" (Role cur) o;
  actor ← field str "actor" (Actor cur) o;
  picture ← field str "picture" (Picture cur) o;
  description ← field str "description" (Description cur) o;
  inr (mk id show_id name role actor picture description).
End Character.

Module characters.
Record t := mk { Characters : list Character.t }.
Definition zero : t := mk [].
Import Unmarshal.
Definition unmarshal (cur : t) (o : object) : string + t :=
  l ← field (slice (struct Character.unmarshal) Character.zero) "characters"
        (Characters cur) o;
  inr (mk l).
End characters.

Module Video.
Record t := mk {
  ID : Z;
  ShowID : Z;
  YoutubeID : string;
  YoutubeURL : string;
  Title : string;
  Season : Z;
  Episode : Z;
  Login : string;
  LoginID : Z
}.
Definition zero : t := mk 0 0 EmptyString EmptyString EmptyString 0 0 EmptyString 0.
Import Unmarshal.
Definition unmarshal (cur : t) (o : object) : string + t :=
  id ← field int "id" (ID cur) o;
  show_id ← field int "show_id" (ShowID cur) o;
  youtube_id ← field str "youtube_id" (YoutubeID cur) o;
  youtube_url ← field str "youtube_url" (YoutubeURL cur) o;
  title ← field str "title" (Title cur) o;
  season ← field int "season" (Season cur) o;
  episode ← field int "episode" (Episode cur) o;
  login ← field str "login" (Login cur) o;
  login_id ← field int "login_id" (LoginID cur) o;
  inr (mk id show_id youtube_id youtube_url title season episode login login_id).
End Video.

Module videos.
Record t := mk { Videos : list Video.t; Errors : list json }.
Definition zero : t := mk [] [].
Import Unmarshal.
Definition unmarshal (cur : t) (o : object) : string + t :=
  l ← field (slice (struct Video.unmarshal) Video.zero) "videos" (Videos cur) o;
  errors ← field any_slice "errors" (Errors cur) o;
  inr (mk l errors).
End videos.

Module episodeItem.
Record t := mk { Episode : option Episode.t; Errors : list json }.
Definition zero : t := mk None [].
Import Unmarshal.
Definition unmarshal (cur : t) (o : object) : string + t :=
  episode ← field (ptr (struct Episode.unmarshal) Episode.zero) "episode"
              (Episode cur) o;
  errors ← field any_slice "errors" (Errors cur) o;
  inr (mk episode errors).
End episodeItem.

(** Modelled from the spec: the envelope of the episode listings is declared
    in a file that is not among the sources.  It has the shape the spec
    (section 3) gives every envelope, "a named collection field" plus an
    "errors" field, like [shows] above. *)
Module episodes.
Record t := mk { Episodes : list Episode.t; Errors : list json }.
Definition zero : t := mk [] [].
Import Unmarshal.
Definition unmarshal (cur : t) (o : object) : string + t :=
  l ← field (slice (struct Episode.unmarshal) Episode.zero) "episodes"
        (Episodes cur) o;
  errors ← field any_slice "errors" (Errors cur) o;
  inr (mk l errors).
End episodes.

Definition newline : string := String "010" EmptyString.

(** [errAPI] represents an error returned by the API. *)
Module errAPI.
Module item.
Record t := mk { Code : Z; Text : string }.
Definition zero : t := mk 0 EmptyString.
Import Unmarshal.
Definition unmarshal (cur : t) (o : object) : string + t :=
  code ← field int "code" (Code cur) o;
  text ← field str "text" (Text cur) o;
  inr (mk code text).
End item.

Record t := mk { Errors : list item.t }.
Definition zero : t := mk [].
Import Unmarshal.
Definition unmarshal (cur : t) (o : object) : string + t :=
  l ← field (slice (struct item.unmarshal) item.zero) "errors" (Errors cur) o;
  inr (mk l).

(** The method [Error]: one line per reported text. *)
Definition Error (e : t) : string :=
  fold_left (fun out i => out +:+ item.Text i +:+ newline) (Errors e) EmptyString.
End errAPI.

(** [token] is the struct returned by the API when requesting a token. *)
Module token.
Module User.
Record t := mk { ID : Z; Login : string; InAccount : bool }.
Definition zero : t := mk 0 EmptyString false.
Import Unmarshal.
Definition unmarshal (cur : t) (o : object) : string + t :=
  id ← field int "id" (ID cur) o;
  login ← field str "login" (Login cur) o;
  in_account ← field boolean "in_account" (InAccount cur) o;
  inr (mk id login in_account).
End User.

Record t := mk { User : User.t; Token : string; Hash : string; Errors : list json }.
Definition zero : t := mk User.zero EmptyString EmptyString [].
Import Unmarshal.
Definition unmarshal (cur : t) (o : object) : string + t :=
  user ← field (struct User.unmarshal) "user" (User cur) o;
  tok ← field str "token" (Token cur) o;
  hash ← field str "hash" (Hash cur) o;
  errors ← field any_slice "errors" (Errors cur) o;
  inr (mk user tok hash errors).
End token.

(** [Decode] of a body into a pointer to a zero struct. *)
Definition Decode {A} (unmarshal : A -> Unmarshal.object -> string + A) (zero : A)
    (body : string) : string + A :=
  v ← Json.parse body; Unmarshal.struct unmarshal zero v.

(** ** Errors

    An error made by [errors.New] is known by its text: the texts of the
    package's error variables are pairwise distinct. *)
Inductive error :=
| errors_New (text : string)
| errHTTP (text : string)
| errService (e : errAPI.t)
| errMalformed (text : string)
| Errorf (format : string) (operands : list string).

Definition errNoShowsFound : error := errors_New "no shows found".
Definition errNoCharactersFound : error := errors_New "no characters found".
Definition errNoVideosFound : error := errors_New "no videos found".
Definition errNoSingleIDUsed : error := errors_New "no single id used".
Definition errIDNotProperlySet : error := errors_New "id not properly set".
Definition errInvalidNote : error := errors_New "invalid note".

(** Modelled from the spec: the error of an empty episode listing is declared
    in a file that is not among the sources; section 4.3 names the
    conditions "no shows, no characters, no videos, no episodes". *)
Definition errNoEpisodesFound : error := errors_New "no episodes found".

(** ** net/http *)

Abbreviation Header := (gmap string (list string)).

Record Request := mkRequest {
  Method : string;
  Target : URL;
  Headers : Header
}.

Record Response := mkResponse {
  StatusCode : Z;
  Body : string
}.

Definition StatusOK : Z := 200.

(** The bytes of an HTTP token ([httpguts.IsTokenRune]). *)
Definition is_token_byte (c : ascii) : bool :=
  Bytes.is_lower c || Bytes.is_upper c || Bytes.is_digit c
  || Bytes.exist (Ascii.eqb c) "!#$%&'*+-.^_`|~".

Fixpoint canonical (upper : bool) (s : string) : string :=
  match s with
  | EmptyString => EmptyString
  | String c s' =>
      let c' :=
        if upper && Bytes.is_lower c then ascii_of_N (Bytes.code c - 32)
        else if negb upper && Bytes.is_upper c then ascii_of_N (Bytes.code c + 32)
        else c in
      String c' (canonical (Ascii.eqb c' "-") s')
  end.

(** [textproto.CanonicalMIMEHeaderKey]. *)
Definition CanonicalMIMEHeaderKey (s : string) : string :=
  if Bytes.all is_token_byte s then canonical true s else s.

(** [Header.Set]. *)
Definition Header_Set (key value : string) (req : Request) : Request :=
  mkRequest (Method req) (Target req)
    (<[CanonicalMIMEHeaderKey key := [value]]> (Headers req)).

Definition validMethod (method : string) : bool :=
  negb (String.eqb method EmptyString) && Bytes.all is_token_byte method.

(** [http.NewRequest method url nil]; [inl] carries the text of its error. *)
Definition NewRequest (method url : string) : string + Request :=
  let method := if String.eqb method EmptyString then "GET" else method in
  if negb (validMethod method) then inl ("net/http: invalid method " +:+ method)
  else match url_Parse url with
       | None => inl ("parse " +:+ url)
       | Some u => inr (mkRequest method u ∅)
       end.

(** ** Running a call

    A call of the library returns, or ends the process ([log.Fatal]), or
    panics.  The requests handed to the HTTP client are recorded, oldest
    first. *)
Inductive outcome (A : Type) :=
| Returns (a : A)
| Exits (logged : string)
| Panics (reason : string).
Arguments Returns {A} a.
Arguments Exits {A} logged.
Arguments Panics {A} reason.

Definition IO (A : Type) : Type := list Request -> outcome A * list Request.

#[export] Instance IO_ret : MRet IO := fun _ a sent => (Returns a, sent).
#[export] Instance IO_bind : MBind IO := fun _ _ f m sent =>
  match m sent with
  | (Returns a, sent') => f a sent'
  | (Exits l, sent') => (Exits l, sent')
  | (Panics r, sent') => (Panics r, sent')
  end.

(** [log.Fatalf]: the message is logged and the process exits with status 1. *)
Definition log_Fatal {A} (logged : string) : IO A := fun sent => (Exits logged, sent).

Definition panic {A} (reason : string) : IO A := fun sent => (Panics reason, sent).

(** ** The client *)

Definition bsBaseURL : string := "https://api.betaseries.com".
Definition bsVersion : string := "2.4".

(** [BetaSeries] represents the web client to the BetaSeries API. *)
Record BetaSeries := mkBetaSeries {
  baseURL : string;
  version : string;
  key : string;
  tok : option token.t
}.

Definition getToken (bs : BetaSeries) : error + string :=
  match tok bs with
  | Some t => inr (token.Token t)
  | None => inl (Errorf "no token" [])
  end.

Definition with_token (bs : BetaSeries) (t : token.t) : BetaSeries :=
  mkBetaSeries (baseURL bs) (version bs) (key bs) (Some t).

(** The headers [do] sets on a request. *)
Definition with_headers (bs : BetaSeries) (req : Request) : Request :=
  let req := Header_Set "Accept" "application/json" req in
  let req := Header_Set "X-BetaSeries-Version" (version bs) req in
  let req := Header_Set "X-BetaSeries-Key" (key bs) req in
  match tok bs with
  | Some t => Header_Set "X-BetaSeries-Token" (token.Token t) req
  | None => req
  end.

(** Modelled from the spec: the decoding helper [decode] that the endpoint
    files call is defined in a file that is not among the sources.  Section
    4.3: the body is parsed as JSON into the envelope of the call; a body
    that cannot be parsed is a malformed response; a non-empty error list
    discards the payload and is a service error carrying the reported codes
    and texts.  The last two arguments of the call (the API path and the
    query) have no part in that contract. *)
Definition decode {A} (unmarshal : A -> Unmarshal.object -> string + A) (zero : A)
    (resp : Response) (usedAPI query : string) : error + A :=
  match Decode unmarshal zero (Body resp), Decode errAPI.unmarshal errAPI.zero (Body resp) with
  | inl text, _ => inl (errMalformed text)
  | inr _, inl text => inl (errMalformed text)
  | inr data, inr reported =>
      match errAPI.Errors reported with
      | [] => inr data
      | _ :: _ => inl (errService reported)
      end
  end.

(** What a call receives from the HTTP client: an error of net/http is
    returned as it is. *)
Definition received (r : string + Response) : error + Response :=
  match r with
  | inl text => inl (errHTTP text)
  | inr resp => inr resp
  end.

(** The request that a call sends for [method] and the URL [u]. *)
Definition request (bs : BetaSeries) (method : string) (u : URL) : Request :=
  with_headers bs (mkRequest method u ∅).

(** ** What a call does to the network *)

(** The call returns the error and hands no request to the HTTP client. *)
Definition fails_locally {A} (call : IO (error + A)) (err : error) : Prop :=
  forall sent, call sent = (Returns (inl err), sent).

(** The call hands the request, and nothing else, to the HTTP client. *)
Definition sends {A} (call : IO A) (req : Request) : Prop :=
  forall sent, snd (call sent) = sent ++ [req].

(** The URL of a path of the API with the query values [q]. *)
Definition api_url (usedAPI : string) (q : Values) : URL :=
  mkURL (bsBaseURL +:+ usedAPI) false (Values_Encode q) EmptyString.

(** The query values of a request, read back from its URL. *)
Definition query_of (req : Request) : Values := Query (Target req).

(** The endpoints [showUpdate] is called with. *)
Definition show_endpoints : list string :=
  ["favorite"; "display"; "show"; "archive"; "note"].

(** The identifier resolution policy for a call made with the local
    identifier [id], the external identifier [theTvdbID] and the string
    identifier [imdbID] (empty for a call that takes none). *)
Definition resolves_identifier {A} (call : IO (error + A)) (id theTvdbID : Z)
    (imdbID : string) : Prop :=
  (0 < id ->
   exists req, sends call req /\ query_of req !! "id" = Some [Itoa id]
               /\ query_of req !! "thetvdb_id" = None)
  /\ (id <= 0 -> 0 < theTvdbID ->
      exists req, sends call req
                  /\ query_of req !! "thetvdb_id" = Some [Itoa theTvdbID]
                  /\ query_of req !! "id" = None)
  /\ (id <= 0 -> theTvdbID <= 0 -> imdbID <> EmptyString ->
      exists req, sends call req /\ query_of req !! "imdb_id" = Some [imdbID]
                  /\ query_of req !! "id" = None
                  /\ query_of req !! "thetvdb_id" = None)
  /\ (id <= 0 -> theTvdbID <= 0 -> imdbID = EmptyString ->
      fails_locally call errIDNotProperlySet).

(** The key is in the query with the single value when [P] holds, and is not
    in the query otherwise. *)
Definition added_when (P : Prop) (q : Values) (key value : string) : Prop :=
  (P -> q !! key = Some [value]) /\ (~ P -> q !! key = None).

(** ** Networks and clients for the examples *)

(** The network that answers every request with the status and the body. *)
Definition answers (status : Z) (body : string)
  : list Request -> Request -> string + Response :=
  fun _ _ => inr (mkResponse status body).

(** The client [NewBetaseriesClient] makes without credentials. *)
Definition anonymous (key : string) : BetaSeries :=
  mkBetaSeries bsBaseURL bsVersion key None.

(** The body of an envelope with no payload and no reported error. *)
Definition empty_envelope : string :=
  Json.text "{'shows':[],'similars':[],'videos':[],'errors':[]}".

(** The body of the scenario [ShowsSearch "lost" "title" false]. *)
Definition lost_body : string :=
  Json.text "{'shows':[{'id':1,'title':'Lost'}],'errors':[]}".

(** A query with capital letters of one, two, three and four bytes, and a
    last byte, 255, that opens no sequence of UTF-8; and its lower case, in
    which that byte has become the rune [RuneError]. *)
Definition capitals_query : string := "ÉCOLE ΩḀ𐐀" +:+ String "255" EmptyString.
Definition capitals_title : string := "école ωḁ𐐨�".

(** Stand-ins for the digest and for the error of a malformed base URL. *)
Definition no_md5 (s : string) : string := s.
Definition some_errURLParsing : error := errors_New "url parsing".

(** [Header.Get]: the first value of the key, which is made canonical;
    empty when the key is absent. *)
Definition Header_Get (key : string) (h : Header) : string :=
  match h !! CanonicalMIMEHeaderKey key with
  | Some (v :: _) => v
  | _ => EmptyString
  end.

(** The call sends one request, with the method, to the location. *)
Definition goes_to {A} (call : IO (error + A)) (method location : string) : Prop :=
  exists req, sends call req /\ Method req = method /\ Location (Target req) = location.

(** The network that fails every request with the text. *)
Definition unreachable (text : string) : list Request -> Request -> string + Response :=
  fun _ _ => inl text.

(** The body of a granted login, and the token it decodes to. *)
Definition token_body : string :=
  Json.text ("{'user':{'id':7,'login':'login','in_account':true},"
             +:+ "'token':'c0ffee','hash':'h','errors':[]}").
Definition token_data : token.t :=
  token.mk (token.User.mk 7 "login" true) "c0ffee" "h" [].

(** The body of a refused login, its JSON and the errors it decodes to. *)
Definition refused_body : string :=
  Json.text "{'errors':[{'code':4003,'text':'bad password'}]}".
Definition refused_json : json :=
  JObject [("errors",
            JArray [JObject [("code", JNumber "4003"); ("text", JString "bad password")]])].
Definition refused_errors : errAPI.t :=
  errAPI.mk [errAPI.item.mk 4003 "bad password"].

Ltac io :=
  unfold mbind, mret, IO_bind, IO_ret, sum_bind, sum_ret, log_Fatal, panic in *.

Section Client.

(** [http.DefaultClient.Do]: what the network answers to a request, given
    the requests sent before it; [inl] carries the text of the error. *)
Variable Do : list Request -> Request -> string + Response.

(** The hexadecimal text of the MD5 digest,
    [fmt.Sprintf "%x" (md5.Sum [[]byte s])]. *)
Variable md5_hex : string -> string.

(** The error variable [errURLParsing] is declared in a file that is not
    among the sources. *)
Variable errURLParsing : error.

(** [strings.ToLower]: a string of ASCII bytes is mapped byte by byte; a
    string that has a byte from 0x80 goes through
    [strings.Map unicode.ToLower]. *)
Definition ToLower (s : string) : string :=
  if Bytes.all Bytes.is_ascii s then
    if Bytes.exist Bytes.is_upper s then Bytes.map Bytes.lower s else s
  else strings_Map unicode.ToLower s.

(** *** Session and token *)

(** [do] sets the headers of the request and hands it to the HTTP client. *)
Definition do (bs : BetaSeries) (req : Request) : IO (string + Response) :=
  fun sent =>
    let req := with_headers bs req in
    (Returns (Do sent req), sent ++ [req]).

(** A body that is not the JSON of an [errAPI] ends the process; the JSON
    [null] leaves a nil pointer. *)
Definition decodeErr (r : string) : IO (option errAPI.t) :=
  match
    v ← Json.parse r;
    Unmarshal.ptr (Unmarshal.struct errAPI.unmarshal) errAPI.zero
      (Some errAPI.zero) v
  with
  | inl jsonerr => log_Fatal ("Error decoding API error : " +:+ jsonerr)
  | inr err => mret err
  end.

(** The call of the method [Error] on the pointer [decodeErr] returns. *)
Definition errAPI_Error (e : option errAPI.t) : IO string :=
  match e with
  | Some e => mret (errAPI.Error e)
  | None => panic "invalid memory address or nil pointer dereference"
  end.

(** [retrieveToken] returns the client, whose token it may have set, and
    its error ([None] for nil). *)
Definition retrieveToken (bs : BetaSeries) (login password : string)
  : IO (BetaSeries * option error) :=
  if (String.length login =? 0)%nat || (String.length password =? 0)%nat
  then mret (bs, None)
  else
    match url_Parse (baseURL bs +:+ "/members/auth") with
    | None => log_Fatal "parse"
    | Some u =>
        let q := Query u in
        let q := Values_Set "login" login q in
        let q := Values_Set "password" (md5_hex password) q in
        let u := with_RawQuery u (Values_Encode q) in
        match NewRequest "POST" (URL_String u) with
        | inl err =>
            mret (bs, Some (Errorf ("Error creating request for %s: %v" +:+ newline)
                              [URL_String u; err]))
        | inr req =>
            r ← do bs req;
            match r with
            | inl err =>
                mret (bs, Some (Errorf ("Error getting token :%v" +:+ newline) [err]))
            | inr resp =>
                if negb (StatusCode resp =? StatusOK) then
                  e ← decodeErr (Body resp);
                  text ← errAPI_Error e;
                  mret (bs, Some (Errorf text []))
                else
                  match Decode token.unmarshal token.zero (Body resp) with
                  | inl err =>
                      mret (bs, Some (Errorf ("Error decoding token response :%v" +:+ newline)
                                        [err]))
                  | inr tokenData => mret (with_token bs tokenData, None)
                  end
            end
        end
    end.

(** [NewBetaseriesClient] creates a betaseries web client. *)
Definition NewBetaseriesClient (key login password : string)
  : IO (BetaSeries * option error) :=
  let bs := mkBetaSeries bsBaseURL bsVersion key None in
  retrieveToken bs login password.

(** The request of the credential exchange. *)
Definition auth_request (key login password : string) : Request :=
  request (mkBetaSeries bsBaseURL bsVersion key None) "POST"
    (api_url "/members/auth"
       (Values_Set "password" (md5_hex password) (Values_Set "login" login ∅))).

(** Modelled from the spec: the endpoint files call a helper
    [do method u] that is not among the sources (the [do] above takes a
    request).  Section 6: "one HTTP request per call", with the headers of
    section 4.1; the helper makes the request for the method and the URL
    and sends it through [do]. *)
Definition do_url (bs : BetaSeries) (method : string) (u : URL)
  : IO (error + Response) :=
  r ← do bs (mkRequest method u ∅);
  match r with
  | inl text => mret (inl (errHTTP text))
  | inr resp => mret (inr resp)
  end.

(** *** shows.go *)

Definition doGetShows (bs : BetaSeries) (u : URL) (usedAPI : string)
  : IO (error + list Show.t) :=
  r ← do_url bs "GET" u;
  match r with
  | inl err => mret (inl err)
  | inr resp =>
      match decode shows.unmarshal shows.zero resp usedAPI (RawQuery u) with
      | inl err => mret (inl err)
      | inr data =>
          if (length (shows.Shows data) <? 1)%nat then mret (inl errNoShowsFound)
          else mret (inr (shows.Shows data))
      end
  end.

Definition doGetSimilars (bs : BetaSeries) (u : URL) : IO (error + list Similar.t) :=
  r ← do_url bs "GET" u;
  match r with
  | inl err => mret (inl err)
  | inr resp =>
      match decode similars.unmarshal similars.zero resp EmptyString (RawQuery u) with
      | inl err => mret (inl err)
      | inr data =>
          if (length (similars.Similars data) <? 1)%nat then mret (inl errNoShowsFound)
          else mret (inr (similars.Similars data))
      end
  end.

(** Modelled from the spec: [doGetEpisodes], which [ShowsEpisodes] calls,
    is defined in a file that is not among the sources.  Sections 4.3 and
    7: one GET, the envelope decoded, and an empty collection reported
    with the error of its kind ("no episodes"). *)
Definition doGetEpisodes (bs : BetaSeries) (u : URL) (usedAPI : string)
  : IO (error + list Episode.t) :=
  r ← do_url bs "GET" u;
  match r with
  | inl err => mret (inl err)
  | inr resp =>
      match decode episodes.unmarshal episodes.zero resp usedAPI (RawQuery u) with
      | inl err => mret (inl err)
      | inr data =>
          if (length (episodes.Episodes data) <? 1)%nat then mret (inl errNoEpisodesFound)
          else mret (inr (episodes.Episodes data))
      end
  end.

(** The query values a function builds are given by a function of their
    own, named after it: from [q := u.Query()] to [q.Encode()]. *)

Definition ShowsSearch_query (query order : string) (summary : bool) (q : Values)
  : Values :=
  let q := Values_Set "title" (ToLower query) q in
  let q := Values_Set "nbpp" "100" q in
  let q :=
    if String.eqb order "title" || String.eqb order "popularity"
       || String.eqb order "followers"
    then Values_Set "order" order q
    else Values_Set "order" "popularity" q in
  if summary then Values_Set "summary" "true" q else q.

(** [ShowsSearch] returns a slice of shows found with the given query. *)
Definition ShowsSearch (bs : BetaSeries) (query order : string) (summary : bool)
  : IO (error + list Show.t) :=
  let usedAPI := "/shows/search" in
  match url_Parse (baseURL bs +:+ usedAPI) with
  | None => mret (inl errURLParsing)
  | Some u =>
      let q := ShowsSearch_query query order summary (Query u) in
      doGetShows bs (with_RawQuery u (Values_Encode q)) usedAPI
  end.

Definition ShowsRandom_query (num : Z) (summary : bool) (q : Values) : Values :=
  let q := if 0 <=? num then Values_Set "nb" (Itoa num) q else q in
  if summary then Values_Set "summary" (FormatBool summary) q else q.

(** [ShowsRandom] returns a slice of random shows. *)
Definition ShowsRandom (bs : BetaSeries) (num : Z) (summary : bool)
  : IO (error + list Show.t) :=
  let usedAPI := "/shows/random" in
  match url_Parse (baseURL bs +:+ usedAPI) with
  | None => mret (inl errURLParsing)
  | Some u =>
      let q := ShowsRandom_query num summary (Query u) in
      doGetShows bs (with_RawQuery u (Values_Encode q)) usedAPI
  end.

Definition ShowsFavorites_query (userID : Z) (q : Values) : Values :=
  if 0 <? userID then Values_Set "id" (Itoa userID) q else q.

(** [ShowsFavorites] returns a slice of favorite shows. *)
Definition ShowsFavorites (bs : BetaSeries) (userID : Z) : IO (error + list Show.t) :=
  let usedAPI := "/shows/favorites" in
  match url_Parse (baseURL bs +:+ usedAPI) with
  | None => mret (inl errURLParsing)
  | Some u =>
      let q := ShowsFavorites_query userID (Query u) in
      doGetShows bs (with_RawQuery u (Values_Encode q)) usedAPI
  end.

Definition ShowsSimilars_query (id theTvdbID : Z) (details : bool) (q : Values)
  : error + Values :=
  q ← (if 0 <? id then inr (Values_Set "id" (Itoa id) q)
       else if 0 <? theTvdbID then inr (Values_Set "thetvdb_id" (Itoa theTvdbID) q)
       else inl errIDNotProperlySet);
  inr (if details then Values_Set "details" "true" q else q).

(** [ShowsSimilars] returns a slice of shows similar to a given show. *)
Definition ShowsSimilars (bs : BetaSeries) (id theTvdbID : Z) (details : bool)
  : IO (error + list Similar.t) :=
  let usedAPI := "/shows/similars" in
  match url_Parse (baseURL bs +:+ usedAPI) with
  | None => mret (inl errURLParsing)
  | Some u =>
      match ShowsSimilars_query id theTvdbID details (Query u) with
      | inl err => mret (inl err)
      | inr q => doGetSimilars bs (with_RawQuery u (Values_Encode q))
      end
  end.

Definition ShowsCharacters_query (id theTvdbID : Z) (q : Values) : error + Values :=
  if 0 <? id then inr (Values_Set "id" (Itoa id) q)
  else if 0 <? theTvdbID then inr (Values_Set "thetvdb_id" (Itoa theTvdbID) q)
  else inl errIDNotProperlySet.

(** [ShowsCharacters] returns a slice of characters found with the given ID. *)
Definition ShowsCharacters (bs : BetaSeries) (id theTvdbID : Z)
  : IO (error + list Character.t) :=
  let usedAPI := "/shows/characters" in
  match url_Parse (baseURL bs +:+ usedAPI) with
  | None => mret (inl errURLParsing)
  | Some u =>
      match ShowsCharacters_query id theTvdbID (Query u) with
      | inl err => mret (inl err)
      | inr q =>
          let u := with_RawQuery u (Values_Encode q) in
          r ← do_url bs "GET" u;
          match r with
          | inl err => mret (inl err)
          | inr resp =>
              match decode characters.unmarshal characters.zero resp usedAPI (RawQuery u) with
              | inl err => mret (inl err)
              | inr data =>
                  if (length (characters.Characters data) <? 1)%nat
                  then mret (inl errNoCharactersFound)
                  else mret (inr (characters.Characters data))
              end
          end
      end
  end.

Definition ShowsList_query (since starting order : string) (start limit : Z)
    (q : Values) : Values :=
  let q :=
    if String.eqb order "alphabetical" || String.eqb order "popularity"
       || String.eqb order "followers"
    then Values_Set "order" order q
    else Values_Set "order" "popularity" q in
  let q := if negb (String.length since =? 0)%nat then Values_Set "since" since q else q in
  let q :=
    if negb (String.length starting =? 0)%nat then Values_Set "starting" starting q
    else q in
  let q := if 0 <? start then Values_Set "start" (Itoa start) q else q in
  if 0 <? limit then Values_Set "limit" (Itoa limit) q else q.

(** [ShowsList] returns a slice of shows from an interval. *)
Definition ShowsList (bs : BetaSeries) (since starting order : string)
    (start limit : Z) : IO (error + list Show.t) :=
  let usedAPI := "/shows/list" in
  match url_Parse (baseURL bs +:+ usedAPI) with
  | None => mret (inl errURLParsing)
  | Some u =>
      let q := ShowsList_query since starting order start limit (Query u) in
      doGetShows bs (with_RawQuery u (Values_Encode q)) usedAPI
  end.

Definition showUpdate_query (endPoint : string) (id theTvdbID : Z) (imdbID : string)
    (option_ : Z) (q : Values) : error + Values :=
  q ← (if 0 <? id then inr (Values_Set "id" (Itoa id) q)
       else if 0 <? theTvdbID then inr (Values_Set "thetvdb_id" (Itoa theTvdbID) q)
       else if negb (String.eqb imdbID EmptyString) then inr (Values_Set "imdb_id" imdbID q)
       else inl errIDNotProperlySet);
  inr (if 0 <? option_ then
         if String.eqb endPoint "note" then Values_Set "note" (Itoa option_) q
         else if String.eqb endPoint "show" then Values_Set "episode_id" (Itoa option_) q
         else q
       else q).

(** [showUpdate] returns the pointer of the decoded envelope ([None] for
    nil) or an error. *)
Definition showUpdate (bs : BetaSeries) (method endPoint : string)
    (id theTvdbID : Z) (imdbID : string) (option_ : Z)
  : IO (error + option Show.t) :=
  let usedAPI := "/shows/" +:+ endPoint in
  match url_Parse (baseURL bs +:+ usedAPI) with
  | None => mret (inl errURLParsing)
  | Some u =>
      match showUpdate_query endPoint id theTvdbID imdbID option_ (Query u) with
      | inl err => mret (inl err)
      | inr q =>
          let u := with_RawQuery u (Values_Encode q) in
          r ← do_url bs method u;
          match r with
          | inl err => mret (inl err)
          | inr resp =>
              match decode showItem.unmarshal showItem.zero resp usedAPI (RawQuery u) with
              | inl err => mret (inl err)
              | inr show => mret (inr (showItem.Show show))
              end
          end
      end
  end.

(** [ShowFavorite] sets the show [id] as favorite. *)
Definition ShowFavorite (bs : BetaSeries) (id : Z) :=
  showUpdate bs "POST" "favorite" id 0 EmptyString 0.

(** [ShowFavoriteRemove] removes the show [id] from the favorites. *)
Definition ShowFavoriteRemove (bs : BetaSeries) (id : Z) :=
  showUpdate bs "DELETE" "favorite" id 0 EmptyString 0.

(** [ShowDisplay] returns the show information of the given id. *)
Definition ShowDisplay (bs : BetaSeries) (id theTvdbID : Z) (imdbID : string) :=
  showUpdate bs "GET" "display" id theTvdbID imdbID 0.

(** [ShowAdd] adds the show to the user's account. *)
Definition ShowAdd (bs : BetaSeries) (id theTvdbID : Z) (imdbID : string)
    (lastEpisodeID : Z) :=
  showUpdate bs "POST" "show" id theTvdbID imdbID lastEpisodeID.

(** [ShowRemove] removes the show from the user's account. *)
Definition ShowRemove (bs : BetaSeries) (id theTvdbID : Z) (imdbID : string) :=
  showUpdate bs "DELETE" "show" id theTvdbID imdbID 0.

(** [ShowArchive] archives the show. *)
Definition ShowArchive (bs : BetaSeries) (id theTvdbID : Z) :=
  showUpdate bs "POST" "archive" id theTvdbID EmptyString 0.

(** [ShowNotArchive] removes the show from the archives. *)
Definition ShowNotArchive (bs : BetaSeries) (id theTvdbID : Z) :=
  showUpdate bs "DELETE" "archive" id theTvdbID EmptyString 0.

(** The key of the external identifier is written with a space after it. *)
Definition ShowsVideos_query (id tvdbID : Z) (q : Values) : error + Values :=
  if (0 <? id) && (0 <? tvdbID) then inl errNoSingleIDUsed
  else if 0 <? id then inr (Values_Set "id" (Itoa id) q)
  else if 0 <? tvdbID then inr (Values_Set "thetvdb_id " (Itoa tvdbID) q)
  else inl errIDNotProperlySet.

(** [ShowsVideos] returns a slice of videos added by the members on a show. *)
Definition ShowsVideos (bs : BetaSeries) (id tvdbID : Z) : IO (error + list Video.t) :=
  let usedAPI := "/shows/videos" in
  match url_Parse (baseURL bs +:+ usedAPI) with
  | None => mret (inl errURLParsing)
  | Some u =>
      match ShowsVideos_query id tvdbID (Query u) with
      | inl err => mret (inl err)
      | inr q =>
          let u := with_RawQuery u (Values_Encode q) in
          r ← do_url bs "GET" u;
          match r with
          | inl err => mret (inl err)
          | inr resp =>
              match decode videos.unmarshal videos.zero resp usedAPI (RawQuery u) with
              | inl err => mret (inl err)
              | inr data =>
                  if (length (videos.Videos data) <? 1)%nat
                  then mret (inl errNoVideosFound)
                  else mret (inr (videos.Videos data))
              end
          end
      end
  end.

Definition ShowsEpisodes_query (id theTvdbID season episode : Z) (subtitles : bool)
    (q : Values) : error + Values :=
  q ← (if 0 <? id then inr (Values_Set "id" (Itoa id) q)
       else if 0 <? theTvdbID then inr (Values_Set "thetvdb_id" (Itoa theTvdbID) q)
       else inl errIDNotProperlySet);
  let q :=
    if 0 <? season then
      let q := Values_Set "season" (Itoa season) q in
      if 0 <? episode then Values_Set "episode" (Itoa episode) q else q
    else q in
  inr (if subtitles then Values_Set "subtitles" "true" q else q).

(** [ShowsEpisodes] returns a slice of episodes of the show. *)
Definition ShowsEpisodes (bs : BetaSeries) (id theTvdbID season episode : Z)
    (subtitles : bool) : IO (error + list Episode.t) :=
  let usedAPI := "/shows/episodes" in
  match url_Parse (baseURL bs +:+ usedAPI) with
  | None => mret (inl errURLParsing)
  | Some u =>
      match ShowsEpisodes_query id theTvdbID season episode subtitles (Query u) with
      | inl err => mret (inl err)
      | inr q => doGetEpisodes bs (with_RawQuery u (Values_Encode q)) usedAPI
      end
  end.

Definition EpisodesList_query (showID theTvdbID : Z) (imdbID : string)
    (userID limit released : Z) (subtitles specials : bool) (q : Values) : Values :=
  let q := if specials then Values_Set "specials" "true" q else q in
  let q := if subtitles then Values_Set "subtitles" "true" q else q in
  let q := if 0 <=? released then Values_Set "released" (Itoa released) q else q in
  let q := if 0 <? showID then Values_Set "showId" (Itoa showID) q else q in
  let q := if 0 <? theTvdbID then Values_Set "showTheTVDBId" (Itoa theTvdbID) q else q in
  let q := if negb (String.eqb imdbID EmptyString) then Values_Set "showIMDBId" imdbID q else q in
  let q := if 0 <? limit then Values_Set "limit" (Itoa limit) q else q in
  if 0 <? userID then Values_Set "userId" (Itoa userID) q else q.

(** [EpisodesList] returns a slice of unseen episodes ordered by shows. *)
Definition EpisodesList (bs : BetaSeries) (showID theTvdbID : Z) (imdbID : string)
    (userID limit released : Z) (subtitles specials : bool)
  : IO (error + list Show.t) :=
  let usedAPI := "/episodes/list" in
  match url_Parse (baseURL bs +:+ usedAPI) with
  | None => mret (inl errURLParsing)
  | Some u =>
      let q := EpisodesList_query showID theTvdbID imdbID userID limit released
                 subtitles specials (Query u) in
      doGetShows bs (with_RawQuery u (Values_Encode q)) usedAPI
  end.

(** [ShowNote] sets the note (rating) for the given show. *)
Definition ShowNote (bs : BetaSeries) (bsID theTvdbID note : Z)
  : IO (error + option Show.t) :=
  if (note <? 1) || (5 <? note) then mret (inl errInvalidNote)
  else showUpdate bs "POST" "note" bsID theTvdbID EmptyString note.

(** [ShowNoteRemove] deletes the current note for the given show. *)
Definition ShowNoteRemove (bs : BetaSeries) (bsID theTvdbID : Z) :=
  showUpdate bs "DELETE" "note" bsID theTvdbID EmptyString 0.

(** *** The episode file

    Its [EpisodesList] takes the identifiers of a show and of a user; the
    show file declares a function of the same name, so this one is
    [EpisodesList_of]. *)

Definition EpisodesList_of_query (showID userID : Z) (q : Values) : Values :=
  let q := if 0 <=? showID then Values_Set "showId" (Itoa showID) q else q in
  if 0 <=? userID then Values_Set "userId" (Itoa userID) q else q.

Definition EpisodesList_of (bs : BetaSeries) (showID userID : Z)
  : IO (error + list Show.t) :=
  let usedAPI := "/episodes/list" in
  match url_Parse (baseURL bs +:+ usedAPI) with
  | None => mret (inl errURLParsing)
  | Some u =>
      let q := EpisodesList_of_query showID userID (Query u) in
      doGetShows bs (with_RawQuery u (Values_Encode q)) usedAPI
  end.

Definition episodeUpdate (bs : BetaSeries) (method : string) (id : Z)
  : IO (error + option Episode.t) :=
  let usedAPI := "/episodes/downloaded" in
  match url_Parse (baseURL bs +:+ usedAPI) with
  | None => mret (inl errURLParsing)
  | Some u =>
      let q := Values_Set "id" (Itoa id) (Query u) in
      let u := with_RawQuery u (Values_Encode q) in
      r ← do_url bs method u;
      match r with
      | inl err => mret (inl err)
      | inr resp =>
          match decode episodeItem.unmarshal episodeItem.zero resp usedAPI (RawQuery u) with
          | inl err => mret (inl err)
          | inr episode => mret (inr (episodeItem.Episode episode))
          end
      end
  end.

(** [EpisodeDownloaded] marks the episode with the given [id] as downloaded. *)
Definition EpisodeDownloaded (bs : BetaSeries) (id : Z) := episodeUpdate bs "POST" id.

(** [EpisodeNotDownloaded] removes the mark. *)
Definition EpisodeNotDownloaded (bs : BetaSeries) (id : Z) := episodeUpdate bs "DELETE" id.

(** *** The query text and its values *)

Lemma QueryUnescape_escape_byte c r :
  QueryUnescape (escape_byte c +:+ r) =
  match QueryUnescape r with Some r' => Some (String c r') | None => None end.
Proof. destruct c as [[] [] [] [] [] [] [] []]; reflexivity. Qed.

Lemma QueryUnescape_QueryEscape s : QueryUnescape (QueryEscape s) = Some s.
Proof.
  induction s as [|c s IH]; [reflexivity|].
  cbn [QueryEscape]. now rewrite QueryUnescape_escape_byte, IH.
Qed.

Lemma append_cons c a b : String c a +:+ b = String c (a +:+ b).
Proof. reflexivity. Qed.

Lemma append_nil b : EmptyString +:+ b = b.
Proof. reflexivity. Qed.

Lemma exist_app p a b : Bytes.exist p (a +:+ b) = Bytes.exist p a || Bytes.exist p b.
Proof.
  induction a as [|c a IH]; [reflexivity|].
  rewrite append_cons. cbn [Bytes.exist]. rewrite IH. apply orb_assoc.
Qed.

Lemma escape_byte_plain c : Bytes.exist separator (escape_byte c) = false.
Proof. destruct c as [[] [] [] [] [] [] [] []]; reflexivity. Qed.

Lemma QueryEscape_plain s : Bytes.exist separator (QueryEscape s) = false.
Proof.
  induction s as [|c s IH]; [reflexivity|].
  cbn [QueryEscape]. now rewrite exist_app, escape_byte_plain, IH.
Qed.

Lemma cut_plain sep a b :
  Bytes.exist (Ascii.eqb sep) a = false ->
  Bytes.cut sep (a +:+ String sep b) = (a, b, true).
Proof.
  induction a as [|c a IH]; rewrite ?append_cons, ?append_nil;
    cbn [Bytes.exist Bytes.cut]; intros H.
  - now rewrite Ascii.eqb_refl.
  - apply orb_false_elim in H as [Hc Ha].
    rewrite Ascii.eqb_sym, Hc. now rewrite IH.
Qed.

Lemma split_plain sep a :
  Bytes.exist (Ascii.eqb sep) a = false -> Bytes.split sep a = [a].
Proof.
  induction a as [|c a IH]; cbn [Bytes.exist Bytes.split]; intros H; [reflexivity|].
  apply orb_false_elim in H as [Hc Ha].
  now rewrite Ascii.eqb_sym, Hc, IH.
Qed.

Lemma split_app sep a b :
  Bytes.exist (Ascii.eqb sep) a = false ->
  Bytes.split sep (a +:+ String sep b) = a :: Bytes.split sep b.
Proof.
  induction a as [|c a IH]; rewrite ?append_cons, ?append_nil;
    cbn [Bytes.exist Bytes.split]; intros H.
  - now rewrite Ascii.eqb_refl.
  - apply orb_false_elim in H as [Hc Ha].
    now rewrite Ascii.eqb_sym, Hc, IH.
Qed.

Lemma split_join l :
  l <> [] ->
  Forall (fun x => Bytes.exist (Ascii.eqb "&") x = false) l ->
  Bytes.split "&" (Bytes.join "&" l) = l.
Proof.
  induction l as [|x l IH]; [done|]. intros _ Hl.
  apply Forall_cons in Hl as [Hx Hl].
  destruct l as [|y l].
  - cbn [Bytes.join]. now apply split_plain.
  - change (Bytes.join "&" (x :: y :: l)) with (x +:+ String "&" (Bytes.join "&" (y :: l))).
    rewrite split_app by done. now rewrite IH.
Qed.

Lemma exist_weaken (p q : ascii -> bool) s :
  (forall c, p c = true -> q c = true) ->
  Bytes.exist q s = false -> Bytes.exist p s = false.
Proof.
  intros Hpq. induction s as [|c s IH]; cbn [Bytes.exist]; [done|].
  intros [Hc Hs]%orb_false_elim. rewrite IH by done.
  destruct (p c) eqn:E; [|done]. apply Hpq in E. congruence.
Qed.

Lemma QueryEscape_no sep s :
  separator sep = true -> Bytes.exist (Ascii.eqb sep) (QueryEscape s) = false.
Proof.
  intros Hsep. apply exist_weaken with (q := separator); [|apply QueryEscape_plain].
  intros c Hc. apply Ascii.eqb_eq in Hc. now subst.
Qed.

Lemma pair_text_nonempty k x : String.eqb (pair_text k x) EmptyString = false.
Proof. unfold pair_text. now destruct (QueryEscape k). Qed.

Lemma pair_text_no_amp k x : Bytes.exist (Ascii.eqb "&") (pair_text k x) = false.
Proof.
  unfold pair_text. rewrite !exist_app, !QueryEscape_no by done. reflexivity.
Qed.

Lemma parse_pair_text k x v : parse_pair (pair_text k x) v = Values_Add k x v.
Proof.
  unfold parse_pair, pair_text.
  rewrite !exist_app, !QueryEscape_no by done. cbn [Bytes.exist orb Ascii.eqb].
  change ("=" +:+ QueryEscape x) with (String "=" (QueryEscape x)).
  rewrite cut_plain by now apply QueryEscape_no.
  now rewrite !QueryUnescape_QueryEscape.
Qed.


Lemma fold_pairs (vals : string -> list string) ks v :
  fold_left parse_step (k ← ks; pair_text k <$> vals k) v =
  fold_left (fun v k => add_all k (vals k) v) ks v.
Proof.
  revert v. induction ks as [|k ks IH]; intros v; [reflexivity|].
  rewrite bind_cons, fold_left_app. cbn [fold_left]. rewrite <- IH. f_equal.
  unfold add_all. generalize (vals k) as xs. intros xs. revert v.
  induction xs as [|x xs IHx]; intros v; [reflexivity|].
  cbn [fmap list_fmap fold_left]. unfold parse_step at 2.
  rewrite pair_text_nonempty, parse_pair_text. apply IHx.
Qed.

Lemma add_all_insert k xs (v : Values) :
  xs <> [] -> add_all k xs v = <[k := default [] (v !! k) ++ xs]> v.
Proof.
  unfold add_all. revert v. induction xs as [|x xs IH]; intros v Hne; [done|].
  cbn [fold_left]. destruct xs as [|y xs].
  - reflexivity.
  - rewrite IH by done. unfold Values_Add.
    rewrite lookup_insert_eq, insert_insert_eq. cbn [default id].
    now rewrite <- app_assoc.
Qed.

Lemma fold_add_all (vals : string -> list string) ks (v : Values) j :
  NoDup ks ->
  (forall k, k ∈ ks -> v !! k = None) ->
  (forall k, k ∈ ks -> vals k <> []) ->
  fold_left (fun v k => add_all k (vals k) v) ks v !! j =
  if decide (j ∈ ks) then Some (vals j) else v !! j.
Proof.
  revert v. induction ks as [|k ks IH]; intros v Hnd Hv Hvals.
  - cbn [fold_left]. case_decide as Hj; [|done]. now apply elem_of_nil in Hj.
  - apply NoDup_cons in Hnd as [Hk Hnd]. cbn [fold_left].
    rewrite add_all_insert by (apply Hvals; left).
    rewrite Hv by left. cbn [default app].
    rewrite IH; [| done | |].
    + destruct (decide (j = k)) as [->|Hjk].
      * rewrite decide_False by done. rewrite decide_True by left.
        apply lookup_insert_eq.
      * rewrite lookup_insert_ne by done.
        destruct (decide (j ∈ ks)) as [Hj|Hj].
        -- rewrite decide_True by now right. done.
        -- rewrite decide_False; [done|]. rewrite not_elem_of_cons. done.
    + intros k' Hk'. rewrite lookup_insert_ne by (intros ->; done).
      apply Hv. now right.
    + intros k' Hk'. apply Hvals. now right.
Qed.

Lemma elem_of_sorted_keys (v : Values) k : k ∈ sorted_keys v <-> is_Some (v !! k).
Proof.
  unfold sorted_keys. rewrite merge_sort_Permutation, list_elem_of_fmap. split.
  - intros [[k' xs] [-> H]]. apply elem_of_map_to_list in H. now exists xs.
  - intros [xs H]. exists (k, xs). split; [done|]. now apply elem_of_map_to_list.
Qed.

Lemma fold_split_join l v :
  Forall (fun x => Bytes.exist (Ascii.eqb "&") x = false) l ->
  fold_left parse_step (Bytes.split "&" (Bytes.join "&" l)) v = fold_left parse_step l v.
Proof.
  intros Hl. destruct l as [|p l]; [reflexivity|]. now rewrite split_join.
Qed.

(** The values of a query are recovered from its encoded text. *)
Lemma ParseQuery_Encode (v : Values) :
  no_empty_key v -> ParseQuery (Values_Encode v) = v.
Proof.
  intros Hv. unfold ParseQuery, Values_Encode. rewrite fold_split_join.
  2:{ apply Forall_bind, Forall_forall. intros k _.
      apply Forall_fmap, Forall_forall. intros x _. apply pair_text_no_amp. }
  rewrite (fold_pairs (fun k => default [] (v !! k))). apply map_eq. intros j.
  rewrite fold_add_all.
  - case_decide as Hj.
    + apply elem_of_sorted_keys in Hj as [xs Hxs]. now rewrite Hxs.
    + rewrite lookup_empty. symmetry. apply eq_None_not_Some.
      now rewrite <- elem_of_sorted_keys.
  - unfold sorted_keys. rewrite merge_sort_Permutation. apply NoDup_fst_map_to_list.
  - intros k _. apply lookup_empty.
  - intros k [xs Hk]%elem_of_sorted_keys. rewrite Hk. cbn.
    intros ->. now apply (Hv k).
Qed.

Lemma no_empty_key_empty : no_empty_key ∅.
Proof. intros k. now rewrite lookup_empty. Qed.

Lemma no_empty_key_Set k x v : no_empty_key v -> no_empty_key (Values_Set k x v).
Proof.
  intros Hv j. unfold Values_Set. destruct (decide (k = j)) as [->|Hkj].
  - now rewrite lookup_insert_eq.
  - rewrite lookup_insert_ne by done. apply Hv.
Qed.

Lemma Target_with_headers bs req : Target (with_headers bs req) = Target req.
Proof. unfold with_headers. now destruct (tok bs). Qed.

Lemma Method_with_headers bs req : Method (with_headers bs req) = Method req.
Proof. unfold with_headers. now destruct (tok bs). Qed.

Lemma query_of_request bs method usedAPI q :
  no_empty_key q -> query_of (request bs method (api_url usedAPI q)) = q.
Proof.
  intros Hq. unfold query_of, request. rewrite Target_with_headers.
  now apply ParseQuery_Encode.
Qed.

(** *** The text of a URL and its parse *)

Lemma escape_byte_no_break c : Bytes.exist breaks_url (escape_byte c) = false.
Proof. destruct c as [[] [] [] [] [] [] [] []]; reflexivity. Qed.

Lemma QueryEscape_no_break s : Bytes.exist breaks_url (QueryEscape s) = false.
Proof.
  induction s as [|c s IH]; [reflexivity|].
  cbn [QueryEscape]. now rewrite exist_app, escape_byte_no_break, IH.
Qed.

Lemma exist_join p sep l :
  Bytes.exist p sep = false ->
  Forall (fun x => Bytes.exist p x = false) l ->
  Bytes.exist p (Bytes.join sep l) = false.
Proof.
  intros Hsep. induction 1 as [|x l Hx Hl IH]; [reflexivity|].
  destruct l as [|y l]; [done|].
  change (Bytes.join sep (x :: y :: l)) with (x +:+ sep +:+ Bytes.join sep (y :: l)).
  now rewrite !exist_app, Hx, Hsep, IH.
Qed.

Lemma Values_Encode_no_break v : Bytes.exist breaks_url (Values_Encode v) = false.
Proof.
  unfold Values_Encode. apply exist_join; [reflexivity|].
  apply Forall_bind, Forall_forall. intros k _.
  apply Forall_fmap, Forall_forall. intros x _. unfold pair_text. cbn.
  now rewrite !exist_app, !QueryEscape_no_break.
Qed.

Lemma Values_Encode_nonempty (v : Values) k xs :
  no_empty_key v -> v !! k = Some xs -> Values_Encode v <> EmptyString.
Proof.
  intros Hv Hk He. apply ParseQuery_Encode in Hv. rewrite He in Hv.
  change (ParseQuery EmptyString) with (∅ : Values) in Hv. subst v.
  now rewrite lookup_empty in Hk.
Qed.

Lemma cut_none sep s :
  Bytes.exist (Ascii.eqb sep) s = false -> Bytes.cut sep s = (s, EmptyString, false).
Proof.
  induction s as [|c s IH]; cbn [Bytes.exist Bytes.cut]; [done|].
  intros [Hc Hs]%orb_false_elim. now rewrite Ascii.eqb_sym, Hc, IH.
Qed.

Lemma append_empty s : s +:+ EmptyString = s.
Proof. induction s as [|c s IH]; [done|]. now rewrite append_cons, IH. Qed.

Lemma plain_location_no p loc :
  (forall c, p c = true -> breaks_url c || Ascii.eqb c "?" = true) ->
  plain_location loc -> Bytes.exist p loc = false.
Proof. intros Hp Hloc. now apply exist_weaken with (q := fun c => breaks_url c || Ascii.eqb c "?"). Qed.

Lemma url_Parse_String loc (v : Values) k xs :
  plain_location loc -> no_empty_key v -> v !! k = Some xs ->
  url_Parse (URL_String (mkURL loc false (Values_Encode v) EmptyString)) =
  Some (mkURL loc false (Values_Encode v) EmptyString).
Proof.
  intros Hloc Hv Hk. pose proof (Values_Encode_nonempty v k xs Hv Hk) as Hne.
  pose proof (Values_Encode_no_break v) as Hnb.
  unfold URL_String, url_Parse. cbn [Location ForceQuery RawQuery Fragment].
  destruct (Values_Encode v) as [|c enc] eqn:E; [done|].
  cbn [String.eqb negb orb]. rewrite append_empty.
  change ("?" +:+ String c enc) with (String "?" (String c enc)).
  assert (Hall : Bytes.exist breaks_url (loc +:+ String "?" (String c enc)) = false).
  { rewrite exist_app. cbn [Bytes.exist] in *.
    apply orb_false_elim in Hnb as [Hc Henc]. rewrite Hc, Henc.
    rewrite (plain_location_no breaks_url loc); [done| |done].
    intros a Ha. now rewrite Ha. }
  rewrite cut_none.
  2:{ apply exist_weaken with (q := breaks_url); [|done].
      intros a Ha. apply Ascii.eqb_eq in Ha. now subst. }
  rewrite (exist_weaken is_ctl breaks_url); [| |done].
  2:{ intros a Ha. unfold breaks_url. now rewrite Ha. }
  cbn [valid_escapes negb]. unfold ends_with_single_question.
  rewrite cut_plain.
  2:{ apply plain_location_no; [|done].
      intros a Ha. apply Ascii.eqb_eq in Ha. subst. apply orb_true_r. }
  reflexivity.
Qed.

(** *** The credential exchange *)

Lemma length_eqb_0 s : s <> EmptyString -> (String.length s =? 0)%nat = false.
Proof. now destruct s. Qed.

Lemma NewRequest_auth login password :
  NewRequest "POST"
    (URL_String (api_url "/members/auth"
       (Values_Set "password" (md5_hex password) (Values_Set "login" login ∅)))) =
  inr (mkRequest "POST"
         (api_url "/members/auth"
            (Values_Set "password" (md5_hex password) (Values_Set "login" login ∅))) ∅).
Proof.
  unfold NewRequest. cbn [String.eqb Ascii.eqb Bool.eqb].
  change (validMethod "POST") with true. cbn [negb]. unfold api_url.
  erewrite url_Parse_String; [reflexivity|reflexivity| |].
  - auto using no_empty_key_Set, no_empty_key_empty.
  - apply lookup_insert_eq.
Qed.

(** C9: constructing a client with an empty login or an empty password
    performs no credential exchange (no request is handed to the HTTP
    client) and returns the client with no token and no error. *)
Theorem NewBetaseriesClient_anonymous key login password :
  login = EmptyString \/ password = EmptyString ->
  forall sent,
    NewBetaseriesClient key login password sent =
    (Returns (mkBetaSeries bsBaseURL bsVersion key None, None), sent).
Proof.
  intros H sent. unfold NewBetaseriesClient, retrieveToken.
  destruct H as [-> | ->]; cbn [String.length Nat.eqb orb]; [reflexivity|].
  now rewrite orb_true_r.
Qed.

(** C1 (the code departs from the claim): when the credential exchange is
    answered with a status other than 200 and a body that is not JSON,
    [decodeErr] logs the decoding error and ends the process; no error is
    returned to the caller of [NewBetaseriesClient]. *)
Theorem NewBetaseriesClient_exits_on_malformed_error key login password sent resp text :
  login <> EmptyString -> password <> EmptyString ->
  Do sent (auth_request key login password) = inr resp ->
  StatusCode resp <> StatusOK ->
  Json.parse (Body resp) = inl text ->
  NewBetaseriesClient key login password sent =
  (Exits ("Error decoding API error : " +:+ text),
   sent ++ [auth_request key login password]).
Proof.
  intros Hl Hp HDo Hstatus Hbody. unfold NewBetaseriesClient, retrieveToken.
  rewrite !length_eqb_0 by done. cbn [orb baseURL].
  change (url_Parse (bsBaseURL +:+ "/members/auth"))
    with (Some (mkURL (bsBaseURL +:+ "/members/auth") false EmptyString EmptyString)).
  cbv beta iota zeta.
  change (with_RawQuery (mkURL (bsBaseURL +:+ "/members/auth") false EmptyString EmptyString) ?e)
    with (mkURL (bsBaseURL +:+ "/members/auth") false e EmptyString).
  change (Query (mkURL (bsBaseURL +:+ "/members/auth") false EmptyString EmptyString)) with (∅ : Values).
  fold (api_url "/members/auth"
          (Values_Set "password" (md5_hex password) (Values_Set "login" login ∅))).
  rewrite NewRequest_auth. io. unfold do.
  fold (request (mkBetaSeries bsBaseURL bsVersion key None) "POST"
          (api_url "/members/auth"
             (Values_Set "password" (md5_hex password) (Values_Set "login" login ∅)))).
  fold (auth_request key login password). rewrite HDo.
  apply Z.eqb_neq in Hstatus. rewrite Hstatus. cbn [negb].
  unfold decodeErr. rewrite Hbody. reflexivity.
Qed.

(** X21: The other decoding of [retrieveToken]: a token body that is not
    JSON, under the status 200, is an error returned to the caller. *)
Lemma NewBetaseriesClient_token_body_error key login password sent resp text :
  login <> EmptyString -> password <> EmptyString ->
  Do sent (auth_request key login password) = inr resp ->
  StatusCode resp = StatusOK ->
  Json.parse (Body resp) = inl text ->
  NewBetaseriesClient key login password sent =
  (Returns (mkBetaSeries bsBaseURL bsVersion key None,
            Some (Errorf ("Error decoding token response :%v" +:+ newline) [text])),
   sent ++ [auth_request key login password]).
Proof.
  intros Hl Hp HDo Hstatus Hbody. unfold NewBetaseriesClient, retrieveToken.
  rewrite !length_eqb_0 by done. cbn [orb baseURL].
  change (url_Parse (bsBaseURL +:+ "/members/auth"))
    with (Some (mkURL (bsBaseURL +:+ "/members/auth") false EmptyString EmptyString)).
  cbv beta iota zeta.
  change (with_RawQuery (mkURL (bsBaseURL +:+ "/members/auth") false EmptyString EmptyString) ?e)
    with (mkURL (bsBaseURL +:+ "/members/auth") false e EmptyString).
  change (Query (mkURL (bsBaseURL +:+ "/members/auth") false EmptyString EmptyString))
    with (∅ : Values).
  fold (api_url "/members/auth"
          (Values_Set "password" (md5_hex password) (Values_Set "login" login ∅))).
  rewrite NewRequest_auth. io. unfold do.
  fold (request (mkBetaSeries bsBaseURL bsVersion key None) "POST"
          (api_url "/members/auth"
             (Values_Set "password" (md5_hex password) (Values_Set "login" login ∅)))).
  fold (auth_request key login password). rewrite HDo.
  apply Z.eqb_eq in Hstatus. rewrite Hstatus. cbn [negb].
  unfold Decode. rewrite Hbody. reflexivity.
Qed.

(** *** Running the calls *)

(** A decoded envelope is one whose error list is empty. *)
Lemma decode_inr {A} (unmarshal : A -> Unmarshal.object -> string + A) zero resp
    usedAPI query data :
  decode unmarshal zero resp usedAPI query = inr data ->
  Decode unmarshal zero (Body resp) = inr data
  /\ exists reported,
      Decode errAPI.unmarshal errAPI.zero (Body resp) = inr reported
      /\ errAPI.Errors reported = [].
Proof.
  unfold decode. destruct (Decode unmarshal zero (Body resp)) as [?|d]; [done|].
  destruct (Decode errAPI.unmarshal errAPI.zero (Body resp)) as [?|rep]; [done|].
  destruct (errAPI.Errors rep) eqn:E; [|done].
  intros [= ->]. split; [done|]. now exists rep.
Qed.

Lemma do_url_run bs method u sent :
  do_url bs method u sent =
  (Returns (received (Do sent (request bs method u))), sent ++ [request bs method u]).
Proof.
  unfold do_url, do. io. fold (request bs method u).
  now destruct (Do sent (request bs method u)).
Qed.

Ltac run_tail :=
  io; rewrite do_url_run; unfold received;
  repeat match goal with
         | |- context [match ?x with _ => _ end] => destruct x
         end; reflexivity.

Lemma doGetShows_run bs u usedAPI sent :
  doGetShows bs u usedAPI sent =
  (Returns (resp ← received (Do sent (request bs "GET" u));
            data ← decode shows.unmarshal shows.zero resp usedAPI (RawQuery u);
            if (length (shows.Shows data) <? 1)%nat then inl errNoShowsFound
            else inr (shows.Shows data)),
   sent ++ [request bs "GET" u]).
Proof. unfold doGetShows. run_tail. Qed.

Lemma doGetSimilars_run bs u sent :
  doGetSimilars bs u sent =
  (Returns (resp ← received (Do sent (request bs "GET" u));
            data ← decode similars.unmarshal similars.zero resp EmptyString (RawQuery u);
            if (length (similars.Similars data) <? 1)%nat then inl errNoShowsFound
            else inr (similars.Similars data)),
   sent ++ [request bs "GET" u]).
Proof. unfold doGetSimilars. run_tail. Qed.

Lemma doGetEpisodes_run bs u usedAPI sent :
  doGetEpisodes bs u usedAPI sent =
  (Returns (resp ← received (Do sent (request bs "GET" u));
            data ← decode episodes.unmarshal episodes.zero resp usedAPI (RawQuery u);
            if (length (episodes.Episodes data) <? 1)%nat then inl errNoEpisodesFound
            else inr (episodes.Episodes data)),
   sent ++ [request bs "GET" u]).
Proof. unfold doGetEpisodes. run_tail. Qed.

(** The parse of the URL of an endpoint, for a client of the API. *)
Ltac parse_api path :=
  change (url_Parse (bsBaseURL +:+ path))
    with (Some (mkURL (bsBaseURL +:+ path) false EmptyString EmptyString));
  cbv beta iota zeta;
  change (Query (mkURL (bsBaseURL +:+ path) false EmptyString EmptyString)) with (∅ : Values);
  change (with_RawQuery (mkURL (bsBaseURL +:+ path) false EmptyString EmptyString) ?e)
    with (mkURL (bsBaseURL +:+ path) false e EmptyString).

Lemma ShowsSearch_run bs query order summary sent :
  baseURL bs = bsBaseURL ->
  ShowsSearch bs query order summary sent =
  doGetShows bs (api_url "/shows/search" (ShowsSearch_query query order summary ∅))
    "/shows/search" sent.
Proof. intros Hb. unfold ShowsSearch. rewrite Hb. now parse_api "/shows/search". Qed.

Lemma ShowsRandom_run bs num summary sent :
  baseURL bs = bsBaseURL ->
  ShowsRandom bs num summary sent =
  doGetShows bs (api_url "/shows/random" (ShowsRandom_query num summary ∅))
    "/shows/random" sent.
Proof. intros Hb. unfold ShowsRandom. rewrite Hb. now parse_api "/shows/random". Qed.

Lemma ShowsList_run bs since starting order start limit sent :
  baseURL bs = bsBaseURL ->
  ShowsList bs since starting order start limit sent =
  doGetShows bs (api_url "/shows/list" (ShowsList_query since starting order start limit ∅))
    "/shows/list" sent.
Proof. intros Hb. unfold ShowsList. rewrite Hb. now parse_api "/shows/list". Qed.

Lemma EpisodesList_run bs showID theTvdbID imdbID userID limit released subtitles specials sent :
  baseURL bs = bsBaseURL ->
  EpisodesList bs showID theTvdbID imdbID userID limit released subtitles specials sent =
  doGetShows bs
    (api_url "/episodes/list"
       (EpisodesList_query showID theTvdbID imdbID userID limit released subtitles specials ∅))
    "/episodes/list" sent.
Proof. intros Hb. unfold EpisodesList. rewrite Hb. now parse_api "/episodes/list". Qed.

Lemma EpisodesList_of_run bs showID userID sent :
  baseURL bs = bsBaseURL ->
  EpisodesList_of bs showID userID sent =
  doGetShows bs (api_url "/episodes/list" (EpisodesList_of_query showID userID ∅))
    "/episodes/list" sent.
Proof. intros Hb. unfold EpisodesList_of. rewrite Hb. now parse_api "/episodes/list". Qed.

Lemma ShowsSimilars_run bs id theTvdbID details sent :
  baseURL bs = bsBaseURL ->
  ShowsSimilars bs id theTvdbID details sent =
  match ShowsSimilars_query id theTvdbID details ∅ with
  | inl err => (Returns (inl err), sent)
  | inr q => doGetSimilars bs (api_url "/shows/similars" q) sent
  end.
Proof.
  intros Hb. unfold ShowsSimilars. rewrite Hb. parse_api "/shows/similars".
  now destruct (ShowsSimilars_query _ _ _ _).
Qed.

Lemma ShowsEpisodes_run bs id theTvdbID season episode subtitles sent :
  baseURL bs = bsBaseURL ->
  ShowsEpisodes bs id theTvdbID season episode subtitles sent =
  match ShowsEpisodes_query id theTvdbID season episode subtitles ∅ with
  | inl err => (Returns (inl err), sent)
  | inr q => doGetEpisodes bs (api_url "/shows/episodes" q) "/shows/episodes" sent
  end.
Proof.
  intros Hb. unfold ShowsEpisodes. rewrite Hb. parse_api "/shows/episodes".
  now destruct (ShowsEpisodes_query _ _ _ _ _ _).
Qed.

Lemma ShowsCharacters_run bs id theTvdbID sent :
  baseURL bs = bsBaseURL ->
  ShowsCharacters bs id theTvdbID sent =
  match ShowsCharacters_query id theTvdbID ∅ with
  | inl err => (Returns (inl err), sent)
  | inr q =>
      (Returns (resp ← received (Do sent (request bs "GET" (api_url "/shows/characters" q)));
                data ← decode characters.unmarshal characters.zero resp
                         "/shows/characters" (Values_Encode q);
                if (length (characters.Characters data) <? 1)%nat
                then inl errNoCharactersFound
                else inr (characters.Characters data)),
       sent ++ [request bs "GET" (api_url "/shows/characters" q)])
  end.
Proof.
  intros Hb. unfold ShowsCharacters. rewrite Hb. parse_api "/shows/characters".
  destruct (ShowsCharacters_query _ _ _) as [err|q]; [reflexivity|].
  cbn [RawQuery]. fold (api_url "/shows/characters" q). run_tail.
Qed.

Lemma ShowsVideos_run bs id tvdbID sent :
  baseURL bs = bsBaseURL ->
  ShowsVideos bs id tvdbID sent =
  match ShowsVideos_query id tvdbID ∅ with
  | inl err => (Returns (inl err), sent)
  | inr q =>
      (Returns (resp ← received (Do sent (request bs "GET" (api_url "/shows/videos" q)));
                data ← decode videos.unmarshal videos.zero resp
                         "/shows/videos" (Values_Encode q);
                if (length (videos.Videos data) <? 1)%nat then inl errNoVideosFound
                else inr (videos.Videos data)),
       sent ++ [request bs "GET" (api_url "/shows/videos" q)])
  end.
Proof.
  intros Hb. unfold ShowsVideos. rewrite Hb. parse_api "/shows/videos".
  destruct (ShowsVideos_query _ _ _) as [err|q]; [reflexivity|].
  cbn [RawQuery]. fold (api_url "/shows/videos" q). run_tail.
Qed.

Lemma showUpdate_run bs method endPoint id theTvdbID imdbID option_ sent :
  baseURL bs = bsBaseURL -> endPoint ∈ show_endpoints ->
  showUpdate bs method endPoint id theTvdbID imdbID option_ sent =
  match showUpdate_query endPoint id theTvdbID imdbID option_ ∅ with
  | inl err => (Returns (inl err), sent)
  | inr q =>
      (Returns (resp ← received (Do sent (request bs method (api_url ("/shows/" +:+ endPoint) q)));
                show ← decode showItem.unmarshal showItem.zero resp
                         ("/shows/" +:+ endPoint) (Values_Encode q);
                inr (showItem.Show show)),
       sent ++ [request bs method (api_url ("/shows/" +:+ endPoint) q)])
  end.
Proof.
  intros Hb Hin. unfold showUpdate. rewrite Hb.
  assert (Hparse : url_Parse (bsBaseURL +:+ "/shows/" +:+ endPoint) =
                   Some (mkURL (bsBaseURL +:+ "/shows/" +:+ endPoint) false EmptyString EmptyString)).
  { unfold show_endpoints in Hin.
    repeat (apply elem_of_cons in Hin as [-> | Hin]; [reflexivity|]).
    now apply elem_of_nil in Hin. }
  rewrite Hparse. cbv beta iota zeta.
  change (Query (mkURL (bsBaseURL +:+ "/shows/" +:+ endPoint) false EmptyString EmptyString)) with (∅ : Values).
  destruct (showUpdate_query _ _ _ _ _ _) as [err|q]; [reflexivity|].
  change (with_RawQuery (mkURL (bsBaseURL +:+ "/shows/" +:+ endPoint) false EmptyString EmptyString) ?e)
    with (mkURL (bsBaseURL +:+ "/shows/" +:+ endPoint) false e EmptyString).
  cbn [RawQuery]. fold (api_url ("/shows/" +:+ endPoint) q). run_tail.
Qed.

Lemma episodeUpdate_run bs method id sent :
  baseURL bs = bsBaseURL ->
  episodeUpdate bs method id sent =
  let q := Values_Set "id" (Itoa id) ∅ in
  (Returns (resp ← received (Do sent (request bs method (api_url "/episodes/downloaded" q)));
            episode ← decode episodeItem.unmarshal episodeItem.zero resp
                        "/episodes/downloaded" (Values_Encode q);
            inr (episodeItem.Episode episode)),
   sent ++ [request bs method (api_url "/episodes/downloaded" q)]).
Proof.
  intros Hb. unfold episodeUpdate. rewrite Hb. parse_api "/episodes/downloaded".
  cbn [RawQuery]. fold (api_url "/episodes/downloaded" (Values_Set "id" (Itoa id) ∅)).
  run_tail.
Qed.

(** *** What the calls send *)

Lemma sends_query {A} (call : IO (error + A)) bs method usedAPI q :
  (forall sent, snd (call sent) = sent ++ [request bs method (api_url usedAPI q)]) ->
  no_empty_key q ->
  exists req, sends call req /\ query_of req = q.
Proof.
  intros Hcall Hq. exists (request bs method (api_url usedAPI q)).
  split; [exact Hcall | now apply query_of_request].
Qed.

Ltac as_bool :=
  repeat match goal with
         | H : 0 < _ |- _ => apply Z.ltb_lt in H
         | H : _ <= 0 |- _ => apply Z.ltb_ge in H
         | H : 0 <= _ |- _ => apply Z.leb_le in H
         | H : _ < 0 |- _ => apply Z.leb_gt in H
         | H : _ <> EmptyString |- _ => apply String.eqb_neq in H
         end.

Ltac use_bools :=
  repeat match goal with
         | H : _ = true |- _ => rewrite H
         | H : _ = false |- _ => rewrite H
         end.

Ltac cases :=
  repeat match goal with
         | |- context [if ?b then _ else _] => destruct b
         end.

Ltac no_empty := cases; repeat apply no_empty_key_Set; apply no_empty_key_empty.

Ltac unfold_queries :=
  unfold ShowsSimilars_query, ShowsCharacters_query, ShowsEpisodes_query,
    showUpdate_query, ShowsVideos_query, ShowsSearch_query, ShowsRandom_query,
    ShowsList_query, EpisodesList_query, EpisodesList_of_query.

(** The request of a call, once its run equation [run] is known. *)
Ltac sends_by run :=
  let sent := fresh "sent" in
  intros sent; rewrite run by done; unfold_queries; use_bools; cbn;
  rewrite ?doGetShows_run, ?doGetSimilars_run, ?doGetEpisodes_run; reflexivity.

Ltac fails_by run :=
  let sent := fresh "sent" in
  intros sent; rewrite run by done; unfold_queries; use_bools; reflexivity.

Ltac lookups := cases; unfold Values_Set; now simplify_map_eq.

Lemma ShowsSimilars_policy bs id theTvdbID details :
  baseURL bs = bsBaseURL ->
  resolves_identifier (ShowsSimilars bs id theTvdbID details) id theTvdbID EmptyString.
Proof.
  intros Hb. unfold resolves_identifier. repeat split; intros; as_bool; try done.
  - edestruct (sends_query (ShowsSimilars bs id theTvdbID details)) as (req & Hs & Hq);
      [sends_by ShowsSimilars_run | no_empty |].
    exists req. rewrite Hq. split; [done|]. lookups.
  - edestruct (sends_query (ShowsSimilars bs id theTvdbID details)) as (req & Hs & Hq);
      [sends_by ShowsSimilars_run | no_empty |].
    exists req. rewrite Hq. split; [done|]. lookups.
  - fails_by ShowsSimilars_run.
Qed.

Lemma ShowsCharacters_policy bs id theTvdbID :
  baseURL bs = bsBaseURL ->
  resolves_identifier (ShowsCharacters bs id theTvdbID) id theTvdbID EmptyString.
Proof.
  intros Hb. unfold resolves_identifier. repeat split; intros; as_bool; try done.
  - edestruct (sends_query (ShowsCharacters bs id theTvdbID)) as (req & Hs & Hq);
      [sends_by ShowsCharacters_run | no_empty |].
    exists req. rewrite Hq. split; [done|]. lookups.
  - edestruct (sends_query (ShowsCharacters bs id theTvdbID)) as (req & Hs & Hq);
      [sends_by ShowsCharacters_run | no_empty |].
    exists req. rewrite Hq. split; [done|]. lookups.
  - fails_by ShowsCharacters_run.
Qed.

Lemma ShowsEpisodes_policy bs id theTvdbID season episode subtitles :
  baseURL bs = bsBaseURL ->
  resolves_identifier (ShowsEpisodes bs id theTvdbID season episode subtitles)
    id theTvdbID EmptyString.
Proof.
  intros Hb. unfold resolves_identifier. repeat split; intros; as_bool; try done.
  - edestruct (sends_query (ShowsEpisodes bs id theTvdbID season episode subtitles))
      as (req & Hs & Hq); [sends_by ShowsEpisodes_run | no_empty |].
    exists req. rewrite Hq. split; [done|]. lookups.
  - edestruct (sends_query (ShowsEpisodes bs id theTvdbID season episode subtitles))
      as (req & Hs & Hq); [sends_by ShowsEpisodes_run | no_empty |].
    exists req. rewrite Hq. split; [done|]. lookups.
  - fails_by ShowsEpisodes_run.
Qed.

Lemma showUpdate_policy bs method endPoint id theTvdbID imdbID option_ :
  baseURL bs = bsBaseURL -> endPoint ∈ show_endpoints ->
  resolves_identifier (showUpdate bs method endPoint id theTvdbID imdbID option_)
    id theTvdbID imdbID.
Proof.
  intros Hb Hin. unfold resolves_identifier. repeat split; intros; as_bool.
  - edestruct (sends_query (showUpdate bs method endPoint id theTvdbID imdbID option_))
      as (req & Hs & Hq); [sends_by showUpdate_run | no_empty |].
    exists req. rewrite Hq. split; [done|]. lookups.
  - edestruct (sends_query (showUpdate bs method endPoint id theTvdbID imdbID option_))
      as (req & Hs & Hq); [sends_by showUpdate_run | no_empty |].
    exists req. rewrite Hq. split; [done|]. lookups.
  - edestruct (sends_query (showUpdate bs method endPoint id theTvdbID imdbID option_))
      as (req & Hs & Hq); [sends_by showUpdate_run | no_empty |].
    exists req. rewrite Hq. split; [done|]. lookups.
  - subst imdbID. fails_by showUpdate_run.
Qed.

Lemma ShowsVideos_policy bs id tvdbID :
  baseURL bs = bsBaseURL ->
  (0 < id -> tvdbID <= 0 ->
   exists req, sends (ShowsVideos bs id tvdbID) req
               /\ query_of req !! "id" = Some [Itoa id]
               /\ query_of req !! "thetvdb_id" = None)
  /\ (id <= 0 -> tvdbID <= 0 -> fails_locally (ShowsVideos bs id tvdbID) errIDNotProperlySet).
Proof.
  intros Hb. split; intros; as_bool.
  - edestruct (sends_query (ShowsVideos bs id tvdbID)) as (req & Hs & Hq);
      [sends_by ShowsVideos_run | no_empty |].
    exists req. rewrite Hq. split; [done|]. lookups.
  - fails_by ShowsVideos_run.
Qed.

(** *** The claims about the requests *)

(** C3 (amended): [ShowDisplay], [ShowAdd], [ShowRemove], [ShowArchive],
    [ShowNotArchive], [ShowNoteRemove], [ShowNote] with a note from 1 to 5,
    [ShowsSimilars], [ShowsCharacters] and [ShowsEpisodes] resolve their
    identifiers in order: a positive local identifier is sent as [id] with
    no [thetvdb_id]; else a positive external identifier is sent as
    [thetvdb_id] with no [id]; else a non-empty string identifier, where one
    is taken, is sent as [imdb_id] with neither of them; else the call fails
    with "id not properly set" and sends nothing.  [ShowFavorite] and
    [ShowFavoriteRemove], which take the local identifier alone, send it
    when it is positive and fail in the same way when it is not.
    [ShowsVideos] sends a positive local identifier as [id], with no
    [thetvdb_id], when the external one is not positive, fails with "id not
    properly set" when neither is positive, and fails with "no single id
    used", sending nothing, when both are. *)
Theorem identifier_resolution bs :
  baseURL bs = bsBaseURL ->
  (forall id theTvdbID imdbID,
      resolves_identifier (ShowDisplay bs id theTvdbID imdbID) id theTvdbID imdbID)
  /\ (forall id theTvdbID imdbID lastEpisodeID,
         resolves_identifier (ShowAdd bs id theTvdbID imdbID lastEpisodeID)
           id theTvdbID imdbID)
  /\ (forall id theTvdbID imdbID,
         resolves_identifier (ShowRemove bs id theTvdbID imdbID) id theTvdbID imdbID)
  /\ (forall id theTvdbID,
         resolves_identifier (ShowArchive bs id theTvdbID) id theTvdbID EmptyString)
  /\ (forall id theTvdbID,
         resolves_identifier (ShowNotArchive bs id theTvdbID) id theTvdbID EmptyString)
  /\ (forall id theTvdbID,
         resolves_identifier (ShowNoteRemove bs id theTvdbID) id theTvdbID EmptyString)
  /\ (forall id theTvdbID note,
         1 <= note <= 5 ->
         resolves_identifier (ShowNote bs id theTvdbID note) id theTvdbID EmptyString)
  /\ (forall id theTvdbID details,
         resolves_identifier (ShowsSimilars bs id theTvdbID details) id theTvdbID EmptyString)
  /\ (forall id theTvdbID,
         resolves_identifier (ShowsCharacters bs id theTvdbID) id theTvdbID EmptyString)
  /\ (forall id theTvdbID season episode subtitles,
         resolves_identifier (ShowsEpisodes bs id theTvdbID season episode subtitles)
           id theTvdbID EmptyString)
  /\ (forall id, resolves_identifier (ShowFavorite bs id) id 0 EmptyString)
  /\ (forall id, resolves_identifier (ShowFavoriteRemove bs id) id 0 EmptyString)
  /\ (forall id tvdbID,
         (0 < id -> tvdbID <= 0 ->
          exists req, sends (ShowsVideos bs id tvdbID) req
                      /\ query_of req !! "id" = Some [Itoa id]
                      /\ query_of req !! "thetvdb_id" = None)
         /\ (id <= 0 -> tvdbID <= 0 ->
             fails_locally (ShowsVideos bs id tvdbID) errIDNotProperlySet)
         /\ (0 < id -> 0 < tvdbID ->
             fails_locally (ShowsVideos bs id tvdbID) errNoSingleIDUsed)).
Proof.
  intros Hb.
  assert (Hupdate : forall method endPoint id theTvdbID imdbID option_,
             endPoint ∈ show_endpoints ->
             resolves_identifier
               (showUpdate bs method endPoint id theTvdbID imdbID option_)
               id theTvdbID imdbID)
    by (intros; apply showUpdate_policy; assumption).
  unfold ShowDisplay, ShowAdd, ShowRemove, ShowArchive, ShowNotArchive, ShowNoteRemove,
    ShowFavorite, ShowFavoriteRemove.
  repeat apply conj; intros;
    try (apply Hupdate; unfold show_endpoints;
         repeat first [apply list_elem_of_here | apply list_elem_of_further]).
  - unfold ShowNote.
    rewrite (proj2 (orb_false_iff _ _)) by (split; apply Z.ltb_ge; lia).
    apply Hupdate. unfold show_endpoints.
    repeat first [apply list_elem_of_here | apply list_elem_of_further].
  - now apply ShowsSimilars_policy.
  - now apply ShowsCharacters_policy.
  - now apply ShowsEpisodes_policy.
  - destruct (ShowsVideos_policy bs id tvdbID Hb) as [Hlocal Hnone].
    repeat apply conj; [exact Hlocal | exact Hnone |].
    intros Hid Htvdb. as_bool. fails_by ShowsVideos_run.
Qed.

(** C4 (amended): [ShowsVideos] fails with "no single id used", sending
    nothing, whenever both identifiers are positive; [ShowsSimilars] then
    sends the request of the local identifier. *)
Theorem both_identifiers_positive bs id tvdbID :
  baseURL bs = bsBaseURL -> 0 < id -> 0 < tvdbID ->
  fails_locally (ShowsVideos bs id tvdbID) errNoSingleIDUsed
  /\ forall details,
      exists req, sends (ShowsSimilars bs id tvdbID details) req
                  /\ query_of req !! "id" = Some [Itoa id]
                  /\ query_of req !! "thetvdb_id" = None.
Proof.
  intros Hb Hid Htv. split.
  - as_bool. fails_by ShowsVideos_run.
  - intros details. now apply ShowsSimilars_policy.
Qed.

(** C5: [ShowNote] fails with "invalid note", sending nothing, for every
    note outside 1..5; for a note inside 1..5 the request it sends has the
    note as its [note] parameter (and it fails with "id not properly set",
    sending nothing, when neither identifier is positive). *)
Theorem ShowNote_range bs bsID theTvdbID note :
  baseURL bs = bsBaseURL ->
  (note < 1 \/ 5 < note -> fails_locally (ShowNote bs bsID theTvdbID note) errInvalidNote)
  /\ (1 <= note <= 5 -> 0 < bsID \/ 0 < theTvdbID ->
      exists req, sends (ShowNote bs bsID theTvdbID note) req
                  /\ query_of req !! "note" = Some [Itoa note])
  /\ (1 <= note <= 5 -> bsID <= 0 -> theTvdbID <= 0 ->
      fails_locally (ShowNote bs bsID theTvdbID note) errIDNotProperlySet).
Proof.
  intros Hb. assert (Hin : "note" ∈ show_endpoints) by (unfold show_endpoints; set_solver).
  repeat apply conj.
  - intros Hout sent. unfold ShowNote.
    destruct Hout as [H | H]; [apply Z.ltb_lt in H | apply Z.ltb_lt in H]; rewrite H;
      [reflexivity | now rewrite orb_true_r].
  - intros [Hlo Hhi] Hid.
    assert (Hrange : (note <? 1) || (5 <? note) = false).
    { apply orb_false_intro; apply Z.ltb_ge; lia. }
    assert (Hpos : (0 <? note) = true) by (apply Z.ltb_lt; lia).
    unfold ShowNote. rewrite Hrange.
    destruct (Z.ltb_spec 0 bsID) as [Hb1|Hb1]; [| assert (0 < theTvdbID) by lia]; as_bool.
    + edestruct (sends_query (showUpdate bs "POST" "note" bsID theTvdbID EmptyString note))
        as (req & Hs & Hq); [sends_by showUpdate_run | no_empty |].
      exists req. rewrite Hq. split; [done|]. lookups.
    + edestruct (sends_query (showUpdate bs "POST" "note" bsID theTvdbID EmptyString note))
        as (req & Hs & Hq); [sends_by showUpdate_run | no_empty |].
      exists req. rewrite Hq. split; [done|]. lookups.
  - intros [Hlo Hhi] H1 H2.
    assert (Hrange : (note <? 1) || (5 <? note) = false).
    { apply orb_false_intro; apply Z.ltb_ge; lia. }
    unfold ShowNote. rewrite Hrange. as_bool. fails_by showUpdate_run.
Qed.

Ltac options :=
  unfold added_when; repeat apply conj; intros;
  repeat match goal with
         | |- context [0 <? ?x] => destruct (Z.ltb_spec 0 x)
         | |- context [0 <=? ?x] => destruct (Z.leb_spec 0 x)
         end;
  try (exfalso; lia); lookups.

(** C7 (amended): a numeric option is added to the query when it is
    strictly positive and left out otherwise ([start] and [limit] of
    [ShowsList], [limit] of [EpisodesList], [season] of [ShowsEpisodes], and
    [episode] when the season is positive too), except that [released] of
    [EpisodesList], [nb] of [ShowsRandom], and [showId] and [userId] of the
    episode file's [EpisodesList] are added when they are zero or positive
    and left out when negative. *)
Theorem numeric_options bs :
  baseURL bs = bsBaseURL ->
  (forall since starting order start limit,
      exists req, sends (ShowsList bs since starting order start limit) req
                  /\ added_when (0 < start) (query_of req) "start" (Itoa start)
                  /\ added_when (0 < limit) (query_of req) "limit" (Itoa limit))
  /\ (forall showID theTvdbID imdbID userID limit released subtitles specials,
         exists req,
           sends (EpisodesList bs showID theTvdbID imdbID userID limit released
                    subtitles specials) req
           /\ added_when (0 < limit) (query_of req) "limit" (Itoa limit)
           /\ added_when (0 <= released) (query_of req) "released" (Itoa released))
  /\ (forall num summary,
         exists req, sends (ShowsRandom bs num summary) req
                     /\ added_when (0 <= num) (query_of req) "nb" (Itoa num))
  /\ (forall id theTvdbID season episode subtitles,
         0 < id \/ 0 < theTvdbID ->
         exists req,
           sends (ShowsEpisodes bs id theTvdbID season episode subtitles) req
           /\ added_when (0 < season) (query_of req) "season" (Itoa season)
           /\ added_when (0 < season /\ 0 < episode) (query_of req) "episode"
                (Itoa episode))
  /\ (forall showID userID,
         exists req, sends (EpisodesList_of bs showID userID) req
                     /\ added_when (0 <= showID) (query_of req) "showId" (Itoa showID)
                     /\ added_when (0 <= userID) (query_of req) "userId" (Itoa userID)).
Proof.
  intros Hb. repeat apply conj.
  - intros since starting order start limit.
    edestruct (sends_query (ShowsList bs since starting order start limit))
      as (req & Hs & Hq); [sends_by ShowsList_run | no_empty |].
    exists req. rewrite Hq. split; [done|]. options.
  - intros showID theTvdbID imdbID userID limit released subtitles specials.
    edestruct (sends_query (EpisodesList bs showID theTvdbID imdbID userID limit released
                              subtitles specials))
      as (req & Hs & Hq); [sends_by EpisodesList_run | no_empty |].
    exists req. rewrite Hq. split; [done|]. options.
  - intros num summary.
    edestruct (sends_query (ShowsRandom bs num summary))
      as (req & Hs & Hq); [sends_by ShowsRandom_run | no_empty |].
    exists req. rewrite Hq. split; [done|]. options.
  - intros id theTvdbID season episode subtitles Hid.
    destruct (Z.ltb_spec 0 id) as [H1|H1]; [| assert (H2 : 0 < theTvdbID) by lia]; as_bool.
    + edestruct (sends_query (ShowsEpisodes bs id theTvdbID season episode subtitles))
        as (req & Hs & Hq); [sends_by ShowsEpisodes_run | no_empty |].
      exists req. rewrite Hq. split; [done|]. options.
    + edestruct (sends_query (ShowsEpisodes bs id theTvdbID season episode subtitles))
        as (req & Hs & Hq); [sends_by ShowsEpisodes_run | no_empty |].
      exists req. rewrite Hq. split; [done|]. options.
  - intros showID userID.
    edestruct (sends_query (EpisodesList_of bs showID userID))
      as (req & Hs & Hq); [sends_by EpisodesList_of_run | no_empty |].
    exists req. rewrite Hq. split; [done|]. options.
Qed.

Lemma map_lower_no_upper s :
  Bytes.exist Bytes.is_upper s = false -> Bytes.map Bytes.lower s = s.
Proof.
  induction s as [|c s IH]; [done|].
  change (Bytes.map Bytes.lower (String c s))
    with (String (Bytes.lower c) (Bytes.map Bytes.lower s)).
  change (Bytes.exist Bytes.is_upper (String c s))
    with (Bytes.is_upper c || Bytes.exist Bytes.is_upper s).
  intros [Hc Hs]%orb_false_elim. rewrite IH by done. unfold Bytes.lower. now rewrite Hc.
Qed.

Lemma ToLower_ascii s :
  Bytes.all Bytes.is_ascii s = true -> ToLower s = Bytes.map Bytes.lower s.
Proof.
  intros Hs. unfold ToLower. rewrite Hs.
  destruct (Bytes.exist Bytes.is_upper s) eqn:E; [done|].
  symmetry. now apply map_lower_no_upper.
Qed.

(** *** The lower case of a string *)

(** A property of the numbers of a range that is checked on each of them. *)
Lemma checked_below (P : Z -> bool) n x :
  forallb P (seqZ 0 n) = true -> 0 <= x < n -> P x = true.
Proof.
  intros H Hx. rewrite forallb_forall in H. apply H.
  apply list_elem_of_In, elem_of_seqZ. lia.
Qed.

Lemma is_upper_byte x :
  0 <= x < 256 -> Bytes.is_upper (utf8.byte x) = (65 <=? x) && (x <=? 90).
Proof.
  intros Hx.
  apply (checked_below
           (fun x => Bool.eqb (Bytes.is_upper (utf8.byte x)) ((65 <=? x) && (x <=? 90)))
           256) in Hx; [now apply eqb_prop in Hx | vm_compute; reflexivity].
Qed.

(** The bytes of a sequence of several bytes are not ASCII. *)
Lemma is_upper_marked t y :
  t ∈ [utf8.tx; utf8.t2; utf8.t3; utf8.t4] -> 0 <= y < 64 ->
  Bytes.is_upper (utf8.byte (Z.lor t y)) = false.
Proof.
  intros Ht Hy.
  apply (checked_below
           (fun y => forallb (fun t => negb (Bytes.is_upper (utf8.byte (Z.lor t y))))
                       [utf8.tx; utf8.t2; utf8.t3; utf8.t4]) 64) in Hy;
    [|vm_compute; reflexivity].
  rewrite forallb_forall in Hy. apply negb_true_iff, Hy. now apply list_elem_of_In.
Qed.

Lemma land_maskx x : 0 <= Z.land x utf8.maskx < 64.
Proof.
  change utf8.maskx with (Z.ones 6). rewrite Z.land_ones by lia.
  apply Z.mod_pos_bound. lia.
Qed.

Lemma shiftr_below x n k :
  0 <= x < k * 2 ^ n -> 0 <= n -> 0 <= Z.shiftr x n < k.
Proof.
  intros Hx Hn. rewrite Z.shiftr_div_pow2 by done.
  assert (0 < 2 ^ n) by (apply Z.pow_pos_nonneg; lia).
  split; [apply Z.div_pos; lia | apply Z.div_lt_upper_bound; lia].
Qed.

Ltac member := repeat first [apply list_elem_of_here | apply list_elem_of_further].

Lemma EncodeRune_no_capital r :
  ~ 65 <= r <= 90 -> Bytes.exist Bytes.is_upper (utf8.EncodeRune r) = false.
Proof.
  intros Hr. unfold utf8.EncodeRune, utf8.encode3.
  repeat match goal with
         | |- context [?a <=? ?b] => destruct (Z.leb_spec a b)
         | |- context [?a <? ?b] => destruct (Z.ltb_spec a b)
         end;
    cbn [andb orb Bytes.exist];
    unfold utf8.rune1Max, utf8.rune2Max, utf8.rune3Max, utf8.MaxRune,
      utf8.surrogateMin, utf8.surrogateMax in *; try lia.
  all: try (vm_compute; reflexivity).
  all: try (rewrite is_upper_byte by lia;
            destruct (Z.leb_spec 65 r), (Z.leb_spec r 90); try reflexivity; lia).
  all: rewrite !is_upper_marked; try reflexivity; try member; try apply land_maskx.
  all: first [ pose proof (shiftr_below r 6 32); lia
             | pose proof (shiftr_below r 12 16); lia
             | pose proof (shiftr_below r 18 8); lia ].
Qed.

(** The lower case of a rune above the ASCII capitals is above them too,
    when each range of the table is. *)
Lemma to_lower_above r caseRange :
  forallb above_capitals caseRange = true -> 90 < r -> 90 < unicode.to_lower r caseRange.
Proof.
  induction caseRange as [|[[lo hi] d] rest IH]; [done|].
  cbn [forallb unicode.to_lower]. intros [Hrange Hrest]%andb_true_iff Hr.
  destruct (Z.leb_spec lo r); [destruct (Z.leb_spec r hi)|]; cbn [andb]; try now apply IH.
  destruct d as [d|]; cbn [above_capitals] in Hrange; apply Z.ltb_lt in Hrange; [lia|].
  assert (0 <= Z.lor (Z.land (r - lo) (Z.lnot 1)) 1); [|lia].
  apply Z.lor_nonneg. split; [|lia]. apply Z.land_nonneg. left. lia.
Qed.

Lemma unicode_ToLower_no_capital r : ~ 65 <= unicode.ToLower r <= 90.
Proof.
  unfold unicode.ToLower, unicode.MaxASCII.
  destruct (Z.leb_spec r 0x7F).
  - destruct (Z.leb_spec 65 r), (Z.leb_spec r 90); cbn [andb]; lia.
  - assert (90 < unicode.to_lower r unicode.CaseRanges); [|lia].
    apply to_lower_above; [vm_compute; reflexivity | lia].
Qed.

Lemma Map_no_capital mapping s :
  (forall r, ~ 65 <= mapping r <= 90) ->
  Bytes.exist Bytes.is_upper (strings_Map mapping s) = false.
Proof.
  intros Hmapping. unfold strings_Map.
  induction (utf8.runes s) as [|c l IH]; [reflexivity|].
  cbn [fold_right]. cbv zeta. destruct (0 <=? mapping c); [|exact IH].
  rewrite exist_app, IH, EncodeRune_no_capital by apply Hmapping. reflexivity.
Qed.

(** An ASCII byte is a rune of its own, and its lower case is the byte of
    [Bytes.lower]. *)
Lemma first_ascii b : b < utf8.RuneSelf -> utf8.first b = None.
Proof.
  unfold utf8.RuneSelf, utf8.first. intros Hb.
  repeat match goal with
         | |- context [?a <=? ?b] => destruct (Z.leb_spec a b)
         | |- context [?a =? ?b] => destruct (Z.eqb_spec a b)
         end; cbn [andb]; try lia; reflexivity.
Qed.

Lemma lower_ascii c :
  Bytes.is_ascii c = true ->
  utf8.value c < utf8.RuneSelf
  /\ (0 <=? unicode.ToLower (utf8.value c)) = true
  /\ utf8.EncodeRune (unicode.ToLower (utf8.value c)) = String (Bytes.lower c) EmptyString.
Proof.
  destruct c as [[] [] [] [] [] [] [] []]; intros H; vm_compute in H;
    try discriminate H; vm_compute; repeat split; reflexivity.
Qed.

Lemma Map_ascii s :
  Bytes.all Bytes.is_ascii s = true ->
  strings_Map unicode.ToLower s = Bytes.map Bytes.lower s.
Proof.
  unfold strings_Map. induction s as [|c s IH]; [reflexivity|].
  cbn [Bytes.all]. intros [Hc Hs]%andb_true_iff.
  destruct (lower_ascii c Hc) as (Hself & Hsign & Hbyte).
  cbn [utf8.runes]. cbv zeta. rewrite first_ascii by done.
  apply Z.ltb_lt in Hself. rewrite Hself. cbn [fold_right]. cbv zeta.
  rewrite Hsign, Hbyte, IH by done. reflexivity.
Qed.

(** [strings.ToLower] maps each rune of the string, whichever of its two
    paths it takes. *)
Lemma ToLower_Map s : ToLower s = strings_Map unicode.ToLower s.
Proof.
  unfold ToLower. destruct (Bytes.all Bytes.is_ascii s) eqn:Hs; [|reflexivity].
  rewrite Map_ascii by done.
  destruct (Bytes.exist Bytes.is_upper s) eqn:Hu; [reflexivity|].
  now rewrite map_lower_no_upper.
Qed.

Lemma ToLower_no_capital s : Bytes.exist Bytes.is_upper (ToLower s) = false.
Proof. rewrite ToLower_Map. apply Map_no_capital, unicode_ToLower_no_capital. Qed.

(** *** Reading back the bytes of a rune *)

Lemma lor_add a n b : 0 <= n -> 0 <= b < 2 ^ n -> Z.lor (a * 2 ^ n) b = a * 2 ^ n + b.
Proof.
  intros Hn Hb.
  assert (Hland : Z.land (a * 2 ^ n) b = 0).
  { apply Z.bits_inj'. intros i Hi. rewrite Z.land_spec, Z.bits_0.
    destruct (Z.lt_ge_cases i n) as [Hlt|Hge].
    - now rewrite Z.mul_pow2_bits_low.
    - destruct (Z.eq_dec b 0) as [->|Hne]; [now rewrite Z.bits_0, andb_false_r|].
      rewrite (Z.bits_above_log2 b i), andb_false_r; [done|lia|].
      apply Z.lt_le_trans with n; [|lia]. apply Z.log2_lt_pow2; lia. }
  now rewrite <- Z.lxor_lor, <- Z.add_nocarry_lxor.
Qed.

Lemma value_byte x : 0 <= x < 256 -> utf8.value (utf8.byte x) = x.
Proof.
  intros Hx. unfold utf8.value, utf8.byte, Bytes.code.
  change 0xFF with (Z.ones 8). rewrite Z.land_ones, Z.mod_small by lia.
  rewrite N_ascii_embedding; lia.
Qed.

Lemma first_size b :
  (0xC2 <= b <= 0xDF -> utf8.first b = Some (2%nat, 0x80, 0xBF))
  /\ (b = 0xE0 -> utf8.first b = Some (3%nat, 0xA0, 0xBF))
  /\ (0xE1 <= b <= 0xEC \/ 0xEE <= b <= 0xEF -> utf8.first b = Some (3%nat, 0x80, 0xBF))
  /\ (b = 0xED -> utf8.first b = Some (3%nat, 0x80, 0x9F))
  /\ (b = 0xF0 -> utf8.first b = Some (4%nat, 0x90, 0xBF))
  /\ (0xF1 <= b <= 0xF3 -> utf8.first b = Some (4%nat, 0x80, 0xBF))
  /\ (b = 0xF4 -> utf8.first b = Some (4%nat, 0x80, 0x8F)).
Proof.
  unfold utf8.first.
  repeat apply conj; intros Hb;
    repeat match goal with
           | |- context [?a <=? ?b] => destruct (Z.leb_spec a b); try lia
           | |- context [?a =? ?b] => destruct (Z.eqb_spec a b); try lia
           end; reflexivity.
Qed.

Lemma lor_mark y :
  (0 <= y < 64 -> Z.lor utf8.tx y = 0x80 + y)
  /\ (0 <= y < 64 -> Z.lor utf8.t2 y = 0xC0 + y)
  /\ (0 <= y < 32 -> Z.lor utf8.t3 y = 0xE0 + y)
  /\ (0 <= y < 16 -> Z.lor utf8.t4 y = 0xF0 + y).
Proof.
  repeat apply conj; intros Hy.
  - apply (lor_add 2 6); [done|]. change (2 ^ 6) with 64. lia.
  - apply (lor_add 3 6); [done|]. change (2 ^ 6) with 64. lia.
  - apply (lor_add 7 5); [done|]. change (2 ^ 5) with 32. lia.
  - apply (lor_add 15 4); [done|]. change (2 ^ 4) with 16. lia.
Qed.

Lemma shifts x :
  Z.shiftr x 6 = x / 64 /\ Z.shiftr x 12 = x / 4096 /\ Z.shiftr x 18 = x / 262144
  /\ Z.shiftl x 6 = x * 64 /\ Z.shiftl x 12 = x * 4096 /\ Z.shiftl x 18 = x * 262144.
Proof.
  repeat apply conj;
    first [now rewrite Z.shiftr_div_pow2 | now rewrite Z.shiftl_mul_pow2].
Qed.

Lemma masks x :
  Z.land x utf8.maskx = x mod 64 /\ Z.land x utf8.mask2 = x mod 32
  /\ Z.land x utf8.mask3 = x mod 16 /\ Z.land x utf8.mask4 = x mod 8.
Proof.
  repeat apply conj.
  - now apply (Z.land_ones x 6).
  - now apply (Z.land_ones x 5).
  - now apply (Z.land_ones x 4).
  - now apply (Z.land_ones x 3).
Qed.

Lemma lor_low a b :
  (0 <= b < 64 -> Z.lor (a * 64) b = a * 64 + b).
Proof. intros Hb. apply (lor_add a 6); [done|]. change (2 ^ 6) with 64. lia. Qed.

(** The quotient and the remainder of a division by a number are known by
    the equation of the division and the bounds of the remainder. *)
Ltac divided a b :=
  lazymatch goal with
  | _ : a = b * (a / b) + a mod b |- _ => fail
  | _ => pose proof (Z.div_mod a b ltac:(lia));
         pose proof (Z.mod_pos_bound a b ltac:(lia))
  end.

Ltac euclid :=
  repeat match goal with
         | |- context [?a mod ?b] => divided a b
         | |- context [?a / ?b] => divided a b
         | H : context [?a mod ?b] |- _ => divided a b
         | H : context [?a / ?b] |- _ => divided a b
         end;
  lia.

Lemma runes_2 c0 c1 s lo hi :
  utf8.first (utf8.value c0) = Some (2%nat, lo, hi) ->
  lo <= utf8.value c1 <= hi ->
  utf8.runes (String c0 (String c1 s)) =
  Z.lor (Z.shiftl (Z.land (utf8.value c0) utf8.mask2) 6)
    (Z.land (utf8.value c1) utf8.maskx) :: utf8.runes s.
Proof.
  intros Hfirst H1. cbn [utf8.runes]. cbv zeta. rewrite Hfirst.
  rewrite (proj2 (Z.ltb_ge (utf8.value c1) lo)), (proj2 (Z.ltb_ge hi (utf8.value c1)))
    by lia.
  reflexivity.
Qed.

Lemma continues_between b : 0x80 <= b <= 0xBF -> utf8.continues b = true.
Proof. intros Hb. unfold utf8.continues. apply andb_true_iff. split; apply Z.leb_le; lia. Qed.

Lemma runes_3 c0 c1 c2 s lo hi :
  utf8.first (utf8.value c0) = Some (3%nat, lo, hi) ->
  lo <= utf8.value c1 <= hi -> 0x80 <= utf8.value c2 <= 0xBF ->
  utf8.runes (String c0 (String c1 (String c2 s))) =
  Z.lor (Z.lor (Z.shiftl (Z.land (utf8.value c0) utf8.mask3) 12)
           (Z.shiftl (Z.land (utf8.value c1) utf8.maskx) 6))
    (Z.land (utf8.value c2) utf8.maskx) :: utf8.runes s.
Proof.
  intros Hfirst H1 H2. cbn [utf8.runes]. cbv zeta. rewrite Hfirst.
  rewrite (proj2 (Z.ltb_ge (utf8.value c1) lo)), (proj2 (Z.ltb_ge hi (utf8.value c1)))
    by lia.
  rewrite (continues_between (utf8.value c2)) by done.
  reflexivity.
Qed.

Lemma runes_4 c0 c1 c2 c3 s lo hi :
  utf8.first (utf8.value c0) = Some (4%nat, lo, hi) ->
  lo <= utf8.value c1 <= hi -> 0x80 <= utf8.value c2 <= 0xBF ->
  0x80 <= utf8.value c3 <= 0xBF ->
  utf8.runes (String c0 (String c1 (String c2 (String c3 s)))) =
  Z.lor (Z.lor (Z.lor (Z.shiftl (Z.land (utf8.value c0) utf8.mask4) 18)
                  (Z.shiftl (Z.land (utf8.value c1) utf8.maskx) 12))
           (Z.shiftl (Z.land (utf8.value c2) utf8.maskx) 6))
    (Z.land (utf8.value c3) utf8.maskx) :: utf8.runes s.
Proof.
  intros Hfirst H1 H2 H3. cbn [utf8.runes]. cbv zeta. rewrite Hfirst.
  rewrite (proj2 (Z.ltb_ge (utf8.value c1) lo)), (proj2 (Z.ltb_ge hi (utf8.value c1)))
    by lia.
  rewrite (continues_between (utf8.value c2)), (continues_between (utf8.value c3)) by done.
  reflexivity.
Qed.

(** The names of the numbers that the bit operations of the encoding and of
    the decoding compute. *)
Ltac numbers :=
  repeat match goal with
         | |- context [Z.shiftr ?x 6] => rewrite (proj1 (shifts x))
         | |- context [Z.shiftr ?x 12] => rewrite (proj1 (proj2 (shifts x)))
         | |- context [Z.shiftr ?x 18] => rewrite (proj1 (proj2 (proj2 (shifts x))))
         | |- context [Z.shiftl ?x 6] => rewrite (proj1 (proj2 (proj2 (proj2 (shifts x)))))
         | |- context [Z.shiftl ?x 12] =>
             rewrite (proj1 (proj2 (proj2 (proj2 (proj2 (shifts x))))))
         | |- context [Z.shiftl ?x 18] =>
             rewrite (proj2 (proj2 (proj2 (proj2 (proj2 (shifts x))))))
         | |- context [Z.land ?x utf8.maskx] => rewrite (proj1 (masks x))
         | |- context [Z.land ?x utf8.mask2] => rewrite (proj1 (proj2 (masks x)))
         | |- context [Z.land ?x utf8.mask3] => rewrite (proj1 (proj2 (proj2 (masks x))))
         | |- context [Z.land ?x utf8.mask4] => rewrite (proj2 (proj2 (proj2 (masks x))))
         end.

Ltac marks :=
  repeat match goal with
         | |- context [Z.lor utf8.tx ?y] => rewrite (proj1 (lor_mark y)) by euclid
         | |- context [Z.lor utf8.t2 ?y] => rewrite (proj1 (proj2 (lor_mark y))) by euclid
         | |- context [Z.lor utf8.t3 ?y] =>
             rewrite (proj1 (proj2 (proj2 (lor_mark y)))) by euclid
         | |- context [Z.lor utf8.t4 ?y] =>
             rewrite (proj2 (proj2 (proj2 (lor_mark y)))) by euclid
         end.

Lemma runes_encode2 r s :
  0x80 <= r <= 0x7FF ->
  utf8.runes (String (utf8.byte (Z.lor utf8.t2 (Z.shiftr r 6)))
                (String (utf8.byte (Z.lor utf8.tx (Z.land r utf8.maskx))) s)) =
  r :: utf8.runes s.
Proof.
  intros Hr. numbers. marks.
  erewrite runes_2; rewrite ?value_byte by euclid;
    [|apply (proj1 (first_size _)); euclid | euclid].
  f_equal. numbers. rewrite lor_low by euclid. euclid.
Qed.

Lemma lor_3 h m l :
  0 <= m < 64 -> 0 <= l < 64 ->
  Z.lor (Z.lor (h * 4096) (m * 64)) l = h * 4096 + m * 64 + l.
Proof.
  intros Hm Hl. pose proof (lor_add h 12 (m * 64)) as H.
  change (2 ^ 12) with 4096 in H. rewrite H by lia.
  replace (h * 4096 + m * 64) with ((h * 64 + m) * 64) by lia.
  now apply lor_low.
Qed.

Lemma lor_4 a h m l :
  0 <= h < 64 -> 0 <= m < 64 -> 0 <= l < 64 ->
  Z.lor (Z.lor (Z.lor (a * 262144) (h * 4096)) (m * 64)) l =
  a * 262144 + h * 4096 + m * 64 + l.
Proof.
  intros Hh Hm Hl.
  pose proof (lor_add a 18 (h * 4096)) as H.
  change (2 ^ 18) with 262144 in H. rewrite H by lia.
  replace (a * 262144 + h * 4096) with ((a * 64 + h) * 4096) by lia.
  rewrite lor_3 by done. lia.
Qed.

Lemma runes_encode3 r s :
  0x800 <= r <= 0xFFFF -> ~ utf8.surrogateMin <= r <= utf8.surrogateMax ->
  utf8.runes (utf8.encode3 r +:+ s) = r :: utf8.runes s.
Proof.
  unfold utf8.surrogateMin, utf8.surrogateMax, utf8.encode3. intros Hr Hs.
  rewrite !append_cons. change (EmptyString +:+ s) with s. numbers. marks.
  assert (exists lo hi,
             utf8.first (0xE0 + r / 4096) = Some (3%nat, lo, hi)
             /\ lo <= 0x80 + r / 64 mod 64 <= hi) as (lo & hi & Hfirst & Hsecond).
  { destruct (Z.eq_dec (r / 4096) 0) as [H0|H0]; [|destruct (Z.eq_dec (r / 4096) 13) as [Hd|Hd]].
    - exists 0xA0, 0xBF. split; [apply first_size; euclid | euclid].
    - exists 0x80, 0x9F. split; [apply first_size; euclid | euclid].
    - exists 0x80, 0xBF. split; [apply first_size; euclid | euclid]. }
  erewrite runes_3; rewrite ?value_byte by euclid; [|exact Hfirst | exact Hsecond | euclid].
  f_equal. numbers. rewrite lor_3 by euclid. euclid.
Qed.

Lemma runes_encode4 r s :
  0x10000 <= r <= utf8.MaxRune ->
  utf8.runes (String (utf8.byte (Z.lor utf8.t4 (Z.shiftr r 18)))
                (String (utf8.byte (Z.lor utf8.tx (Z.land (Z.shiftr r 12) utf8.maskx)))
                   (String (utf8.byte (Z.lor utf8.tx (Z.land (Z.shiftr r 6) utf8.maskx)))
                      (String (utf8.byte (Z.lor utf8.tx (Z.land r utf8.maskx))) s)))) =
  r :: utf8.runes s.
Proof.
  unfold utf8.MaxRune. intros Hr. numbers. marks.
  assert (exists lo hi,
             utf8.first (0xF0 + r / 262144) = Some (4%nat, lo, hi)
             /\ lo <= 0x80 + r / 4096 mod 64 <= hi) as (lo & hi & Hfirst & Hsecond).
  { destruct (Z.eq_dec (r / 262144) 0) as [H0|H0];
      [|destruct (Z.eq_dec (r / 262144) 4) as [Hd|Hd]].
    - exists 0x90, 0xBF. split; [apply first_size; euclid | euclid].
    - exists 0x80, 0x8F. split; [apply first_size; euclid | euclid].
    - exists 0x80, 0xBF. split; [apply first_size; euclid | euclid]. }
  erewrite runes_4; rewrite ?value_byte by euclid;
    [|exact Hfirst | exact Hsecond | euclid | euclid].
  f_equal. numbers. rewrite lor_4 by euclid. euclid.
Qed.

(** The bytes that [EncodeRune] writes for a rune that is neither a
    surrogate nor out of range are read back as that rune. *)
Lemma runes_EncodeRune r s :
  0 <= r <= utf8.MaxRune -> ~ utf8.surrogateMin <= r <= utf8.surrogateMax ->
  utf8.runes (utf8.EncodeRune r +:+ s) = r :: utf8.runes s.
Proof.
  intros Hr Hs. unfold utf8.EncodeRune.
  unfold utf8.rune1Max, utf8.rune2Max, utf8.rune3Max.
  destruct (Z.leb_spec 0 r); [|lia]. cbn [andb].
  destruct (Z.leb_spec r 0x7F).
  - rewrite append_cons. change (EmptyString +:+ s) with s.
    cbn [utf8.runes]. cbv zeta. rewrite value_byte by lia.
    rewrite first_ascii by (unfold utf8.RuneSelf; lia).
    now rewrite (proj2 (Z.ltb_lt r utf8.RuneSelf)) by (unfold utf8.RuneSelf; lia).
  - destruct (Z.leb_spec r 0x7FF).
    + rewrite !append_cons. change (EmptyString +:+ s) with s. apply runes_encode2. lia.
    + destruct (Z.ltb_spec r 0); [lia|].
      destruct (Z.ltb_spec utf8.MaxRune r); [lia|]. cbn [orb].
      rewrite (proj2 (andb_false_iff _ _)).
      2:{ unfold utf8.surrogateMin, utf8.surrogateMax in *.
          destruct (Z.leb_spec 0xD800 r); [right; apply Z.leb_gt; lia | now left]. }
      destruct (Z.leb_spec r 0xFFFF).
      * apply runes_encode3; [lia | done].
      * rewrite !append_cons. change (EmptyString +:+ s) with s. apply runes_encode4. lia.
Qed.

Lemma unicode_ToLower_nonneg r : 0 <= r -> 0 <= unicode.ToLower r.
Proof.
  intros Hr. unfold unicode.ToLower, unicode.MaxASCII.
  destruct (Z.leb_spec r 0x7F).
  - destruct ((65 <=? r) && (r <=? 90)); lia.
  - assert (90 < unicode.to_lower r unicode.CaseRanges); [|lia].
    apply to_lower_above; [vm_compute; reflexivity | lia].
Qed.

(** The capital letters of Latin-1, Greek and Cyrillic. *)
Lemma unicode_ToLower_alphabets r :
  (0xC0 <= r <= 0xDE -> r <> 0xD7 -> unicode.ToLower r = r + 32)
  /\ (0x391 <= r <= 0x3AB -> r <> 0x3A2 -> unicode.ToLower r = r + 32)
  /\ (0x410 <= r <= 0x42F -> unicode.ToLower r = r + 32)
  /\ (0x400 <= r <= 0x40F -> unicode.ToLower r = r + 80).
Proof.
  assert (Hall : forall lo n d skip,
             forallb (fun x => (lo + x =? skip) || (unicode.ToLower (lo + x) =? lo + x + d))
               (seqZ 0 n) = true ->
             lo <= r < lo + n -> r <> skip -> unicode.ToLower r = r + d).
  { intros lo n d skip Hchecked Hr Hskip.
    pose proof (checked_below _ n (r - lo) Hchecked ltac:(lia)) as H. cbv beta in H.
    replace (lo + (r - lo)) with r in H by lia.
    apply orb_true_iff in H as [H%Z.eqb_eq|H%Z.eqb_eq]; [lia | exact H]. }
  repeat apply conj; intros.
  - apply (Hall 0xC0 31 32 0xD7); [vm_compute; reflexivity | lia | done].
  - apply (Hall 0x391 27 32 0x3A2); [vm_compute; reflexivity | lia | done].
  - apply (Hall 0x410 32 32 0); [vm_compute; reflexivity | lia | lia].
  - apply (Hall 0x400 16 80 0); [vm_compute; reflexivity | lia | lia].
Qed.

(** The lower case of a string that starts with the bytes of a rune starts
    with the bytes of the lower case of that rune. *)
Lemma ToLower_EncodeRune r s :
  0 <= r <= utf8.MaxRune -> ~ utf8.surrogateMin <= r <= utf8.surrogateMax ->
  ToLower (utf8.EncodeRune r +:+ s) = utf8.EncodeRune (unicode.ToLower r) +:+ ToLower s.
Proof.
  intros Hr Hs. rewrite !ToLower_Map. unfold strings_Map.
  rewrite runes_EncodeRune by done. cbn [fold_right]. cbv zeta.
  now rewrite (proj2 (Z.leb_le 0 (unicode.ToLower r))) by (apply unicode_ToLower_nonneg; lia).
Qed.

(** C10: for every query, the request [ShowsSearch] sends has, as its
    [title] parameter, the lowercase form of the query ([strings.ToLower]):
    the runes of the query, each in its lower case ([unicode.ToLower]),
    written out again.  It has no ASCII capital letter; for a query of ASCII
    bytes it is the query with each capital letter replaced by the small
    one; and for a query that starts with the bytes of a rune it is the
    bytes of the lower case of that rune, followed by the lowercase form of
    the rest. *)
Theorem ShowsSearch_title_lowercase bs query order summary :
  baseURL bs = bsBaseURL ->
  exists req,
    sends (ShowsSearch bs query order summary) req
    /\ query_of req !! "title" = Some [ToLower query]
    /\ ToLower query = strings_Map unicode.ToLower query
    /\ Bytes.exist Bytes.is_upper (ToLower query) = false
    /\ (Bytes.all Bytes.is_ascii query = true ->
        ToLower query = Bytes.map Bytes.lower query)
    /\ (forall r rest,
           query = utf8.EncodeRune r +:+ rest ->
           0 <= r <= utf8.MaxRune -> ~ utf8.surrogateMin <= r <= utf8.surrogateMax ->
           ToLower query = utf8.EncodeRune (unicode.ToLower r) +:+ ToLower rest).
Proof.
  intros Hb.
  edestruct (sends_query (ShowsSearch bs query order summary))
    as (req & Hs & Hq); [sends_by ShowsSearch_run | no_empty |].
  exists req. rewrite Hq. split; [done|]. split; [lookups|].
  split; [apply ToLower_Map|]. split; [apply ToLower_no_capital|].
  split; [apply ToLower_ascii|].
  intros r rest -> Hr Hsurrogate. now apply ToLower_EncodeRune.
Qed.

(** *** The claims about the responses *)

(** C2 (amended): when the envelope of a single-item call ([showUpdate],
    [episodeUpdate]) decodes with no reported error and its payload is
    absent, the call returns the absent (nil) record and no error. *)
Theorem single_item_absent_payload bs :
  baseURL bs = bsBaseURL ->
  (forall method endPoint id theTvdbID imdbID option_ q sent resp item,
      endPoint ∈ show_endpoints ->
      showUpdate_query endPoint id theTvdbID imdbID option_ ∅ = inr q ->
      Do sent (request bs method (api_url ("/shows/" +:+ endPoint) q)) = inr resp ->
      decode showItem.unmarshal showItem.zero resp ("/shows/" +:+ endPoint)
        (Values_Encode q) = inr item ->
      showItem.Show item = None ->
      fst (showUpdate bs method endPoint id theTvdbID imdbID option_ sent) =
      Returns (inr None))
  /\ (forall method id sent resp item,
         Do sent (request bs method
                    (api_url "/episodes/downloaded" (Values_Set "id" (Itoa id) ∅))) =
         inr resp ->
         decode episodeItem.unmarshal episodeItem.zero resp "/episodes/downloaded"
           (Values_Encode (Values_Set "id" (Itoa id) ∅)) = inr item ->
         episodeItem.Episode item = None ->
         fst (episodeUpdate bs method id sent) = Returns (inr None)).
Proof.
  intros Hb. split.
  - intros * Hin Hq HDo Hdec Hnil. rewrite showUpdate_run, Hq by done.
    cbn [fst]. rewrite HDo. cbn. rewrite Hdec. cbn. now rewrite Hnil.
  - intros * HDo Hdec Hnil. rewrite episodeUpdate_run by done.
    cbn [fst]. rewrite HDo. cbn. rewrite Hdec. cbn. now rewrite Hnil.
Qed.

(** C6 (amended): when the envelope of a collection call decodes with no
    reported error and its collection is empty, the call fails with "no
    shows found" for the show listings and for the similars alike, "no
    characters found" for the characters, "no videos found" for the videos
    and "no episodes found" for the episodes; these four errors are
    pairwise distinct. *)
Theorem empty_collection_errors bs sent resp :
  baseURL bs = bsBaseURL ->
  (forall u usedAPI data,
      Do sent (request bs "GET" u) = inr resp ->
      decode shows.unmarshal shows.zero resp usedAPI (RawQuery u) = inr data ->
      shows.Shows data = [] ->
      fst (doGetShows bs u usedAPI sent) = Returns (inl errNoShowsFound))
  /\ (forall u data,
         Do sent (request bs "GET" u) = inr resp ->
         decode similars.unmarshal similars.zero resp EmptyString (RawQuery u) = inr data ->
         similars.Similars data = [] ->
         fst (doGetSimilars bs u sent) = Returns (inl errNoShowsFound))
  /\ (forall id theTvdbID q data,
         ShowsCharacters_query id theTvdbID ∅ = inr q ->
         Do sent (request bs "GET" (api_url "/shows/characters" q)) = inr resp ->
         decode characters.unmarshal characters.zero resp "/shows/characters"
           (Values_Encode q) = inr data ->
         characters.Characters data = [] ->
         fst (ShowsCharacters bs id theTvdbID sent) = Returns (inl errNoCharactersFound))
  /\ (forall id tvdbID q data,
         ShowsVideos_query id tvdbID ∅ = inr q ->
         Do sent (request bs "GET" (api_url "/shows/videos" q)) = inr resp ->
         decode videos.unmarshal videos.zero resp "/shows/videos"
           (Values_Encode q) = inr data ->
         videos.Videos data = [] ->
         fst (ShowsVideos bs id tvdbID sent) = Returns (inl errNoVideosFound))
  /\ (forall u usedAPI data,
         Do sent (request bs "GET" u) = inr resp ->
         decode episodes.unmarshal episodes.zero resp usedAPI (RawQuery u) = inr data ->
         episodes.Episodes data = [] ->
         fst (doGetEpisodes bs u usedAPI sent) = Returns (inl errNoEpisodesFound))
  /\ (errNoShowsFound <> errNoCharactersFound
      /\ errNoShowsFound <> errNoVideosFound
      /\ errNoShowsFound <> errNoEpisodesFound
      /\ errNoCharactersFound <> errNoVideosFound
      /\ errNoCharactersFound <> errNoEpisodesFound
      /\ errNoVideosFound <> errNoEpisodesFound).
Proof.
  intros Hb. repeat apply conj; try discriminate.
  - intros * HDo Hdec Hnil. rewrite doGetShows_run. cbn [fst].
    rewrite HDo. cbn. rewrite Hdec. cbn. now rewrite Hnil.
  - intros * HDo Hdec Hnil. rewrite doGetSimilars_run. cbn [fst].
    rewrite HDo. cbn. rewrite Hdec. cbn. now rewrite Hnil.
  - intros * Hq HDo Hdec Hnil. rewrite ShowsCharacters_run, Hq by done. cbn [fst].
    rewrite HDo. cbn. rewrite Hdec. cbn. now rewrite Hnil.
  - intros * Hq HDo Hdec Hnil. rewrite ShowsVideos_run, Hq by done. cbn [fst].
    rewrite HDo. cbn. rewrite Hdec. cbn. now rewrite Hnil.
  - intros * HDo Hdec Hnil. rewrite doGetEpisodes_run. cbn [fst].
    rewrite HDo. cbn. rewrite Hdec. cbn. now rewrite Hnil.
Qed.

(** C8 (amended): [ShowsSearch "lost" "title" false] sends one GET request
    to [/shows/search] whose query parameters are [title=lost], [nbpp=100]
    and [order=title]; the query string, which [Encode] sorts by key, is
    [nbpp=100&order=title&title=lost]; answered with the body
    [{"shows":[{"id":1,"title":"Lost"}],"errors":[]}], the call returns
    exactly one show, whose ID is 1. *)
Theorem ShowsSearch_lost bs sent resp :
  baseURL bs = bsBaseURL ->
  Do sent (request bs "GET"
             (mkURL "https://api.betaseries.com/shows/search" false
                "nbpp=100&order=title&title=lost" EmptyString)) = inr resp ->
  Body resp = Json.text "{'shows':[{'id':1,'title':'Lost'}],'errors':[]}" ->
  exists req show,
    ShowsSearch bs "lost" "title" false sent = (Returns (inr [show]), sent ++ [req])
    /\ Show.ID show = 1
    /\ Method req = "GET"
    /\ URL_String (Target req) =
       "https://api.betaseries.com/shows/search?nbpp=100&order=title&title=lost"
    /\ query_of req =
       <["title" := ["lost"]]> (<["nbpp" := ["100"]]> (<["order" := ["title"]]> ∅)).
Proof.
  intros Hb HDo Hbody.
  assert (Hu : api_url "/shows/search" (ShowsSearch_query "lost" "title" false ∅) =
               mkURL "https://api.betaseries.com/shows/search" false
                 "nbpp=100&order=title&title=lost" EmptyString) by (vm_compute; reflexivity).
  exists (request bs "GET"
            (mkURL "https://api.betaseries.com/shows/search" false
               "nbpp=100&order=title&title=lost" EmptyString)).
  eexists. split.
  - rewrite ShowsSearch_run, doGetShows_run, Hu, HDo by done.
    unfold decode, Decode. cbn [received mbind sum_bind]. rewrite Hbody.
    match goal with
    | |- (Returns ?x, _) = _ =>
        let y := eval vm_compute in x in
        replace x with y by (vm_compute; reflexivity)
    end.
    reflexivity.
  - unfold query_of, request. rewrite Method_with_headers, Target_with_headers.
    repeat apply conj; vm_compute; reflexivity.
Qed.

(** *** The session: headers, token, errors of the credential exchange *)

(** X1: [do] hands one request to the HTTP client: the request it was given,
    with the headers Accept, X-BetaSeries-Version and X-BetaSeries-Key set,
    and X-BetaSeries-Token set to the token when the client has one; the
    other headers, the method and the URL are as given. *)
Theorem do_sets_headers bs req sent :
  exists req',
    do bs req sent = (Returns (Do sent req'), sent ++ [req'])
    /\ Method req' = Method req
    /\ Target req' = Target req
    /\ Header_Get "Accept" (Headers req') = "application/json"
    /\ Header_Get "X-BetaSeries-Version" (Headers req') = version bs
    /\ Header_Get "X-BetaSeries-Key" (Headers req') = key bs
    /\ Headers req' !! CanonicalMIMEHeaderKey "X-BetaSeries-Token" =
       match tok bs with
       | Some t => Some [token.Token t]
       | None => Headers req !! CanonicalMIMEHeaderKey "X-BetaSeries-Token"
       end
    /\ (forall k,
           k ∉ (CanonicalMIMEHeaderKey <$>
                  ["Accept"; "X-BetaSeries-Version"; "X-BetaSeries-Key";
                   "X-BetaSeries-Token"]) ->
           Headers req' !! k = Headers req !! k).
Proof.
  exists (with_headers bs req). split; [reflexivity|].
  rewrite Method_with_headers, Target_with_headers.
  split; [reflexivity|]. split; [reflexivity|].
  unfold with_headers, Header_Get, Header_Set.
  change (CanonicalMIMEHeaderKey "Accept") with "Accept".
  change (CanonicalMIMEHeaderKey "X-BetaSeries-Version") with "X-Betaseries-Version".
  change (CanonicalMIMEHeaderKey "X-BetaSeries-Key") with "X-Betaseries-Key".
  change (CanonicalMIMEHeaderKey "X-BetaSeries-Token") with "X-Betaseries-Token".
  destruct (tok bs) as [t|]; cbn [Headers];
    repeat apply conj; try (now simplify_map_eq);
    intros k Hk; cbn in Hk; rewrite !not_elem_of_cons in Hk;
    destruct Hk as (? & ? & ? & ? & _); now simplify_map_eq.
Qed.

(** The credential exchange, once the login and the password are not
    empty: one request, then what [retrieveToken] makes of the answer. *)
Lemma NewBetaseriesClient_run key login password sent :
  login <> EmptyString -> password <> EmptyString ->
  NewBetaseriesClient key login password sent =
  let bs := mkBetaSeries bsBaseURL bsVersion key None in
  match Do sent (auth_request key login password) with
  | inl err =>
      (Returns (bs, Some (Errorf ("Error getting token :%v" +:+ newline) [err])),
       sent ++ [auth_request key login password])
  | inr resp =>
      (if negb (StatusCode resp =? StatusOK) then
         e ← decodeErr (Body resp);
         text ← errAPI_Error e;
         mret (bs, Some (Errorf text []))
       else
         match Decode token.unmarshal token.zero (Body resp) with
         | inl err =>
             mret (bs, Some (Errorf ("Error decoding token response :%v" +:+ newline)
                               [err]))
         | inr tokenData => mret (with_token bs tokenData, None)
         end) (sent ++ [auth_request key login password])
  end.
Proof.
  intros Hl Hp. unfold NewBetaseriesClient, retrieveToken.
  rewrite !length_eqb_0 by done. cbn [orb baseURL].
  change (url_Parse (bsBaseURL +:+ "/members/auth"))
    with (Some (mkURL (bsBaseURL +:+ "/members/auth") false EmptyString EmptyString)).
  cbv beta iota zeta.
  change (with_RawQuery (mkURL (bsBaseURL +:+ "/members/auth") false EmptyString EmptyString) ?e)
    with (mkURL (bsBaseURL +:+ "/members/auth") false e EmptyString).
  change (Query (mkURL (bsBaseURL +:+ "/members/auth") false EmptyString EmptyString))
    with (∅ : Values).
  fold (api_url "/members/auth"
          (Values_Set "password" (md5_hex password) (Values_Set "login" login ∅))).
  rewrite NewRequest_auth. unfold mbind at 1. unfold IO_bind at 1. unfold do.
  fold (request (mkBetaSeries bsBaseURL bsVersion key None) "POST"
          (api_url "/members/auth"
             (Values_Set "password" (md5_hex password) (Values_Set "login" login ∅)))).
  fold (auth_request key login password).
  now destruct (Do sent (auth_request key login password)).
Qed.

(** X2: An answer with the status 200 and a body that decodes as a token logs
    the client in, whatever the [errors] of the body hold: no error is
    returned, the client keeps the token, [getToken] returns it and every
    later request carries it. *)
Theorem NewBetaseriesClient_stores_token key login password sent resp tokenData :
  login <> EmptyString -> password <> EmptyString ->
  Do sent (auth_request key login password) = inr resp ->
  StatusCode resp = StatusOK ->
  Decode token.unmarshal token.zero (Body resp) = inr tokenData ->
  exists bs,
    NewBetaseriesClient key login password sent =
    (Returns (bs, None), sent ++ [auth_request key login password])
    /\ tok bs = Some tokenData
    /\ getToken bs = inr (token.Token tokenData)
    /\ forall req sent',
        exists req',
          snd (do bs req sent') = sent' ++ [req']
          /\ Header_Get "X-BetaSeries-Token" (Headers req') = token.Token tokenData.
Proof.
  intros Hl Hp HDo Hstatus Hdec.
  exists (with_token (mkBetaSeries bsBaseURL bsVersion key None) tokenData).
  rewrite NewBetaseriesClient_run by done. cbv zeta. rewrite HDo.
  apply Z.eqb_eq in Hstatus. rewrite Hstatus, Hdec. cbn [negb].
  repeat apply conj; try reflexivity.
  intros req sent'. eexists. split; [reflexivity|].
  unfold with_headers, Header_Get, Header_Set. cbn [tok with_token Headers].
  change (CanonicalMIMEHeaderKey "X-BetaSeries-Token") with "X-Betaseries-Token".
  now rewrite lookup_insert_eq.
Qed.

(** X3: When the HTTP client fails, the constructor returns the client without
    token and an error that carries the text of the failure. *)
Theorem NewBetaseriesClient_transport_error key login password sent text :
  login <> EmptyString -> password <> EmptyString ->
  Do sent (auth_request key login password) = inl text ->
  NewBetaseriesClient key login password sent =
  (Returns (mkBetaSeries bsBaseURL bsVersion key None,
            Some (Errorf ("Error getting token :%v" +:+ newline) [text])),
   sent ++ [auth_request key login password]).
Proof.
  intros Hl Hp HDo. rewrite NewBetaseriesClient_run by done. cbv zeta. now rewrite HDo.
Qed.

(** X4: An answer with another status than 200 whose body is the JSON of an
    error envelope is returned as an error made of the reported texts, one
    per line; the client has no token. *)
Theorem NewBetaseriesClient_service_error key login password sent resp v reported :
  login <> EmptyString -> password <> EmptyString ->
  Do sent (auth_request key login password) = inr resp ->
  StatusCode resp <> StatusOK ->
  Json.parse (Body resp) = inr v -> v <> JNull ->
  Unmarshal.struct errAPI.unmarshal errAPI.zero v = inr reported ->
  NewBetaseriesClient key login password sent =
  (Returns (mkBetaSeries bsBaseURL bsVersion key None,
            Some (Errorf (errAPI.Error reported) [])),
   sent ++ [auth_request key login password]).
Proof.
  intros Hl Hp HDo Hstatus Hparse Hnull Hdec.
  rewrite NewBetaseriesClient_run by done. cbv zeta. rewrite HDo.
  apply Z.eqb_neq in Hstatus. rewrite Hstatus. cbn [negb].
  unfold decodeErr. rewrite Hparse. cbn [mbind sum_bind].
  unfold Unmarshal.ptr. cbn [default].
  destruct v; try done; unfold id; rewrite Hdec; reflexivity.
Qed.

(** X5: An answer with another status than 200 whose body is the JSON [null]
    leaves [decodeErr] with a nil pointer, and the call of its method
    [Error] panics. *)
Theorem NewBetaseriesClient_null_error_body_panics key login password sent resp :
  login <> EmptyString -> password <> EmptyString ->
  Do sent (auth_request key login password) = inr resp ->
  StatusCode resp <> StatusOK ->
  Json.parse (Body resp) = inr JNull ->
  NewBetaseriesClient key login password sent =
  (Panics "invalid memory address or nil pointer dereference",
   sent ++ [auth_request key login password]).
Proof.
  intros Hl Hp HDo Hstatus Hparse.
  rewrite NewBetaseriesClient_run by done. cbv zeta. rewrite HDo.
  apply Z.eqb_neq in Hstatus. rewrite Hstatus. cbn [negb].
  unfold decodeErr. now rewrite Hparse.
Qed.

Lemma NewBetaseriesClient_sends apikey login password :
  login <> EmptyString -> password <> EmptyString ->
  sends (NewBetaseriesClient apikey login password) (auth_request apikey login password).
Proof.
  intros Hl Hp sent. rewrite NewBetaseriesClient_run by done. cbv zeta.
  destruct (Do sent _) as [err|resp]; [reflexivity|].
  destruct (negb (StatusCode resp =? StatusOK)).
  - unfold decodeErr.
    destruct (Json.parse (Body resp) ≫= _) as [?|[e|]]; reflexivity.
  - now destruct (Decode token.unmarshal token.zero (Body resp)).
Qed.

(** X6: The credential exchange is one POST to [/members/auth] whose query
    holds the login and the digest of the password, whatever bytes they are
    made of, and nothing else; it carries no token. *)
Theorem credential_request apikey login password :
  login <> EmptyString -> password <> EmptyString ->
  exists req,
    sends (NewBetaseriesClient apikey login password) req
    /\ Method req = "POST"
    /\ URL_String (Target req) =
       "https://api.betaseries.com/members/auth?login=" +:+ QueryEscape login
       +:+ "&password=" +:+ QueryEscape (md5_hex password)
    /\ query_of req !! "login" = Some [login]
    /\ query_of req !! "password" = Some [md5_hex password]
    /\ (forall k, k <> "login" -> k <> "password" -> query_of req !! k = None)
    /\ Headers req !! CanonicalMIMEHeaderKey "X-BetaSeries-Token" = None.
Proof.
  intros Hl Hp. exists (auth_request apikey login password).
  split; [now apply NewBetaseriesClient_sends|].
  unfold auth_request. rewrite query_of_request by no_empty.
  unfold request. rewrite Method_with_headers, Target_with_headers.
  repeat apply conj; try reflexivity.
  - unfold URL_String, api_url. cbn [Location ForceQuery RawQuery Fragment].
    erewrite (proj2 (String.eqb_neq _ _)).
    2:{ apply Values_Encode_nonempty with (k := "login") (xs := [login]); [no_empty|].
        unfold Values_Set. now simplify_map_eq. }
    cbn [negb orb String.eqb]. rewrite append_empty.
    vm_compute. reflexivity.
  - intros k H1 H2. unfold Values_Set. now simplify_map_eq.
Qed.

(** X7: Whatever the network answers, a client that [NewBetaseriesClient]
    returns is a client of the API with the given key; it has no token when
    an error comes with it; and at most the one request of the credential
    exchange was sent. *)
Theorem NewBetaseriesClient_returns apikey login password sent bs err sent' :
  NewBetaseriesClient apikey login password sent = (Returns (bs, err), sent') ->
  baseURL bs = bsBaseURL
  /\ version bs = bsVersion
  /\ key bs = apikey
  /\ (err <> None -> tok bs = None)
  /\ (sent' = sent \/ sent' = sent ++ [auth_request apikey login password]).
Proof.
  assert (Hskip : forall login password,
             login = EmptyString \/ password = EmptyString ->
             NewBetaseriesClient apikey login password sent =
             (Returns (mkBetaSeries bsBaseURL bsVersion apikey None, None), sent)).
  { intros l p H. unfold NewBetaseriesClient, retrieveToken.
    destruct H as [-> | ->]; cbn [String.length Nat.eqb orb]; [reflexivity|].
    now rewrite orb_true_r. }
  destruct (String.eqb_spec login EmptyString) as [->|Hl];
    [|destruct (String.eqb_spec password EmptyString) as [->|Hp]].
  - rewrite Hskip by now left.
    intros [= <- <- <-]. repeat split; auto.
  - rewrite Hskip by now right.
    intros [= <- <- <-]. repeat split; auto.
  - rewrite NewBetaseriesClient_run by done. cbv zeta.
    destruct (Do sent _) as [text|resp].
    + intros [= <- <- <-]. repeat split; auto.
    + destruct (negb (StatusCode resp =? StatusOK)).
      * unfold decodeErr.
        destruct (Json.parse (Body resp) ≫= _) as [?|[e|]]; [done| |done].
        intros [= <- <- <-]. repeat split; auto.
      * destruct (Decode token.unmarshal token.zero (Body resp)).
        -- intros [= <- <- <-]. repeat split; auto.
        -- intros [= <- <- <-]. repeat split; auto. done.
Qed.

(** X8: The text of an API error is the reported texts, each followed by a
    newline, in their order: the text of two lists of errors put together is
    the text of the first followed by the text of the second. *)
Theorem errAPI_Error_app l1 l2 :
  errAPI.Error (errAPI.mk (l1 ++ l2)) =
  errAPI.Error (errAPI.mk l1) +:+ errAPI.Error (errAPI.mk l2)
  /\ errAPI.Error (errAPI.mk []) = EmptyString
  /\ forall i, errAPI.Error (errAPI.mk [i]) = errAPI.item.Text i +:+ newline.
Proof.
  repeat apply conj; [|reflexivity|reflexivity].
  unfold errAPI.Error. cbn [errAPI.Errors]. rewrite fold_left_app.
  generalize (fold_left (fun out i => out +:+ errAPI.item.Text i +:+ newline) l1 EmptyString).
  intros acc.
  assert (H : forall l a b,
             fold_left (fun out i => out +:+ errAPI.item.Text i +:+ newline) l (a +:+ b) =
             a +:+ fold_left (fun out i => out +:+ errAPI.item.Text i +:+ newline) l b).
  { induction l as [|i l IH]; intros a b; [reflexivity|]. cbn [fold_left].
    rewrite <- IH. f_equal. clear. induction a; [reflexivity|].
    rewrite !append_cons. now f_equal. }
  rewrite <- (append_empty acc) at 1. apply H.
Qed.

(** *** The requests of the show endpoints *)

Lemma QueryEscape_digits d :
  QueryEscape (NilEmpty.string_of_uint d) = NilEmpty.string_of_uint d.
Proof.
  induction d; cbn [NilEmpty.string_of_uint QueryEscape]; [reflexivity|..];
    rewrite IHd; reflexivity.
Qed.

(** A decimal number is written in a query as it is. *)
Lemma QueryEscape_Itoa n : QueryEscape (Itoa n) = Itoa n.
Proof.
  unfold Itoa. destruct (Z.to_int n) as [d|d]; cbn [NilZero.string_of_int].
  - unfold NilZero.string_of_uint. destruct d; [reflexivity|..]; apply QueryEscape_digits.
  - change (QueryEscape (String "-" (NilZero.string_of_uint d)))
      with (String "-" (QueryEscape (NilZero.string_of_uint d))).
    f_equal. unfold NilZero.string_of_uint.
    destruct d; [reflexivity|..]; apply QueryEscape_digits.
Qed.

Lemma sends_request {A} (call : IO (error + A)) bs method usedAPI q :
  (forall sent, snd (call sent) = sent ++ [request bs method (api_url usedAPI q)]) ->
  no_empty_key q ->
  exists req,
    sends call req
    /\ Method req = method
    /\ Location (Target req) = bsBaseURL +:+ usedAPI
    /\ RawQuery (Target req) = Values_Encode q
    /\ URL_String (Target req) =
       (bsBaseURL +:+ usedAPI)
       +:+ (if String.eqb (Values_Encode q) EmptyString then EmptyString
            else "?" +:+ Values_Encode q)
    /\ query_of req = q.
Proof.
  intros Hcall Hq. exists (request bs method (api_url usedAPI q)).
  split; [exact Hcall|]. unfold request at 1 2 3 4.
  rewrite Method_with_headers, Target_with_headers.
  repeat apply conj; try reflexivity; [|now apply query_of_request].
  unfold URL_String, api_url.
  cbn [Target Location ForceQuery RawQuery Fragment String.eqb orb].
  rewrite append_empty. now destruct (String.eqb (Values_Encode q) EmptyString).
Qed.

Lemma ShowsFavorites_run bs userID sent :
  baseURL bs = bsBaseURL ->
  ShowsFavorites bs userID sent =
  doGetShows bs (api_url "/shows/favorites" (ShowsFavorites_query userID ∅))
    "/shows/favorites" sent.
Proof. intros Hb. unfold ShowsFavorites. rewrite Hb. now parse_api "/shows/favorites". Qed.

Ltac not_in H :=
  rewrite !not_elem_of_cons in H;
  repeat match type of H with
         | _ /\ _ => let H1 := fresh in destruct H as [H1 H]
         end.

Lemma recognized (order a b c : string) :
  order ∈ [a; b; c] ->
  String.eqb order a || String.eqb order b || String.eqb order c = true.
Proof.
  intros H. repeat (apply elem_of_cons in H as [->|H]);
    rewrite ?String.eqb_refl, ?orb_true_r; try reflexivity.
  now apply elem_of_nil in H.
Qed.

Lemma unrecognized (order a b c : string) :
  order ∉ [a; b; c] ->
  String.eqb order a || String.eqb order b || String.eqb order c = false.
Proof.
  intros H. rewrite !not_elem_of_cons in H. destruct H as (Ha & Hb & Hc & _).
  apply String.eqb_neq in Ha, Hb, Hc. now rewrite Ha, Hb, Hc.
Qed.

Lemma lookup_Set_eq k v (q : Values) : Values_Set k v q !! k = Some [v].
Proof. apply lookup_insert_eq. Qed.

Lemma lookup_Set_ne k v (q : Values) key : k <> key -> Values_Set k v q !! key = q !! key.
Proof. intros H. now apply lookup_insert_ne. Qed.

Lemma lookup_if_Set_eq (b : bool) k v (q : Values) :
  (if b then Values_Set k v q else q) !! k = if b then Some [v] else q !! k.
Proof. destruct b; [apply lookup_Set_eq | reflexivity]. Qed.

Lemma lookup_if_Set_ne (b : bool) k v (q : Values) key :
  k <> key -> (if b then Values_Set k v q else q) !! key = q !! key.
Proof. intros H. destruct b; [now apply lookup_Set_ne | reflexivity]. Qed.

(** The lookup of a key in values built by a chain of [Set]s, one layer
    after the other. *)
Ltac peel :=
  repeat first
    [ rewrite lookup_if_Set_ne by (intros [=])
    | rewrite lookup_Set_ne by (intros [=])
    | rewrite lookup_if_Set_eq
    | rewrite lookup_Set_eq
    | rewrite lookup_empty ].

(** X9: [ShowsSearch] sends one GET to [/shows/search] with a page size of
    100, the sort order asked for when it is title, popularity or followers
    and popularity otherwise, [summary=true] when a summary is asked for,
    the title, and no other parameter, whatever bytes the query is made
    of. *)
Theorem ShowsSearch_parameters bs query order summary :
  baseURL bs = bsBaseURL ->
  exists req,
    sends (ShowsSearch bs query order summary) req
    /\ Method req = "GET"
    /\ Location (Target req) = "https://api.betaseries.com/shows/search"
    /\ query_of req !! "nbpp" = Some ["100"]
    /\ (order ∈ ["title"; "popularity"; "followers"] ->
        query_of req !! "order" = Some [order])
    /\ (order ∉ ["title"; "popularity"; "followers"] ->
        query_of req !! "order" = Some ["popularity"])
    /\ added_when (summary = true) (query_of req) "summary" "true"
    /\ (forall k, k ∉ ["title"; "nbpp"; "order"; "summary"] ->
                  query_of req !! k = None).
Proof.
  intros Hb.
  edestruct (sends_request (ShowsSearch bs query order summary))
    as (req & Hs & Hm & Hl & _ & _ & Hq); [sends_by ShowsSearch_run | no_empty |].
  exists req. rewrite Hq. unfold ShowsSearch_query, added_when.
  repeat apply conj; try done.
  - lookups.
  - intros H%recognized. rewrite H. lookups.
  - intros H%unrecognized. rewrite H. lookups.
  - intros ->. lookups.
  - intros H. destruct summary; [done|]. lookups.
  - intros k Hk. not_in Hk. lookups.
Qed.

(** X10: The text of the URL of [ShowsSearch]: the parameters follow one another
    in the order of their names, and the title is the lowercase query,
    escaped. *)
Theorem ShowsSearch_url bs query order summary :
  baseURL bs = bsBaseURL ->
  exists req,
    sends (ShowsSearch bs query order summary) req
    /\ (order ∈ ["title"; "popularity"; "followers"] ->
        URL_String (Target req) =
        "https://api.betaseries.com/shows/search?nbpp=100&order=" +:+ order
        +:+ (if summary then "&summary=true" else EmptyString)
        +:+ "&title=" +:+ QueryEscape (ToLower query))
    /\ (order ∉ ["title"; "popularity"; "followers"] ->
        URL_String (Target req) =
        "https://api.betaseries.com/shows/search?nbpp=100&order=popularity"
        +:+ (if summary then "&summary=true" else EmptyString)
        +:+ "&title=" +:+ QueryEscape (ToLower query)).
Proof.
  intros Hb.
  edestruct (sends_request (ShowsSearch bs query order summary))
    as (req & Hs & _ & _ & _ & Hu & _); [sends_by ShowsSearch_run | no_empty |].
  exists req. rewrite Hu. unfold ShowsSearch_query.
  generalize (ToLower query) as x. intros x. repeat apply conj; try done.
  - intros H. repeat (apply elem_of_cons in H as [->|H]); [..|now apply elem_of_nil in H];
      destruct summary; vm_compute; reflexivity.
  - intros H%unrecognized. rewrite H. destruct summary; vm_compute; reflexivity.
Qed.

(** X11: [ShowsList] sends one GET to [/shows/list] with the sort order asked
    for when it is alphabetical, popularity or followers and popularity
    otherwise, [since] and [starting] when they are not empty, and no
    parameter besides these and [start] and [limit]. *)
Theorem ShowsList_parameters bs since starting order start limit :
  baseURL bs = bsBaseURL ->
  exists req,
    sends (ShowsList bs since starting order start limit) req
    /\ Method req = "GET"
    /\ Location (Target req) = "https://api.betaseries.com/shows/list"
    /\ (order ∈ ["alphabetical"; "popularity"; "followers"] ->
        query_of req !! "order" = Some [order])
    /\ (order ∉ ["alphabetical"; "popularity"; "followers"] ->
        query_of req !! "order" = Some ["popularity"])
    /\ added_when (since <> EmptyString) (query_of req) "since" since
    /\ added_when (starting <> EmptyString) (query_of req) "starting" starting
    /\ (forall k, k ∉ ["order"; "since"; "starting"; "start"; "limit"] ->
                  query_of req !! k = None).
Proof.
  intros Hb.
  edestruct (sends_request (ShowsList bs since starting order start limit))
    as (req & Hs & Hm & Hl & _ & _ & Hq); [sends_by ShowsList_run | no_empty |].
  exists req. rewrite Hq. unfold ShowsList_query, added_when.
  repeat apply conj; try done.
  - intros H%recognized. rewrite H. lookups.
  - intros H%unrecognized. rewrite H. lookups.
  - intros H. rewrite (length_eqb_0 since) by done. cbn [negb]. lookups.
  - intros H. destruct since; [|exfalso; now apply H].
    cbn [negb String.length Nat.eqb]. lookups.
  - intros H. rewrite (length_eqb_0 starting) by done. cbn [negb]. lookups.
  - intros H. destruct starting; [|exfalso; now apply H].
    cbn [negb String.length Nat.eqb]. lookups.
  - intros k Hk. not_in Hk. lookups.
Qed.

(** X12: [ShowsFavorites] sends the identifier of the user when it is positive;
    otherwise the query is empty and the URL has no question mark. *)
Theorem ShowsFavorites_request bs userID :
  baseURL bs = bsBaseURL ->
  exists req,
    sends (ShowsFavorites bs userID) req
    /\ Method req = "GET"
    /\ (0 < userID ->
        URL_String (Target req) =
        "https://api.betaseries.com/shows/favorites?id=" +:+ Itoa userID)
    /\ (userID <= 0 ->
        URL_String (Target req) = "https://api.betaseries.com/shows/favorites"
        /\ query_of req = ∅).
Proof.
  intros Hb.
  edestruct (sends_request (ShowsFavorites bs userID))
    as (req & Hs & Hm & _ & _ & Hu & Hq).
  { intros sent. rewrite ShowsFavorites_run, doGetShows_run by done. reflexivity. }
  { unfold ShowsFavorites_query. no_empty. }
  exists req. rewrite Hu, Hq. unfold ShowsFavorites_query.
  repeat apply conj; try done; intros H; as_bool; rewrite H.
  - transitivity ("https://api.betaseries.com/shows/favorites?id="
                    +:+ QueryEscape (Itoa userID));
      [|now rewrite QueryEscape_Itoa].
    generalize (Itoa userID). intros x. vm_compute. reflexivity.
  - split; reflexivity.
Qed.

(** X13: [EpisodesList] never fails before the request: it sends one GET to
    [/episodes/list], and each of its identifiers and flags is a filter of
    its own, in the query when it is set and left out when it is not. *)
Theorem EpisodesList_filters bs showID theTvdbID imdbID userID limit released
    subtitles specials :
  baseURL bs = bsBaseURL ->
  exists req,
    sends (EpisodesList bs showID theTvdbID imdbID userID limit released
             subtitles specials) req
    /\ Method req = "GET"
    /\ Location (Target req) = "https://api.betaseries.com/episodes/list"
    /\ added_when (0 < showID) (query_of req) "showId" (Itoa showID)
    /\ added_when (0 < theTvdbID) (query_of req) "showTheTVDBId" (Itoa theTvdbID)
    /\ added_when (imdbID <> EmptyString) (query_of req) "showIMDBId" imdbID
    /\ added_when (0 < userID) (query_of req) "userId" (Itoa userID)
    /\ added_when (subtitles = true) (query_of req) "subtitles" "true"
    /\ added_when (specials = true) (query_of req) "specials" "true".
Proof.
  intros Hb.
  edestruct (sends_request (EpisodesList bs showID theTvdbID imdbID userID limit released
                              subtitles specials))
    as (req & Hs & Hm & Hl & _ & _ & Hq); [sends_by EpisodesList_run | no_empty |].
  exists req. rewrite Hq. unfold EpisodesList_query.
  split; [done|]. split; [done|]. split; [done|].
  unfold added_when. repeat apply conj; intros H; peel.
  - apply Z.ltb_lt in H. now rewrite H.
  - apply Z.ltb_nlt in H. now rewrite H.
  - apply Z.ltb_lt in H. now rewrite H.
  - apply Z.ltb_nlt in H. now rewrite H.
  - apply String.eqb_neq in H. now rewrite H.
  - destruct (String.eqb_spec imdbID EmptyString); [done | now exfalso].
  - apply Z.ltb_lt in H. now rewrite H.
  - apply Z.ltb_nlt in H. now rewrite H.
  - now subst.
  - now destruct subtitles.
  - now subst.
  - now destruct specials.
Qed.

Lemma showUpdate_request bs method endPoint id theTvdbID imdbID option_ :
  baseURL bs = bsBaseURL -> endPoint ∈ show_endpoints -> 0 < id ->
  exists req,
    sends (showUpdate bs method endPoint id theTvdbID imdbID option_) req
    /\ Method req = method
    /\ Location (Target req) = bsBaseURL +:+ "/shows/" +:+ endPoint
    /\ query_of req =
       (let q := Values_Set "id" (Itoa id) ∅ in
        if 0 <? option_ then
          if String.eqb endPoint "note" then Values_Set "note" (Itoa option_) q
          else if String.eqb endPoint "show" then Values_Set "episode_id" (Itoa option_) q
          else q
        else q).
Proof.
  intros Hb Hin Hid. as_bool.
  edestruct (sends_request (showUpdate bs method endPoint id theTvdbID imdbID option_))
    as (req & Hs & Hm & Hl & _ & _ & Hq); [sends_by showUpdate_run | no_empty |].
  exists req. now rewrite Hq.
Qed.

(** X14: The verbs of the show calls: GET to display, POST to add, archive,
    favorite or note a show, DELETE to undo each of these; each goes to the
    path of its endpoint under [/shows/]. *)
Theorem show_update_verbs bs id theTvdbID imdbID lastEpisodeID note :
  baseURL bs = bsBaseURL -> 0 < id -> 1 <= note <= 5 ->
  goes_to (ShowFavorite bs id) "POST" "https://api.betaseries.com/shows/favorite"
  /\ goes_to (ShowFavoriteRemove bs id) "DELETE" "https://api.betaseries.com/shows/favorite"
  /\ goes_to (ShowDisplay bs id theTvdbID imdbID) "GET"
       "https://api.betaseries.com/shows/display"
  /\ goes_to (ShowAdd bs id theTvdbID imdbID lastEpisodeID) "POST"
       "https://api.betaseries.com/shows/show"
  /\ goes_to (ShowRemove bs id theTvdbID imdbID) "DELETE"
       "https://api.betaseries.com/shows/show"
  /\ goes_to (ShowArchive bs id theTvdbID) "POST" "https://api.betaseries.com/shows/archive"
  /\ goes_to (ShowNotArchive bs id theTvdbID) "DELETE"
       "https://api.betaseries.com/shows/archive"
  /\ goes_to (ShowNote bs id theTvdbID note) "POST" "https://api.betaseries.com/shows/note"
  /\ goes_to (ShowNoteRemove bs id theTvdbID) "DELETE"
       "https://api.betaseries.com/shows/note".
Proof.
  intros Hb Hid [Hlo Hhi].
  assert (Hwrap : forall method endPoint tv imdb opt,
             endPoint ∈ show_endpoints ->
             goes_to (showUpdate bs method endPoint id tv imdb opt) method
               (bsBaseURL +:+ "/shows/" +:+ endPoint)).
  { intros * Hin.
    destruct (showUpdate_request bs method endPoint id tv imdb opt Hb Hin Hid)
      as (req & Hs & Hm & Hl & _).
    exists req. repeat split; assumption. }
  assert (Hrange : (note <? 1) || (5 <? note) = false)
    by (apply orb_false_intro; apply Z.ltb_ge; lia).
  unfold ShowFavorite, ShowFavoriteRemove, ShowDisplay, ShowAdd, ShowRemove, ShowArchive,
    ShowNotArchive, ShowNote, ShowNoteRemove.
  rewrite Hrange.
  repeat apply conj; apply Hwrap; unfold show_endpoints;
    repeat first [apply list_elem_of_here | apply list_elem_of_further].
Qed.


(** X16: [ShowsVideos] with the external identifier alone sends it under the key
    [thetvdb_id] followed by a space: the request has no [thetvdb_id]
    parameter, and its query string is [thetvdb_id+=] and the number. *)
Theorem ShowsVideos_external_identifier bs id tvdbID :
  baseURL bs = bsBaseURL -> id <= 0 -> 0 < tvdbID ->
  exists req,
    sends (ShowsVideos bs id tvdbID) req
    /\ RawQuery (Target req) = "thetvdb_id+=" +:+ Itoa tvdbID
    /\ query_of req !! "thetvdb_id" = None
    /\ query_of req !! "thetvdb_id " = Some [Itoa tvdbID].
Proof.
  intros Hb Hid Htv. as_bool.
  edestruct (sends_request (ShowsVideos bs id tvdbID))
    as (req & Hs & _ & _ & Hr & _ & Hq); [sends_by ShowsVideos_run | no_empty |].
  exists req. rewrite Hr, Hq. split; [done|]. split; [|split; peel; reflexivity].
  transitivity ("thetvdb_id+=" +:+ QueryEscape (Itoa tvdbID));
    [|now rewrite QueryEscape_Itoa].
  generalize (Itoa tvdbID). intros x. vm_compute. reflexivity.
Qed.

(** X17: The flags of the listings are sent as [true] when they are set and
    left out when they are not: [summary] of [ShowsRandom], [details] of
    [ShowsSimilars], [subtitles] of [ShowsEpisodes]. *)
Theorem listing_flags bs :
  baseURL bs = bsBaseURL ->
  (forall num summary,
      exists req, sends (ShowsRandom bs num summary) req
                  /\ added_when (summary = true) (query_of req) "summary" "true")
  /\ (forall id theTvdbID details,
         0 < id \/ 0 < theTvdbID ->
         exists req, sends (ShowsSimilars bs id theTvdbID details) req
                     /\ added_when (details = true) (query_of req) "details" "true")
  /\ (forall id theTvdbID season episode subtitles,
         0 < id \/ 0 < theTvdbID ->
         exists req,
           sends (ShowsEpisodes bs id theTvdbID season episode subtitles) req
           /\ added_when (subtitles = true) (query_of req) "subtitles" "true").
Proof.
  intros Hb. repeat apply conj.
  - intros num summary.
    edestruct (sends_query (ShowsRandom bs num summary))
      as (req & Hs & Hq); [sends_by ShowsRandom_run | no_empty |].
    exists req. rewrite Hq. split; [done|]. unfold ShowsRandom_query, added_when.
    cbv zeta. destruct summary; cbn [FormatBool]; split; intros H; peel; done.
  - intros id theTvdbID details Hid.
    destruct (Z.ltb_spec 0 id) as [H1|H1]; [| assert (H2 : 0 < theTvdbID) by lia]; as_bool;
      (edestruct (sends_query (ShowsSimilars bs id theTvdbID details))
        as (req & Hs & Hq); [sends_by ShowsSimilars_run | no_empty |]);
      exists req; rewrite Hq; (split; [done|]); unfold added_when;
      destruct details; split; intros H; peel; done.
  - intros id theTvdbID season episode subtitles Hid.
    destruct (Z.ltb_spec 0 id) as [H1|H1]; [| assert (H2 : 0 < theTvdbID) by lia]; as_bool;
      (edestruct (sends_query (ShowsEpisodes bs id theTvdbID season episode subtitles))
        as (req & Hs & Hq); [sends_by ShowsEpisodes_run | no_empty |]);
      exists req; rewrite Hq; (split; [done|]); unfold added_when;
      (destruct (0 <? season); [destruct (0 <? episode)|]);
      destruct subtitles; split; intros H; peel; done.
Qed.

(** X18: The show calls that take no string identifier fail with "id not
    properly set", sending nothing, as soon as their numeric identifiers are
    not positive: [ShowFavorite] and [ShowFavoriteRemove] on their one
    identifier, [ShowArchive], [ShowNotArchive], [ShowNoteRemove] and
    [ShowNote] (with a note in range) on their two; [ShowDisplay], [ShowAdd]
    and [ShowRemove] do so when the string identifier is empty too. *)
Theorem show_calls_without_identifier bs id theTvdbID lastEpisodeID note :
  baseURL bs = bsBaseURL -> id <= 0 -> theTvdbID <= 0 -> 1 <= note <= 5 ->
  fails_locally (ShowFavorite bs id) errIDNotProperlySet
  /\ fails_locally (ShowFavoriteRemove bs id) errIDNotProperlySet
  /\ fails_locally (ShowArchive bs id theTvdbID) errIDNotProperlySet
  /\ fails_locally (ShowNotArchive bs id theTvdbID) errIDNotProperlySet
  /\ fails_locally (ShowNote bs id theTvdbID note) errIDNotProperlySet
  /\ fails_locally (ShowNoteRemove bs id theTvdbID) errIDNotProperlySet
  /\ fails_locally (ShowDisplay bs id theTvdbID EmptyString) errIDNotProperlySet
  /\ fails_locally (ShowAdd bs id theTvdbID EmptyString lastEpisodeID) errIDNotProperlySet
  /\ fails_locally (ShowRemove bs id theTvdbID EmptyString) errIDNotProperlySet.
Proof.
  intros Hb Hid Htv [Hlo Hhi].
  assert (Hfail : forall method endPoint tv opt,
             endPoint ∈ show_endpoints -> tv <= 0 ->
             fails_locally (showUpdate bs method endPoint id tv EmptyString opt)
               errIDNotProperlySet).
  { intros * Hin Hle. as_bool. fails_by showUpdate_run. }
  assert (Hrange : (note <? 1) || (5 <? note) = false)
    by (apply orb_false_intro; apply Z.ltb_ge; lia).
  unfold ShowFavorite, ShowFavoriteRemove, ShowDisplay, ShowAdd, ShowRemove, ShowArchive,
    ShowNotArchive, ShowNote, ShowNoteRemove.
  rewrite Hrange.
  repeat apply conj; apply Hfail; try lia; unfold show_endpoints;
    repeat first [apply list_elem_of_here | apply list_elem_of_further].
Qed.

(** X19: [EpisodeDownloaded] and [EpisodeNotDownloaded] check nothing: whatever
    the identifier, zero and negative numbers included, they send one
    request to [/episodes/downloaded], a POST to mark the episode and a
    DELETE to unmark it, with the identifier as the only parameter. *)
Theorem episode_marks bs id :
  baseURL bs = bsBaseURL ->
  (exists req,
      sends (EpisodeDownloaded bs id) req
      /\ Method req = "POST"
      /\ URL_String (Target req) =
         "https://api.betaseries.com/episodes/downloaded?id=" +:+ Itoa id
      /\ query_of req = Values_Set "id" (Itoa id) ∅)
  /\ (exists req,
         sends (EpisodeNotDownloaded bs id) req
         /\ Method req = "DELETE"
         /\ URL_String (Target req) =
            "https://api.betaseries.com/episodes/downloaded?id=" +:+ Itoa id
         /\ query_of req = Values_Set "id" (Itoa id) ∅).
Proof.
  intros Hb.
  assert (Hurl : (bsBaseURL +:+ "/episodes/downloaded")
                 +:+ (if String.eqb (Values_Encode (Values_Set "id" (Itoa id) ∅)) EmptyString
                      then EmptyString
                      else "?" +:+ Values_Encode (Values_Set "id" (Itoa id) ∅)) =
                 "https://api.betaseries.com/episodes/downloaded?id=" +:+ Itoa id).
  { transitivity ("https://api.betaseries.com/episodes/downloaded?id="
                    +:+ QueryEscape (Itoa id));
      [|now rewrite QueryEscape_Itoa].
    generalize (Itoa id). intros x. vm_compute. reflexivity. }
  split.
  - edestruct (sends_request (EpisodeDownloaded bs id))
      as (req & Hs & Hm & _ & _ & Hu & Hq);
      [unfold EpisodeDownloaded; sends_by episodeUpdate_run
      | apply no_empty_key_Set, no_empty_key_empty |].
    exists req. now rewrite Hu, Hq, Hurl.
  - edestruct (sends_request (EpisodeNotDownloaded bs id))
      as (req & Hs & Hm & _ & _ & Hu & Hq);
      [unfold EpisodeNotDownloaded; sends_by episodeUpdate_run
      | apply no_empty_key_Set, no_empty_key_empty |].
    exists req. now rewrite Hu, Hq, Hurl.
Qed.

(** X20: A collection that decodes with at least one element is returned as it
    was decoded: the same elements in the same order, for the show
    listings, the similars, the characters and the videos. *)
Theorem collections_returned_whole bs sent resp :
  baseURL bs = bsBaseURL ->
  (forall u usedAPI data,
      Do sent (request bs "GET" u) = inr resp ->
      decode shows.unmarshal shows.zero resp usedAPI (RawQuery u) = inr data ->
      shows.Shows data <> [] ->
      fst (doGetShows bs u usedAPI sent) = Returns (inr (shows.Shows data)))
  /\ (forall u data,
         Do sent (request bs "GET" u) = inr resp ->
         decode similars.unmarshal similars.zero resp EmptyString (RawQuery u) = inr data ->
         similars.Similars data <> [] ->
         fst (doGetSimilars bs u sent) = Returns (inr (similars.Similars data)))
  /\ (forall id theTvdbID q data,
         ShowsCharacters_query id theTvdbID ∅ = inr q ->
         Do sent (request bs "GET" (api_url "/shows/characters" q)) = inr resp ->
         decode characters.unmarshal characters.zero resp "/shows/characters"
           (Values_Encode q) = inr data ->
         characters.Characters data <> [] ->
         fst (ShowsCharacters bs id theTvdbID sent) =
         Returns (inr (characters.Characters data)))
  /\ (forall id tvdbID q data,
         ShowsVideos_query id tvdbID ∅ = inr q ->
         Do sent (request bs "GET" (api_url "/shows/videos" q)) = inr resp ->
         decode videos.unmarshal videos.zero resp "/shows/videos"
           (Values_Encode q) = inr data ->
         videos.Videos data <> [] ->
         fst (ShowsVideos bs id tvdbID sent) = Returns (inr (videos.Videos data))).
Proof.
  intros Hb. repeat apply conj.
  - intros * HDo Hdec Hne. rewrite doGetShows_run. cbn [fst].
    rewrite HDo. cbn. rewrite Hdec. cbn. now destruct (shows.Shows data).
  - intros * HDo Hdec Hne. rewrite doGetSimilars_run. cbn [fst].
    rewrite HDo. cbn. rewrite Hdec. cbn. now destruct (similars.Similars data).
  - intros * Hq HDo Hdec Hne. rewrite ShowsCharacters_run, Hq by done. cbn [fst].
    rewrite HDo. cbn. rewrite Hdec. cbn. now destruct (characters.Characters data).
  - intros * Hq HDo Hdec Hne. rewrite ShowsVideos_run, Hq by done. cbn [fst].
    rewrite HDo. cbn. rewrite Hdec. cbn. now destruct (videos.Videos data).
Qed.

End Client.

(** ** The reader of JSON texts uses up its input, not its fuel *)

Section JsonFacts.

Import Json.

Lemma shorter_map {A B} (f : A -> B) n p : shorter n p -> shorter n (parsed_map f p).
Proof. intros H b r. destruct p; cbn; [|done..]. intros [= <- <-]. eauto. Qed.

Lemma alive_map {A B} (f : A -> B) p : alive p -> alive (parsed_map f p).
Proof. unfold alive. now destruct p. Qed.

Lemma shorter_mono {A} n m (p : parsed A) : shorter n p -> (n <= m)%nat -> shorter m p.
Proof. intros H Hnm a r Hp. specialize (H a r Hp). lia. Qed.

Lemma shorter_Parsed {A} n (a : A) r : (String.length r < n)%nat -> shorter n (Parsed a r).
Proof. now intros H ? ? [= <- <-]. Qed.

Lemma shorter_Malformed {A} n m : shorter n (@Malformed A m).
Proof. now intros ? ?. Qed.

Lemma shorter_Exhausted {A} n : shorter n (@Exhausted A).
Proof. now intros ? ?. Qed.

Lemma skip_space_length s : (String.length (skip_space s) <= String.length s)%nat.
Proof.
  induction s as [|c s IH]; [done|]. cbn [skip_space].
  destruct (is_space c); cbn [String.length]; lia.
Qed.

Lemma string_body_reads n :
  forall s, (String.length s <= n)%nat -> alive (string_body s) /\ shorter (String.length s) (string_body s).
Proof.
  induction n as [|n IH]; intros s Hs.
  - destruct s; [|cbn in Hs; lia]. split; [done | apply shorter_Malformed].
  - assert (Hrec : forall {B} (f : string -> B) t m,
               (String.length t <= n)%nat -> (String.length t <= m)%nat ->
               alive (parsed_map f (string_body t))
               /\ shorter m (parsed_map f (string_body t))).
    { intros B f t m Ht Hm. destruct (IH t Ht) as [Ha Hsh].
      split; [now apply alive_map | apply shorter_map; now apply shorter_mono with (String.length t)]. }
    destruct s as [|c s]; [split; [done | apply shorter_Malformed]|].
    cbn [String.length] in Hs. cbn [string_body].
    repeat match goal with
           | |- context [if ?b then _ else _] => destruct b
           | |- context [match ?x with _ => _ end] =>
               lazymatch x with
               | parsed_map _ _ => fail
               | string_body _ => fail
               | _ => destruct x
               end
           end;
      cbn [String.length] in *;
      try (split; [done | first [apply shorter_Malformed | apply shorter_Parsed; lia]]);
      apply Hrec; cbn [String.length]; lia.
Qed.

Lemma string_body_alive s : alive (string_body s).
Proof. now apply (string_body_reads (String.length s)). Qed.

Lemma string_body_shorter s : shorter (String.length s) (string_body s).
Proof. now apply (string_body_reads (String.length s)). Qed.

Lemma digits_length s : (String.length (fst (digits s)) + String.length (snd (digits s)) = String.length s)%nat.
Proof.
  induction s as [|c s IH]; [done|]. cbn [digits].
  destruct (Bytes.is_digit c); [|done].
  destruct (digits s) as [d r]. cbn [fst snd String.length] in *. lia.
Qed.

Lemma after_length c s r : after c s = Some r -> String.length s = S (String.length r).
Proof.
  destruct s as [|a s]; [done|]. cbn [after].
  destruct (Ascii.eqb a c); [|done]. now intros [= ->].
Qed.

Lemma strip_prefix_length p : forall s r,
  strip_prefix p s = Some r -> (String.length p + String.length r = String.length s)%nat.
Proof.
  induction p as [|a p IH]; intros s r; cbn [strip_prefix].
  - now intros [= ->].
  - destruct s as [|b s]; [done|]. destruct (Ascii.eqb a b); [|done].
    intros H%IH. cbn [String.length]. lia.
Qed.

Lemma literal_reads word v s :
  word <> EmptyString -> alive (literal word v s) /\ shorter (String.length s) (literal word v s).
Proof.
  intros Hw. unfold literal. destruct (strip_prefix word s) as [r|] eqn:E.
  - split; [done|]. apply shorter_Parsed. apply strip_prefix_length in E.
    destruct word; [done|]. cbn [String.length] in E. lia.
  - split; [done | apply shorter_Malformed].
Qed.

Lemma number_integer_reads s :
  alive (number_integer s) /\ shorter (String.length s) (number_integer s).
Proof.
  unfold number_integer. destruct (after "0" s) as [s1|] eqn:E.
  - split; [done|]. apply shorter_Parsed. apply after_length in E. lia.
  - pose proof (digits_length s) as Hd. destruct (digits s) as [d r].
    cbn [fst snd] in Hd. destruct d as [|c d].
    + split; [done | apply shorter_Malformed].
    + split; [done|]. apply shorter_Parsed. cbn [String.length] in Hd. lia.
Qed.

Lemma number_fraction_reads s :
  alive (number_fraction s) /\ no_longer (String.length s) (number_fraction s).
Proof.
  unfold number_fraction. destruct (after "." s) as [s1|] eqn:E.
  - apply after_length in E. pose proof (digits_length s1) as Hd.
    destruct (digits s1) as [d r]. cbn [fst snd] in Hd. destruct d as [|c d].
    + split; [done | now intros ? ?].
    + split; [done|]. intros ? ? [= <- <-]. lia.
  - split; [done|]. now intros ? ? [= <- <-].
Qed.

Lemma number_exponent_reads s :
  alive (number_exponent s) /\ no_longer (String.length s) (number_exponent s).
Proof.
  unfold number_exponent. destruct s as [|e s1]; [split; [done | now intros ? ? [= <- <-]]|].
  destruct (Ascii.eqb e "e" || Ascii.eqb e "E"); [|split; [done | now intros ? ? [= <- <-]]].
  set (p := match s1 with
            | EmptyString => _
            | String g s2 => _
            end).
  assert (Hp : (String.length (snd p) <= String.length s1)%nat).
  { subst p. destruct s1 as [|g s2]; [done|].
    destruct (Ascii.eqb g "+" || Ascii.eqb g "-"); cbn [snd String.length]; lia. }
  destruct p as [sign s2]. cbn [snd] in Hp.
  pose proof (digits_length s2) as Hd. destruct (digits s2) as [d r].
  cbn [fst snd] in Hd. destruct d as [|c d].
  - split; [done | now intros ? ?].
  - split; [done|]. intros ? ? [= <- <-]. cbn [String.length] in *. lia.
Qed.

Lemma number_reads s : alive (number s) /\ shorter (String.length s) (number s).
Proof.
  unfold number.
  set (p := match after "-" s with
            | Some s0 => _
            | None => _
            end).
  assert (Hp : (String.length (snd p) <= String.length s)%nat).
  { subst p. destruct (after "-" s) as [s0|] eqn:E; cbn [snd]; [|lia].
    apply after_length in E. lia. }
  destruct p as [sign s0]. cbn [snd] in Hp.
  destruct (number_integer_reads s0) as [Ha Hs].
  destruct (number_integer s0) as [i s1| |]; [|split; [done | apply shorter_Malformed]|done].
  specialize (Hs _ _ eq_refl).
  destruct (number_fraction_reads s1) as [Ha1 Hs1].
  destruct (number_fraction s1) as [f s2| |]; [|split; [done | apply shorter_Malformed]|done].
  specialize (Hs1 _ _ eq_refl).
  destruct (number_exponent_reads s2) as [Ha2 Hs2].
  destruct (number_exponent s2) as [e s3| |]; [|split; [done | apply shorter_Malformed]|done].
  specialize (Hs2 _ _ eq_refl).
  split; [done|]. apply shorter_Parsed. lia.
Qed.

Ltac by_length :=
  repeat match goal with
         | H : after _ _ = Some _ |- _ => apply after_length in H
         end;
  cbn [String.length] in *; lia.

Lemma value_shorter fuel :
  (forall d s, shorter (String.length s) (value fuel d s))
  /\ (forall d s, shorter (String.length s) (elements fuel d s))
  /\ (forall d s, shorter (String.length s) (members fuel d s)).
Proof.
  induction fuel as [|fuel (IHv & IHe & IHm)];
    [repeat split; intros; apply shorter_Exhausted|].
  repeat split; intros d s.
  - cbn [value]. pose proof (skip_space_length s) as Hs.
    destruct (skip_space s) as [|c s']; [apply shorter_Malformed|].
    pose proof (skip_space_length s') as Hs'.
    repeat match goal with
           | |- context [if ?b then _ else _] => destruct b
           end; try apply shorter_Malformed.
    + apply shorter_map, shorter_mono with (String.length s'); [apply string_body_shorter | by_length].
    + destruct (after "}" (skip_space s')) as [r|] eqn:E.
      * apply shorter_Parsed. by_length.
      * apply shorter_map, shorter_mono with (String.length (skip_space s')); [apply IHm | by_length].
    + destruct (after "]" (skip_space s')) as [r|] eqn:E.
      * apply shorter_Parsed. by_length.
      * apply shorter_map, shorter_mono with (String.length (skip_space s')); [apply IHe | by_length].
    + apply shorter_map, shorter_mono with (String.length (String c s')); [apply number_reads | by_length].
    + apply shorter_mono with (String.length (String c s')); [now apply literal_reads | by_length].
    + apply shorter_mono with (String.length (String c s')); [now apply literal_reads | by_length].
    + apply shorter_mono with (String.length (String c s')); [now apply literal_reads | by_length].
  - cbn [elements]. pose proof (IHv d s) as Hv.
    destruct (value fuel d s) as [v r| |]; [|apply shorter_Malformed | apply shorter_Exhausted].
    specialize (Hv _ _ eq_refl). pose proof (skip_space_length r) as Hr.
    destruct (skip_space r) as [|c r']; [apply shorter_Malformed|].
    repeat match goal with
           | |- context [if ?b then _ else _] => destruct b
           end; try apply shorter_Malformed.
    + apply shorter_map, shorter_mono with (String.length r'); [apply IHe | by_length].
    + apply shorter_Parsed. by_length.
  - cbn [members]. pose proof (skip_space_length s) as Hs.
    destruct (skip_space s) as [|c s0]; [apply shorter_Malformed|].
    destruct (negb (Ascii.eqb c quote)); [apply shorter_Malformed|].
    pose proof (string_body_shorter s0) as Hk.
    destruct (string_body s0) as [k r0| |]; [|apply shorter_Malformed | apply shorter_Exhausted].
    specialize (Hk _ _ eq_refl). pose proof (skip_space_length r0) as Hr0.
    destruct (skip_space r0) as [|c1 r1]; [apply shorter_Malformed|].
    destruct (negb (Ascii.eqb c1 ":")); [apply shorter_Malformed|].
    pose proof (IHv d r1) as Hv.
    destruct (value fuel d r1) as [v r2| |]; [|apply shorter_Malformed | apply shorter_Exhausted].
    specialize (Hv _ _ eq_refl). pose proof (skip_space_length r2) as Hr2.
    destruct (skip_space r2) as [|c2 r3]; [apply shorter_Malformed|].
    repeat match goal with
           | |- context [if ?b then _ else _] => destruct b
           end; try apply shorter_Malformed.
    + apply shorter_map, shorter_mono with (String.length r3); [apply IHm | by_length].
    + apply shorter_Parsed. by_length.
Qed.

Lemma value_alive fuel :
  (forall d s, (2 * String.length s < fuel)%nat -> alive (value fuel d s))
  /\ (forall d s, (2 * String.length s + 1 < fuel)%nat -> alive (elements fuel d s))
  /\ (forall d s, (2 * String.length s < fuel)%nat -> alive (members fuel d s)).
Proof.
  induction fuel as [|fuel (IHv & IHe & IHm)]; [repeat split; intros; lia|].
  repeat split; intros d s Hfuel.
  - cbn [value]. pose proof (skip_space_length s) as Hs.
    destruct (skip_space s) as [|c s']; [done|].
    pose proof (skip_space_length s') as Hs'.
    repeat match goal with
           | |- context [if ?b then _ else _] => destruct b
           end; try done.
    + apply alive_map, string_body_alive.
    + destruct (after "}" (skip_space s')) as [r|] eqn:E; [done|].
      apply alive_map, IHm. by_length.
    + destruct (after "]" (skip_space s')) as [r|] eqn:E; [done|].
      apply alive_map, IHe. by_length.
    + apply alive_map, number_reads.
    + now apply literal_reads.
    + now apply literal_reads.
    + now apply literal_reads.
  - cbn [elements]. pose proof (proj1 (value_shorter fuel) d s) as Hv.
    pose proof (IHv d s ltac:(lia)) as Ha.
    destruct (value fuel d s) as [v r| |]; [|done..].
    specialize (Hv _ _ eq_refl). pose proof (skip_space_length r) as Hr.
    destruct (skip_space r) as [|c r']; [done|].
    repeat match goal with
           | |- context [if ?b then _ else _] => destruct b
           end; try done.
    apply alive_map, IHe. by_length.
  - cbn [members]. pose proof (skip_space_length s) as Hs.
    destruct (skip_space s) as [|c s0]; [done|].
    destruct (negb (Ascii.eqb c quote)); [done|].
    pose proof (string_body_shorter s0) as Hk. pose proof (string_body_alive s0) as Hka.
    destruct (string_body s0) as [k r0| |]; [|done..].
    specialize (Hk _ _ eq_refl). pose proof (skip_space_length r0) as Hr0.
    destruct (skip_space r0) as [|c1 r1]; [done|].
    destruct (negb (Ascii.eqb c1 ":")); [done|].
    pose proof (proj1 (value_shorter fuel) d r1) as Hv.
    assert (Ha : alive (value fuel d r1)) by (apply IHv; by_length).
    destruct (value fuel d r1) as [v r2| |]; [|done..].
    specialize (Hv _ _ eq_refl). pose proof (skip_space_length r2) as Hr2.
    destruct (skip_space r2) as [|c2 r3]; [done|].
    repeat match goal with
           | |- context [if ?b then _ else _] => destruct b
           end; try done.
    apply alive_map, IHm. by_length.
Qed.

(** The reader of a body has fuel for the whole of it: a body it does not
    read is malformed. *)
Lemma value_never_exhausted body :
  value (2 * String.length body + 2) 0 body <> Exhausted.
Proof. apply value_alive. lia. Qed.

Lemma parse_malformed body msg :
  parse body = inl msg -> value (2 * String.length body + 2) 0 body = Malformed msg.
Proof.
  unfold parse. pose proof (value_never_exhausted body) as H.
  destruct (value _ 0 body); [done | now intros [= ->] | done].
Qed.
End JsonFacts.

(** ** The claims at concrete inputs *)

(** The claim C9 at an empty password. *)
Lemma NewBetaseriesClient_anonymous_witness :
  NewBetaseriesClient (answers 200 EmptyString) no_md5 "key" "login" EmptyString [] =
  (Returns (anonymous "key", None), []).
Proof.
  apply (NewBetaseriesClient_anonymous (answers 200 EmptyString) no_md5 "key" "login" EmptyString).
  right. reflexivity.
Defined.

(** The failing input of C1: the credential exchange is answered with the
    status 500 and a body that is not JSON. *)
Lemma NewBetaseriesClient_exits_witness :
  NewBetaseriesClient (answers 500 "<html>") no_md5 "key" "login" "password" [] =
  (Exits "Error decoding API error : invalid character looking for beginning of value",
   [auth_request no_md5 "key" "login" "password"]).
Proof.
  apply (NewBetaseriesClient_exits_on_malformed_error (answers 500 "<html>") no_md5
           "key" "login" "password" [] (mkResponse 500 "<html>")
           "invalid character looking for beginning of value");
    [discriminate | discriminate | reflexivity | discriminate | reflexivity].
Defined.

(** C2 at [ShowDisplay 1 0 EmptyString] answered with an envelope without payload. *)
Lemma ShowDisplay_absent_payload_witness :
  fst (ShowDisplay (answers 200 empty_envelope) some_errURLParsing (anonymous "key")
         1 0 EmptyString []) = Returns (inr None).
Proof.
  destruct (single_item_absent_payload (answers 200 empty_envelope) some_errURLParsing
              (anonymous "key") eq_refl) as [Hshow _].
  apply (Hshow "GET" "display" 1 0 EmptyString 0 (Values_Set "id" "1" ∅) []
           (mkResponse 200 empty_envelope) showItem.zero).
  - apply list_elem_of_further, list_elem_of_here.
  - reflexivity.
  - reflexivity.
  - vm_compute. reflexivity.
  - reflexivity.
Defined.

(** The claim C2 fails there: no error is returned. *)
Lemma ShowDisplay_absent_payload_no_error :
  ~ exists err,
      fst (ShowDisplay (answers 200 empty_envelope) some_errURLParsing (anonymous "key")
             1 0 EmptyString []) = Returns (inl err).
Proof. intros [err H]. vm_compute in H. discriminate H. Qed.

(** C3 at [ShowNote 5 0 3]: the note is in range and the local identifier
    is positive. *)
Lemma identifier_resolution_witness :
  resolves_identifier
    (ShowNote (answers 200 empty_envelope) some_errURLParsing (anonymous "key") 5 0 3)
    5 0 EmptyString.
Proof.
  destruct (identifier_resolution (answers 200 empty_envelope) some_errURLParsing
              (anonymous "key") eq_refl) as (_ & _ & _ & _ & _ & _ & Hnote & _).
  apply (Hnote 5 0 3). lia.
Defined.

(** The claim C3 fails for [ShowsVideos 5 5]: the local identifier is
    positive and no request carries it. *)
Lemma ShowsVideos_does_not_resolve :
  ~ resolves_identifier
      (ShowsVideos (answers 200 empty_envelope) some_errURLParsing (anonymous "key") 5 5)
      5 5 EmptyString.
Proof.
  intros [Hid _]. destruct Hid as (req & Hsends & _); [lia|].
  specialize (Hsends []). vm_compute in Hsends. discriminate Hsends.
Qed.

(** C4 at [ShowsVideos 5 5]. *)
Lemma both_identifiers_positive_witness :
  fails_locally
    (ShowsVideos (answers 200 empty_envelope) some_errURLParsing (anonymous "key") 5 5)
    errNoSingleIDUsed.
Proof.
  apply (both_identifiers_positive (answers 200 empty_envelope) some_errURLParsing
           (anonymous "key") 5 5); [reflexivity | lia | lia].
Defined.

(** The claim C4 fails for [ShowsSimilars 5 5]: a request is sent. *)
Lemma ShowsSimilars_both_positive_sends :
  ~ fails_locally
      (ShowsSimilars (answers 200 empty_envelope) some_errURLParsing (anonymous "key")
         5 5 false)
      errNoSingleIDUsed.
Proof. intros H. specialize (H []). vm_compute in H. discriminate H. Qed.

(** C5 at the notes 9 and 3. *)
Lemma ShowNote_range_witness :
  fails_locally
    (ShowNote (answers 200 empty_envelope) some_errURLParsing (anonymous "key") 1 0 9)
    errInvalidNote
  /\ exists req,
      sends (ShowNote (answers 200 empty_envelope) some_errURLParsing (anonymous "key")
               1 0 3) req
      /\ query_of req !! "note" = Some ["3"].
Proof.
  split.
  - apply (ShowNote_range (answers 200 empty_envelope) some_errURLParsing
             (anonymous "key") 1 0 9); [reflexivity | lia].
  - apply (ShowNote_range (answers 200 empty_envelope) some_errURLParsing
             (anonymous "key") 1 0 3); [reflexivity | lia | lia].
Defined.

(** C6 at an empty list of shows. *)
Lemma empty_collection_errors_witness :
  fst (doGetShows (answers 200 empty_envelope) (anonymous "key")
         (api_url "/shows/search" ∅) "/shows/search" []) =
  Returns (inl errNoShowsFound).
Proof.
  destruct (empty_collection_errors (answers 200 empty_envelope) some_errURLParsing
              (anonymous "key") [] (mkResponse 200 empty_envelope) eq_refl)
    as (Hshows & _).
  apply (Hshows (api_url "/shows/search" ∅) "/shows/search" shows.zero);
    [reflexivity | vm_compute; reflexivity | reflexivity].
Defined.

(** The claim C6 fails for the similars: their empty listing has the error
    of the empty show listing. *)
Lemma similars_share_the_shows_error :
  ~ exists e1 e2,
      fst (ShowsSimilars (answers 200 empty_envelope) some_errURLParsing
             (anonymous "key") 1 0 false []) = Returns (inl e1)
      /\ fst (ShowsSearch (answers 200 empty_envelope) some_errURLParsing
                (anonymous "key") "lost" "title" false []) = Returns (inl e2)
      /\ e1 <> e2.
Proof.
  intros (e1 & e2 & H1 & H2 & Hne). vm_compute in H1, H2.
  apply Hne. congruence.
Qed.

(** C7 at [ShowsRandom 0]. *)
Lemma numeric_options_witness :
  exists req,
    sends (ShowsRandom (answers 200 empty_envelope) some_errURLParsing (anonymous "key")
             0 false) req
    /\ added_when (0 <= 0) (query_of req) "nb" "0".
Proof.
  destruct (numeric_options (answers 200 empty_envelope) some_errURLParsing
              (anonymous "key") eq_refl) as (_ & _ & Hrandom & _).
  exact (Hrandom 0 false).
Defined.

(** The claim C7 fails for [ShowsRandom 0]: the count, which is not
    strictly positive, is in the query. *)
Lemma ShowsRandom_zero_is_sent :
  ~ exists req,
      sends (ShowsRandom (answers 200 empty_envelope) some_errURLParsing (anonymous "key")
               0 false) req
      /\ added_when (0 < 0) (query_of req) "nb" "0".
Proof.
  intros (req & Hsends & _ & Hout). specialize (Hsends []). specialize (Hout ltac:(lia)).
  vm_compute in Hsends. injection Hsends as <-. vm_compute in Hout. discriminate Hout.
Qed.

(** C8 at the network that answers with the body of the scenario. *)
Lemma ShowsSearch_lost_witness :
  exists req show,
    ShowsSearch (answers 200 lost_body) some_errURLParsing (anonymous "key")
      "lost" "title" false [] = (Returns (inr [show]), [req])
    /\ Show.ID show = 1
    /\ Method req = "GET"
    /\ URL_String (Target req) =
       "https://api.betaseries.com/shows/search?nbpp=100&order=title&title=lost"
    /\ query_of req =
       <["title" := ["lost"]]> (<["nbpp" := ["100"]]> (<["order" := ["title"]]> ∅)).
Proof.
  apply (ShowsSearch_lost (answers 200 lost_body) some_errURLParsing
           (anonymous "key") [] (mkResponse 200 lost_body)); reflexivity.
Defined.

(** The claim C8 fails on the query string: the parameters are not in the
    order in which they were set. *)
Lemma ShowsSearch_lost_query_string :
  ~ exists req,
      sends (ShowsSearch (answers 200 lost_body) some_errURLParsing
               (anonymous "key") "lost" "title" false) req
      /\ RawQuery (Target req) = "title=lost&nbpp=100&order=title".
Proof.
  intros (req & Hsends & Hquery). specialize (Hsends []).
  vm_compute in Hsends. injection Hsends as <-. vm_compute in Hquery. discriminate Hquery.
Qed.

(** C10 at a query with capital letters of every width and a byte that is
    not UTF-8. *)
Lemma ShowsSearch_title_lowercase_witness :
  exists req,
    sends (ShowsSearch (answers 200 lost_body) some_errURLParsing (anonymous "key")
             capitals_query "title" false) req
    /\ query_of req !! "title" = Some [capitals_title].
Proof.
  destruct (ShowsSearch_title_lowercase (answers 200 lost_body) some_errURLParsing
              (anonymous "key") capitals_query "title" false eq_refl)
    as (req & Hsends & Htitle & _).
  exists req. split; [exact Hsends|]. rewrite Htitle. vm_compute. reflexivity.
Defined.

(** [ShowsVideos] with the external identifier alone: its key is written
    with a space after it, so the request has no [thetvdb_id] parameter. *)
Lemma ShowsVideos_external_key :
  exists req,
    sends (ShowsVideos (answers 200 empty_envelope) some_errURLParsing (anonymous "key")
             0 5) req
    /\ RawQuery (Target req) = "thetvdb_id+=5"
    /\ query_of req !! "thetvdb_id" = None
    /\ query_of req !! "thetvdb_id " = Some ["5"].
Proof.
  exists (request (anonymous "key") "GET"
            (api_url "/shows/videos" (Values_Set "thetvdb_id " "5" ∅))).
  split.
  - intros sent. now rewrite ShowsVideos_run.
  - repeat apply conj; vm_compute; reflexivity.
Qed.

(** ** The session and the requests at concrete inputs *)

(** A granted login: the token of the body is the token of the client. *)
Lemma NewBetaseriesClient_stores_token_witness :
  exists bs,
    NewBetaseriesClient (answers 200 token_body) no_md5 "key" "login" "password" [] =
    (Returns (bs, None), [auth_request no_md5 "key" "login" "password"])
    /\ getToken bs = inr "c0ffee".
Proof.
  destruct (NewBetaseriesClient_stores_token (answers 200 token_body) no_md5
              "key" "login" "password" [] (mkResponse 200 token_body) token_data)
    as (bs & Hrun & _ & Hget & _);
    [discriminate | discriminate | reflexivity | reflexivity | vm_compute; reflexivity |].
  exists bs. split; [exact Hrun | exact Hget].
Defined.

(** A network that cannot be reached. *)
Lemma NewBetaseriesClient_transport_error_witness :
  NewBetaseriesClient (unreachable "no route to host") no_md5 "key" "login" "password" [] =
  (Returns (anonymous "key",
            Some (Errorf ("Error getting token :%v" +:+ newline) ["no route to host"])),
   [auth_request no_md5 "key" "login" "password"]).
Proof.
  apply (NewBetaseriesClient_transport_error (unreachable "no route to host") no_md5
           "key" "login" "password" [] "no route to host");
    [discriminate | discriminate | reflexivity].
Defined.

(** A refused login: the error is the reported text and a newline. *)
Lemma NewBetaseriesClient_service_error_witness :
  NewBetaseriesClient (answers 400 refused_body) no_md5 "key" "login" "password" [] =
  (Returns (anonymous "key", Some (Errorf ("bad password" +:+ newline) [])),
   [auth_request no_md5 "key" "login" "password"]).
Proof.
  apply (NewBetaseriesClient_service_error (answers 400 refused_body) no_md5
           "key" "login" "password" [] (mkResponse 400 refused_body)
           refused_json refused_errors);
    [discriminate | discriminate | reflexivity | discriminate | vm_compute; reflexivity
    | discriminate | vm_compute; reflexivity].
Defined.

(** A refusal whose body is [null]. *)
Lemma NewBetaseriesClient_null_error_body_witness :
  NewBetaseriesClient (answers 500 "null") no_md5 "key" "login" "password" [] =
  (Panics "invalid memory address or nil pointer dereference",
   [auth_request no_md5 "key" "login" "password"]).
Proof.
  apply (NewBetaseriesClient_null_error_body_panics (answers 500 "null") no_md5
           "key" "login" "password" [] (mkResponse 500 "null"));
    [discriminate | discriminate | reflexivity | discriminate | vm_compute; reflexivity].
Defined.

(** The credential exchange of the login [me@example.org]: the at sign is
    escaped in the URL. *)
Lemma credential_request_witness :
  exists req,
    sends (NewBetaseriesClient (answers 200 token_body) no_md5 "key" "me@example.org"
             "password") req
    /\ URL_String (Target req) =
       "https://api.betaseries.com/members/auth?login=me%40example.org&password=password".
Proof.
  destruct (credential_request (answers 200 token_body) no_md5 "key" "me@example.org"
              "password") as (req & Hsends & _ & Hurl & _);
    [discriminate | discriminate |].
  exists req. split; [exact Hsends|]. rewrite Hurl. vm_compute. reflexivity.
Defined.

(** The client that comes with the error of a refused login has no token. *)
Lemma NewBetaseriesClient_returns_witness :
  NewBetaseriesClient (answers 400 refused_body) no_md5 "key" "login" "password" [] =
  (Returns (anonymous "key", Some (Errorf ("bad password" +:+ newline) [])),
   [auth_request no_md5 "key" "login" "password"])
  /\ tok (anonymous "key") = None.
Proof.
  assert (H : NewBetaseriesClient (answers 400 refused_body) no_md5 "key" "login"
                "password" [] =
              (Returns (anonymous "key", Some (Errorf ("bad password" +:+ newline) [])),
               [auth_request no_md5 "key" "login" "password"]))
    by (vm_compute; reflexivity).
  split; [exact H|].
  destruct (NewBetaseriesClient_returns (answers 400 refused_body) no_md5 "key" "login"
              "password" [] _ _ _ H) as (_ & _ & _ & Htok & _).
  apply Htok. discriminate.
Defined.

(** [ShowsSearch] with an order that is not recognized. *)
Lemma ShowsSearch_parameters_witness :
  exists req,
    sends (ShowsSearch (answers 200 lost_body) some_errURLParsing
             (anonymous "key") "Lost" "rating" false) req
    /\ query_of req !! "order" = Some ["popularity"].
Proof.
  destruct (ShowsSearch_parameters (answers 200 lost_body) some_errURLParsing
              (anonymous "key") "Lost" "rating" false eq_refl)
    as (req & Hsends & _ & _ & _ & _ & Horder & _).
  exists req. split; [exact Hsends|]. apply Horder.
  intros H. vm_compute in H. repeat (apply elem_of_cons in H as [H|H]; [discriminate H|]).
  now apply elem_of_nil in H.
Defined.

(** The URL of [ShowsSearch] for a query with a space and an ampersand. *)
Lemma ShowsSearch_url_witness :
  exists req,
    sends (ShowsSearch (answers 200 lost_body) some_errURLParsing
             (anonymous "key") "Tom & Jerry" "title" true) req
    /\ URL_String (Target req) =
       "https://api.betaseries.com/shows/search?nbpp=100&order=title&summary=true"
       +:+ "&title=tom+%26+jerry".
Proof.
  destruct (ShowsSearch_url (answers 200 lost_body) some_errURLParsing
              (anonymous "key") "Tom & Jerry" "title" true eq_refl)
    as (req & Hsends & Hurl & _).
  exists req. split; [exact Hsends|]. rewrite Hurl by apply list_elem_of_here.
  vm_compute. reflexivity.
Defined.

(** [ShowsList] with a date and no prefix. *)
Lemma ShowsList_parameters_witness :
  exists req,
    sends (ShowsList (answers 200 lost_body) some_errURLParsing (anonymous "key")
             "1400000000" EmptyString "followers" 0 0) req
    /\ query_of req !! "since" = Some ["1400000000"]
    /\ query_of req !! "starting" = None.
Proof.
  destruct (ShowsList_parameters (answers 200 lost_body) some_errURLParsing
              (anonymous "key") "1400000000" EmptyString "followers" 0 0 eq_refl)
    as (req & Hsends & _ & _ & _ & _ & [Hsince _] & [_ Hstarting] & _).
  exists req. split; [exact Hsends|]. split.
  - apply Hsince. discriminate.
  - apply Hstarting. intros H. now apply H.
Defined.

(** [ShowsFavorites] of the user 12. *)
Lemma ShowsFavorites_request_witness :
  exists req,
    sends (ShowsFavorites (answers 200 lost_body) some_errURLParsing (anonymous "key") 12)
      req
    /\ URL_String (Target req) = "https://api.betaseries.com/shows/favorites?id=12".
Proof.
  destruct (ShowsFavorites_request (answers 200 lost_body) some_errURLParsing
              (anonymous "key") 12 eq_refl) as (req & Hsends & _ & Hurl & _).
  exists req. split; [exact Hsends|]. rewrite Hurl by lia. vm_compute. reflexivity.
Defined.

(** [EpisodesList] with an external identifier and the specials. *)
Lemma EpisodesList_filters_witness :
  exists req,
    sends (EpisodesList (answers 200 lost_body) some_errURLParsing (anonymous "key")
             0 73739 EmptyString 0 0 (-1) false true) req
    /\ query_of req !! "showTheTVDBId" = Some ["73739"]
    /\ query_of req !! "showId" = None.
Proof.
  destruct (EpisodesList_filters (answers 200 lost_body) some_errURLParsing
              (anonymous "key") 0 73739 EmptyString 0 0 (-1) false true eq_refl)
    as (req & Hsends & _ & _ & [_ Hshow] & [Htvdb _] & _).
  exists req. split; [exact Hsends|]. split.
  - apply Htvdb. lia.
  - apply Hshow. lia.
Defined.

(** [ShowArchive] of the show 1. *)
Lemma show_update_verbs_witness :
  goes_to (ShowArchive (answers 200 empty_envelope) some_errURLParsing (anonymous "key") 1 0)
    "POST" "https://api.betaseries.com/shows/archive".
Proof.
  destruct (show_update_verbs (answers 200 empty_envelope) some_errURLParsing
              (anonymous "key") 1 0 EmptyString 0 3 eq_refl)
    as (_ & _ & _ & _ & _ & Harchive & _); [lia | lia |].
  exact Harchive.
Defined.


(** [ShowsVideos] of the external identifier 73739. *)
Lemma ShowsVideos_external_identifier_witness :
  exists req,
    sends (ShowsVideos (answers 200 empty_envelope) some_errURLParsing (anonymous "key")
             0 73739) req
    /\ RawQuery (Target req) = "thetvdb_id+=73739".
Proof.
  destruct (ShowsVideos_external_identifier (answers 200 empty_envelope)
              some_errURLParsing (anonymous "key") 0 73739 eq_refl)
    as (req & Hsends & Hraw & _); [lia | lia |].
  exists req. split; [exact Hsends | exact Hraw].
Defined.

(** [ShowsEpisodes] with subtitles. *)
Lemma listing_flags_witness :
  exists req,
    sends (ShowsEpisodes (answers 200 empty_envelope) some_errURLParsing (anonymous "key")
             1 0 2 0 true) req
    /\ query_of req !! "subtitles" = Some ["true"].
Proof.
  destruct (listing_flags (answers 200 empty_envelope) some_errURLParsing
              (anonymous "key") eq_refl) as (_ & _ & Hepisodes).
  destruct (Hepisodes 1 0 2 0 true) as (req & Hsends & [Hflag _]); [left; lia|].
  exists req. split; [exact Hsends | now apply Hflag].
Defined.

(** [ShowFavorite] of the show 0. *)
Lemma show_calls_without_identifier_witness :
  fails_locally
    (ShowFavorite (answers 200 empty_envelope) some_errURLParsing (anonymous "key") 0)
    errIDNotProperlySet.
Proof.
  destruct (show_calls_without_identifier (answers 200 empty_envelope) some_errURLParsing
              (anonymous "key") 0 0 0 3 eq_refl) as (Hfavorite & _); [lia | lia | lia |].
  exact Hfavorite.
Defined.

(** [EpisodeNotDownloaded] of the episode -3. *)
Lemma episode_marks_witness :
  exists req,
    sends (EpisodeNotDownloaded (answers 200 empty_envelope) some_errURLParsing
             (anonymous "key") (-3)) req
    /\ Method req = "DELETE"
    /\ URL_String (Target req) = "https://api.betaseries.com/episodes/downloaded?id=-3".
Proof.
  destruct (episode_marks (answers 200 empty_envelope) some_errURLParsing
              (anonymous "key") (-3) eq_refl) as (_ & req & Hsends & Hmethod & Hurl & _).
  exists req. split; [exact Hsends|]. split; [exact Hmethod | exact Hurl].
Defined.

(** The one show of the body of the scenario is returned. *)
Lemma collections_returned_whole_witness :
  exists l,
    fst (doGetShows (answers 200 lost_body) (anonymous "key")
           (api_url "/shows/search" ∅) "/shows/search" []) = Returns (inr l)
    /\ length l = 1%nat.
Proof.
  destruct (collections_returned_whole (answers 200 lost_body) some_errURLParsing
              (anonymous "key") [] (mkResponse 200 lost_body) eq_refl) as (Hshows & _).
  eexists. split.
  - eapply (Hshows (api_url "/shows/search" ∅) "/shows/search");
      [reflexivity | vm_compute; reflexivity | discriminate].
  - reflexivity.
Defined.

(** A granted login whose body is not JSON. *)
Lemma NewBetaseriesClient_token_body_error_witness :
  NewBetaseriesClient (answers 200 "<html>") no_md5 "key" "login" "password" [] =
  (Returns (anonymous "key",
            Some (Errorf ("Error decoding token response :%v" +:+ newline)
                    ["invalid character looking for beginning of value"])),
   [auth_request no_md5 "key" "login" "password"]).
Proof.
  apply (NewBetaseriesClient_token_body_error (answers 200 "<html>") no_md5
           "key" "login" "password" [] (mkResponse 200 "<html>")
           "invalid character looking for beginning of value");
    [discriminate | discriminate | reflexivity | reflexivity | reflexivity].
Defined.
